(** * The OCLP Electron patcher: patch / restore state machine

    A shallow embedding of [ElectronPatcher] from
    [electron_patcher_oclp_full.py]: the filesystem, the process table and
    the patcher's output are an explicit state that every method threads;
    a Python exception is an outcome of its own, so that a [try]/[except]
    of the source is a handler here and an exception nobody catches is
    visible in the result. *)

From Stdlib Require Import ZArith Ascii String List Bool Lia.
From Stdlib Require Import Decimal DecimalString DecimalZ.
From Stdlib Require Import Floats.SpecFloat.
From stdpp Require Import base option list strings gmap.

Local Open Scope string_scope.
Local Open Scope list_scope.
Local Set Warnings "-register-all".

(** ** Python strings

    A [str] is kept as the bytes of its UTF-8 encoding.  Every separator
    and needle the patcher uses is ASCII, so searching and splitting the
    bytes agrees with searching and splitting the code points. *)

Module PyStr.

(** [needle in hay]. *)
Fixpoint contains (needle hay : string) : bool :=
  String.prefix needle hay ||
  match hay with
  | EmptyString => false
  | String _ rest => contains needle rest
  end.

(** [s.split(sep)] for a one-character separator. *)
Fixpoint split (sep : ascii) (s : string) : list string :=
  match s with
  | EmptyString => [EmptyString]
  | String c rest =>
      if Ascii.eqb c sep then EmptyString :: split sep rest
      else match split sep rest with
           | h :: t => String c h :: t
           | [] => [String c EmptyString]
           end
  end.

Definition lower_ascii (c : ascii) : ascii :=
  let n := nat_of_ascii c in
  if (65 <=? n)%nat && (n <=? 90)%nat then ascii_of_nat (n + 32) else c.

(** [s.lower()], on the ASCII letters. *)
Fixpoint lower (s : string) : string :=
  match s with
  | EmptyString => EmptyString
  | String c rest => String (lower_ascii c) (lower rest)
  end.

(** [sep.join(l)]. *)
Fixpoint join (sep : string) (l : list string) : string :=
  match l with
  | [] => EmptyString
  | [x] => x
  | x :: rest => x ++ sep ++ join sep rest
  end.

(** The white space that [str.strip] removes, by its UTF-8 bytes.  One
    byte: the ASCII white space and the separators 0x1c to 0x1f.  Two
    bytes: U+0085 and U+00A0.  Three bytes: U+1680, U+2000 to U+200A,
    U+2028, U+2029, U+202F, U+205F and U+3000. *)
Definition is_space (c : ascii) : bool :=
  let n := nat_of_ascii c in
  (n =? 32)%nat || ((9 <=? n)%nat && (n <=? 13)%nat) ||
  ((28 <=? n)%nat && (n <=? 31)%nat).

Definition is_space2 (a b : ascii) : bool :=
  let y := nat_of_ascii b in
  (nat_of_ascii a =? 194)%nat && ((y =? 133)%nat || (y =? 160)%nat).

Definition is_space3 (a b c : ascii) : bool :=
  let x := nat_of_ascii a in
  let y := nat_of_ascii b in
  let z := nat_of_ascii c in
  ((x =? 225)%nat && (y =? 154)%nat && (z =? 128)%nat) ||
  ((x =? 226)%nat && (y =? 128)%nat &&
   (((128 <=? z)%nat && (z <=? 138)%nat) || (z =? 168)%nat ||
    (z =? 169)%nat || (z =? 175)%nat)) ||
  ((x =? 226)%nat && (y =? 129)%nat && (z =? 159)%nat) ||
  ((x =? 227)%nat && (y =? 128)%nat && (z =? 128)%nat).

(** Drop the white space a text starts with; [sp2] and [sp3] recognise
    the characters of two and three bytes. *)
Fixpoint lstrip_with (sp2 : ascii -> ascii -> bool)
         (sp3 : ascii -> ascii -> ascii -> bool) (s : string) : string :=
  match s with
  | EmptyString => EmptyString
  | String a r1 =>
      if is_space a then lstrip_with sp2 sp3 r1
      else
        match r1 with
        | EmptyString => s
        | String b r2 =>
            if sp2 a b then lstrip_with sp2 sp3 r2
            else
              match r2 with
              | EmptyString => s
              | String c r3 =>
                  if sp3 a b c then lstrip_with sp2 sp3 r3 else s
              end
        end
  end.

Definition lstrip (s : string) : string := lstrip_with is_space2 is_space3 s.

(** The same from the end: the bytes of a character come last byte
    first in the reversed text. *)
Definition rstrip (s : string) : string :=
  String.rev
    (lstrip_with (fun b a => is_space2 a b) (fun c b a => is_space3 a b c)
                 (String.rev s)).

(** [s.strip()]. *)
Definition strip (s : string) : string := rstrip (lstrip s).

(** [s.endswith(suffix)]. *)
Definition endswith (s suffix : string) : bool :=
  String.prefix (String.rev suffix) (String.rev s).

Definition dquote : string := String (ascii_of_nat 34) EmptyString.

Definition newline : string := String (ascii_of_nat 10) EmptyString.

(** Truthiness of an [Optional[str]]: [None] and the empty string are
    false. *)
Definition truthy (o : option string) : bool :=
  match o with
  | Some (String _ _) => true
  | _ => false
  end.

End PyStr.

(** ** JSON values, as [json.loads] builds them

    A [dict] keeps insertion order; it is an association list in which a
    key is looked up at its first occurrence, replaced in place when it is
    there and appended when it is not. *)

Inductive json : Type :=
| JNull
| JBool (b : bool)
| JInt (z : Z)
| JFloat (f : spec_float)
| JStr (s : string)
| JArr (items : list json)
| JObj (members : list (string * json)).

Module Dict.

Fixpoint get (k : string) (d : list (string * json)) : option json :=
  match d with
  | [] => None
  | (k', v) :: rest => if String.eqb k k' then Some v else get k rest
  end.

Definition mem (k : string) (d : list (string * json)) : bool :=
  match get k d with Some _ => true | None => false end.

(** [d[k] = v]. *)
Fixpoint set (k : string) (v : json) (d : list (string * json))
  : list (string * json) :=
  match d with
  | [] => [(k, v)]
  | (k', v') :: rest =>
      if String.eqb k k' then (k', v) :: rest else (k', v') :: set k v rest
  end.

(** [d.setdefault(k, dflt)]: the value now at [k], and the dict. *)
Definition setdefault (k : string) (dflt : json) (d : list (string * json))
  : json * list (string * json) :=
  match get k d with
  | Some v => (v, d)
  | None => (dflt, set k dflt d)
  end.

End Dict.

(** Truthiness of a Python value ([if v:]). *)
Definition py_truthy (v : json) : bool :=
  match v with
  | JNull => false
  | JBool b => b
  | JInt z => negb (z =? 0)%Z
  | JFloat f => match f with S754_zero _ => false | _ => true end
  | JStr s => match s with EmptyString => false | _ => true end
  | JArr l => match l with [] => false | _ => true end
  | JObj d => match d with [] => false | _ => true end
  end.

(** The binary64 number 1.0. *)
Definition float_one : spec_float := S754_finite false 4503599627370496 (-52).

(** [v == b] for a bool [b]: Python's [True] and [False] compare equal to
    the numbers 1 and 0. *)
Definition py_eq_bool (v : option json) (b : bool) : bool :=
  match v with
  | Some (JBool b') => Bool.eqb b' b
  | Some (JInt z) => (z =? (if b then 1 else 0))%Z
  | Some (JFloat f) =>
      if b then SFeqb f float_one
      else match f with S754_zero _ => true | _ => false end
  | _ => false
  end.

(** ** The world the patcher runs in *)

Inductive exn : Type :=
| PermissionError
| FileNotFoundError
| FileExistsError
| IsADirectoryError
| SameFileError
| UnicodeDecodeError
| JSONDecodeError
| InvalidFileException
| TypeError
| AttributeError
| ValueError
| NotADirectoryError
| OSError.

Definition show_exn (e : exn) : string :=
  match e with
  | PermissionError => "PermissionError"
  | FileNotFoundError => "FileNotFoundError"
  | FileExistsError => "FileExistsError"
  | IsADirectoryError => "IsADirectoryError"
  | SameFileError => "SameFileError"
  | UnicodeDecodeError => "UnicodeDecodeError"
  | JSONDecodeError => "JSONDecodeError"
  | InvalidFileException => "InvalidFileException"
  | TypeError => "TypeError"
  | AttributeError => "AttributeError"
  | ValueError => "ValueError"
  | NotADirectoryError => "NotADirectoryError"
  | OSError => "OSError"
  end.

(** A path names a regular file, with its bytes and permission bits, or
    a directory, or it cannot be examined: [stat] fails on it for another
    reason than that nothing is there, and so does every other system
    call, with the same error.  That is [PermissionError] for a path
    behind a directory the user may not search, and [OSError] for a name
    that is too long. *)
Inductive node : Type :=
| File (content : string) (mode : Z)
| Dir
| NoStat (error : exn).

(** The state a method reads and writes: the filesystem, what the user
    may not read or change, the home directory, the answers of [pgrep]
    and [mdfind] ([None] when [subprocess.run] itself raises), the lines
    printed so far and the patcher's [results] dict. *)
Record St : Type := mkSt {
  files : gmap string node;
  denied : gset string;
  unreadable : gset string;
  home : string;
  pgrep : string -> option Z;
  mdfind : string -> option string;
  out : list string;
  results : list (string * string)
}.

Definition with_files (fs : gmap string node) (s : St) : St :=
  mkSt fs (denied s) (unreadable s) (home s) (pgrep s) (mdfind s)
       (out s) (results s).

Definition with_out (o : list string) (s : St) : St :=
  mkSt (files s) (denied s) (unreadable s) (home s) (pgrep s) (mdfind s)
       o (results s).

Definition with_results (r : list (string * string)) (s : St) : St :=
  mkSt (files s) (denied s) (unreadable s) (home s) (pgrep s) (mdfind s)
       (out s) r.

(** ** Computations: state passing with exceptions *)

Inductive outcome (A : Type) : Type :=
| Ret (a : A)
| Raise (e : exn).
Arguments Ret {A} a.
Arguments Raise {A} e.

Definition M (A : Type) : Type := St -> outcome A * St.

Definition ret {A} (a : A) : M A := fun s => (Ret a, s).

Definition raise {A} (e : exn) : M A := fun s => (Raise e, s).

Definition bind {A B} (m : M A) (k : A -> M B) : M B :=
  fun s =>
    match m s with
    | (Ret a, s') => k a s'
    | (Raise e, s') => (Raise e, s')
    end.

(** [try: m  except Exception as e: h e]. *)
Definition try_except {A} (m : M A) (h : exn -> M A) : M A :=
  fun s =>
    match m s with
    | (Ret a, s') => (Ret a, s')
    | (Raise e, s') => h e s'
    end.

Definition gets {A} (f : St -> A) : M A := fun s => (Ret (f s), s).

Definition modify (f : St -> St) : M unit := fun s => (Ret tt, f s).

Notation "'let*' x ':=' m 'in' k" := (bind m (fun x => k))
  (at level 10, x pattern, m at level 100, k at level 200).
Notation "m ';;' k" := (bind m (fun _ => k))
  (at level 100, k at level 200, right associativity).

Definition lift_outcome {A} (o : outcome A) : M A := fun s => (o, s).

(** [when c: m]. *)
Definition when (c : bool) (m : M unit) : M unit :=
  if c then m else ret tt.

(** ** Paths *)

Module PyPath.

(** A path is kept as its text, [str(path)], which [pathlib] holds in
    normal form: a root, then names joined by single slashes.  Two texts
    are the same path when they are equal: the model has no symbolic
    links and does not resolve [..]. *)

(** The root [PurePosixPath] reads off a text: two leading slashes are a
    root of their own, one slash, or three and more, are [/]. *)
Definition root_of (p : string) : string :=
  match p with
  | String "/" (String "/" (String "/" _)) => "/"
  | String "/" (String "/" _) => "//"
  | String "/" _ => "/"
  | _ => EmptyString
  end.

Definition is_name (x : string) : bool :=
  negb (String.eqb x EmptyString || String.eqb x ".").

(** The names of a text: its pieces between slashes, the empty ones and
    [.] left out. *)
Definition names_of (p : string) : list string :=
  List.filter is_name (PyStr.split "/" p).

(** The text of the path with this root and these names. *)
Definition format (root : string) (names : list string) : string :=
  match root, names with
  | EmptyString, [] => "."
  | _, _ => root ++ PyStr.join "/" names
  end.

(** [str(Path(p))]. *)
Definition path (p : string) : string := format (root_of p) (names_of p).

(** [a / b]: an absolute right operand replaces the left one. *)
Definition join (a b : string) : string :=
  match root_of b with
  | EmptyString => format (root_of a) (names_of a ++ names_of b)
  | root => format root (names_of b)
  end.

(** [p.name]: the last name, empty for a root and for [.]. *)
Definition name (p : string) : string := List.last (names_of p) EmptyString.

(** [p.parent]: a root and [.] are their own parents, a bare name has
    parent [.]. *)
Definition parent (p : string) : string :=
  format (root_of p) (List.removelast (names_of p)).

(** The text of [p.with_suffix(p.suffix + extra)] for a path in normal
    form that has a name: whatever the name's own suffix is, [extra] is
    added at the end of the name, which is the end of the text. *)
Definition add_suffix (p extra : string) : string := p ++ extra.

(** [p.with_suffix(p.suffix + extra)], for an [extra] that starts with a
    dot and holds no slash: a path without a name has no suffix to
    replace. *)
Definition with_suffix (p extra : string) : outcome string :=
  match name p with
  | EmptyString => Raise ValueError
  | _ => Ret (add_suffix p extra)
  end.

(** [Path(p).expanduser()] for the [~] of the current user, whose home
    is [home_dir]. *)
Definition expanduser (home_dir p : string) : string :=
  match root_of p, names_of p with
  | EmptyString, "~" :: rest =>
      format (root_of home_dir) (names_of home_dir ++ rest)
  | _, _ => path p
  end.

End PyPath.

(** ** Filesystem primitives *)

Module FS.

(** [p.exists()]: [Path.exists] answers [False] when [stat] fails because
    nothing is there, and lets every other failure of [stat] pass. *)
Definition exists_ (p : string) : M bool :=
  fun s =>
    match files s !! p with
    | None => (Ret false, s)
    | Some (NoStat e) => (Raise e, s)
    | Some _ => (Ret true, s)
    end.

(** [os.path.isdir(p)], which answers [False] for every failure. *)
Definition is_dir (p : string) (s : St) : bool :=
  match files s !! p with Some Dir => true | _ => false end.

(** Strict UTF-8: [more] continuation bytes are still due and the next
    one lies in [lo..hi]. *)
Fixpoint utf8_valid_from (more lo hi : nat) (s : string) : bool :=
  match s with
  | EmptyString => (more =? 0)%nat
  | String c rest =>
      let n := nat_of_ascii c in
      match more with
      | O =>
          if (n <? 128)%nat then utf8_valid_from 0 128 191 rest
          else if (194 <=? n)%nat && (n <=? 223)%nat
               then utf8_valid_from 1 128 191 rest
          else if (n =? 224)%nat then utf8_valid_from 2 160 191 rest
          else if (n =? 237)%nat then utf8_valid_from 2 128 159 rest
          else if (225 <=? n)%nat && (n <=? 239)%nat
               then utf8_valid_from 2 128 191 rest
          else if (n =? 240)%nat then utf8_valid_from 3 144 191 rest
          else if (241 <=? n)%nat && (n <=? 243)%nat
               then utf8_valid_from 3 128 191 rest
          else if (n =? 244)%nat then utf8_valid_from 3 128 143 rest
          else false
      | S m =>
          (lo <=? n)%nat && (n <=? hi)%nat && utf8_valid_from m 128 191 rest
      end
  end.

Definition utf8_valid (s : string) : bool := utf8_valid_from 0 128 191 s.

Definition read_bytes (p : string) : M string :=
  fun s =>
    match files s !! p with
    | None => (Raise FileNotFoundError, s)
    | Some Dir => (Raise IsADirectoryError, s)
    | Some (NoStat e) => (Raise e, s)
    | Some (File c _) =>
        if bool_decide (p ∈ unreadable s) then (Raise PermissionError, s)
        else (Ret c, s)
    end.

(** [p.read_text()], in the UTF-8 locale of macOS. *)
Definition read_text (p : string) : M string :=
  let* c := read_bytes p in
  if utf8_valid c then ret c else raise UnicodeDecodeError.

(** Permission bits of a file the process creates. *)
Definition default_mode : Z := 420.

(** What keeps a new entry from being made at [p]: its directory is
    missing, is no directory or cannot be searched. *)
Definition parent_error (p : string) (s : St) : option exn :=
  match files s !! PyPath.parent p with
  | Some Dir => None
  | Some (File _ _) => Some NotADirectoryError
  | Some (NoStat e) => Some e
  | None => Some FileNotFoundError
  end.

(** Open [p] for writing and replace its bytes; a new file needs its
    directory to be there. *)
Definition write_bytes (p : string) (c : string) : M unit :=
  fun s =>
    match files s !! p with
    | Some Dir => (Raise IsADirectoryError, s)
    | Some (NoStat e) => (Raise e, s)
    | Some (File _ m) =>
        if bool_decide (p ∈ denied s) then (Raise PermissionError, s)
        else (Ret tt, with_files (<[p := File c m]> (files s)) s)
    | None =>
        match parent_error p s with
        | Some e => (Raise e, s)
        | None =>
            if bool_decide (p ∈ denied s) then (Raise PermissionError, s)
            else (Ret tt, with_files (<[p := File c default_mode]> (files s)) s)
        end
    end.

Definition write_text (p : string) (c : string) : M unit := write_bytes p c.

(** [shutil.copy2(src, dst)]: bytes and permission bits; a directory
    as destination receives the file under the source's name, and a
    file is not copied onto itself. *)
Definition copy2 (src dst : string) : M unit :=
  fun s =>
    let dst' := if is_dir dst s then PyPath.join dst (PyPath.name src)
                else dst in
    match files s !! src with
    | None => (Raise FileNotFoundError, s)
    | Some Dir => (Raise IsADirectoryError, s)
    | Some (NoStat e) => (Raise e, s)
    | Some (File c m) =>
        if String.eqb src dst' then (Raise SameFileError, s)
        else if bool_decide (src ∈ unreadable s) then (Raise PermissionError, s)
        else
          match write_bytes dst' c s with
          | (Ret _, s') =>
              (Ret tt, with_files (<[dst' := File c m]> (files s')) s')
          | (Raise e, s') => (Raise e, s')
          end
    end.

(** [p.unlink()]. *)
Definition unlink (p : string) : M unit :=
  fun s =>
    match files s !! p with
    | None => (Raise FileNotFoundError, s)
    | Some Dir => (Raise PermissionError, s)
    | Some (NoStat e) => (Raise e, s)
    | Some (File _ _) =>
        if bool_decide (p ∈ denied s) then (Raise PermissionError, s)
        else (Ret tt, with_files (delete p (files s)) s)
    end.

(** [p.chmod(p.stat().st_mode | bits)]. *)
Definition chmod_or (p : string) (bits : Z) : M unit :=
  fun s =>
    match files s !! p with
    | None => (Raise FileNotFoundError, s)
    | Some Dir => (Ret tt, s)
    | Some (NoStat e) => (Raise e, s)
    | Some (File c m) =>
        if bool_decide (p ∈ denied s) then (Raise PermissionError, s)
        else (Ret tt, with_files (<[p := File c (Z.lor m bits)]> (files s)) s)
    end.

(** [os.mkdir(p)] where nothing is at [p] and its directory is there. *)
Definition make_dir (p : string) : M unit :=
  fun s =>
    if bool_decide (p ∈ denied s) then (Raise PermissionError, s)
    else (Ret tt, with_files (<[p := Dir]> (files s)) s).

(** [p.mkdir(parents=True, exist_ok=True)]: a directory that is there
    is accepted, a missing parent is made first; [fuel] bounds the
    number of ancestors that are visited, and a path that is its own
    parent has no parent to make. *)
Fixpoint mkdir_parents (fuel : nat) (p : string) : M unit :=
  fun s =>
    match files s !! p with
    | Some Dir => (Ret tt, s)
    | Some (File _ _) => (Raise FileExistsError, s)
    | Some (NoStat e) => (Raise e, s)
    | None =>
        match parent_error p s with
        | None => make_dir p s
        | Some FileNotFoundError =>
            match fuel with
            | O => (Raise FileNotFoundError, s)
            | S n =>
                if String.eqb (PyPath.parent p) p
                then (Raise FileNotFoundError, s)
                else
                  match mkdir_parents n (PyPath.parent p) s with
                  | (Ret _, s') => make_dir p s'
                  | (Raise e, s') => (Raise e, s')
                  end
            end
        | Some e => (Raise e, s)
        end
    end.

End FS.

(** ** The registry's entries and the patcher object *)

Record AppConfig : Type := mkAppConfig {
  name : string;
  local_state_paths : list string;
  settings_file : option string;
  settings_key : option string;
  needs_executable_patch : bool;
  bundle_id : option string;
  app_paths : list string;
  notes : string
}.

Record Patcher : Type := mkPatcher {
  dry_run : bool;
  verbose : bool
}.

Definition BACKUP_SUFFIX : string := ".oclp-original".
Definition WRAPPER_MARKER : string := "# OCLP-WRAPPER-SCRIPT".

Definition DESIRED_KEY : string := "use-angle".
Definition DESIRED_VALUE : string := "1".

(** [stat.S_IXUSR | stat.S_IXGRP | stat.S_IXOTH]. *)
Definition S_IXUSR : Z := 64.
Definition S_IXGRP : Z := 8.
Definition S_IXOTH : Z := 1.
Definition exec_bits : Z := Z.lor (Z.lor S_IXUSR S_IXGRP) S_IXOTH.

(** [sys.argv[0]], the name the script is started under. *)
Definition argv0 : string := "electron_patcher_oclp_full.py".

Definition print_line (msg : string) : M unit :=
  modify (fun s => with_out (out s ++ [msg]) s).

(** [self.log(msg, force)]. *)
Definition log (self : Patcher) (msg : string) (force : bool) : M unit :=
  when (verbose self || force) (print_line msg).

(** [subprocess.run(["pgrep", "-f", pattern], ...)]: the return code. *)
Definition run_pgrep (pattern : string) : M Z :=
  fun s =>
    match pgrep s pattern with
    | Some rc => (Ret rc, s)
    | None => (Raise OSError, s)
    end.

(** [subprocess.run(["mdfind", query], ..., timeout=10)]: the standard
    output. *)
Definition run_mdfind (query : string) : M string :=
  fun s =>
    match mdfind s query with
    | Some stdout => (Ret stdout, s)
    | None => (Raise OSError, s)
    end.

(** The loop over [config.app_paths]: each text is made a [Path]. *)
Fixpoint first_existing (paths : list string) : M (option string) :=
  match paths with
  | [] => ret None
  | app_path :: rest =>
      let p := PyPath.path app_path in
      let* there := FS.exists_ p in
      if there then ret (Some p) else first_existing rest
  end.

Definition find_app_path (config : AppConfig) : M (option string) :=
  let* hit := first_existing (app_paths config) in
  match hit with
  | Some p => ret (Some p)
  | None =>
      match bundle_id config with
      | Some (String _ _ as bid) =>
          try_except
            (let* stdout :=
               run_mdfind ("kMDItemCFBundleIdentifier == '" ++ bid ++ "'") in
             let found :=
               List.filter (fun p => PyStr.endswith p ".app")
                 (PyStr.split (ascii_of_nat 10) (PyStr.strip stdout)) in
             match found with
             | p :: _ => ret (Some (PyPath.path p))
             | [] => ret None
             end)
            (fun _ => ret None)
      | _ => ret None
      end
  end.

Definition is_app_running (config : AppConfig) : M bool :=
  match bundle_id config with
  | Some (String _ _ as bid) =>
      try_except
        (let* rc := run_pgrep bid in ret (rc =? 0)%Z)
        (fun _ =>
           try_except
             (let* rc := run_pgrep (name config) in ret (rc =? 0)%Z)
             (fun _ => ret false))
  | _ => ret false
  end.

Definition is_already_patched (executable_path : option string) : M bool :=
  match executable_path with
  | None => ret false
  | Some p =>
      let* there := FS.exists_ p in
      if negb there then ret false
      else
        try_except
          (let* content := FS.read_text p in
           ret (PyStr.contains WRAPPER_MARKER content))
          (fun _ => ret false)
  end.

Definition create_wrapper_script (original_path backup_path : string) : string :=
  let nl := PyStr.newline in
  let q := PyStr.dquote in
  "#!/bin/bash" ++ nl ++
  WRAPPER_MARKER ++ nl ++
  "# This wrapper was created by electron_patcher_oclp_full.py" ++ nl ++
  "# Original executable backed up to: " ++ PyPath.name backup_path ++ nl ++
  "# To restore: mv " ++ q ++ backup_path ++ q ++ " " ++
     q ++ original_path ++ q ++ nl ++
  nl ++
  "# Path to the original executable (backup)" ++ nl ++
  "ORIGINAL_EXEC=" ++ q ++ backup_path ++ q ++ nl ++
  nl ++
  "# Launch with OpenGL ANGLE backend" ++ nl ++
  "exec " ++ q ++ "$ORIGINAL_EXEC" ++ q ++ " --use-angle=gl " ++
     q ++ "$@" ++ q ++ nl.

(** ** Library and tool calls the patcher consumes

    [json.loads] and [plistlib.load] give [None] where Python raises;
    [json.dumps] takes the indent; the two tools are started through
    [subprocess.run], which may raise, may change the bundle on disk, and
    gives the return code (and, for [codesign], the error output). *)

Class Externals : Type := {
  json_loads : string -> option json;
  json_dumps : nat -> json -> string;
  plistlib_load : string -> option json;
  xattr_cr : string -> M Z;
  codesign_adhoc : string -> M (Z * string)
}.

Section Methods.

Context `{Ext : Externals}.
Variable self : Patcher.

Definition get_executable_from_app (app_path : option string)
  : M (option string) :=
  match app_path with
  | None => ret None
  | Some app =>
      let info_plist :=
        PyPath.join (PyPath.join app "Contents") "Info.plist" in
      let* there := FS.exists_ info_plist in
      if negb there then ret None
      else
        try_except
          (let* raw := FS.read_bytes info_plist in
           match plistlib_load raw with
           | None => raise InvalidFileException
           | Some (JObj plist) =>
               match Dict.get "CFBundleExecutable" plist with
               | Some executable_name =>
                   if py_truthy executable_name then
                     match executable_name with
                     | JStr nm =>
                         ret (Some (PyPath.join
                                      (PyPath.join (PyPath.join app "Contents")
                                                   "MacOS") nm))
                     | _ => raise TypeError
                     end
                   else ret None
               | None => ret None
               end
           | Some _ => raise AttributeError
           end)
          (fun e =>
             log self ("  [ERROR] Failed to read Info.plist: " ++ show_exn e)
                 false ;;
             ret None)
  end.

(** The re-signing step of [patch_executable]; a failure is a warning. *)
Definition resign_after_patch (app : string) : M unit :=
  log self ("  [SIGN] Re-signing " ++ app ++ "...") false ;;
  try_except
    (xattr_cr app ;;
     let* (rc, stderr) := codesign_adhoc app in
     if (rc =? 0)%Z then log self "  [SIGN] Successfully re-signed" false
     else
       log self ("  [WARN] Code signing failed: " ++ stderr) false ;;
       log self ("  [WARN] Try: sudo codesign --force --deep --sign - " ++
                 PyStr.dquote ++ app ++ PyStr.dquote) true)
    (fun e => log self ("  [WARN] Could not re-sign: " ++ show_exn e) false).

Definition patch_executable (config : AppConfig) : M bool :=
  let* app_path := find_app_path config in
  match app_path with
  | None =>
      log self ("  [SKIP] App not found: " ++ name config) false ;; ret false
  | Some app =>
  let* executable_path := get_executable_from_app (Some app) in
  match executable_path with
  | None =>
      log self ("  [ERROR] Could not find executable in " ++ app) false ;;
      ret false
  | Some exe =>
  let* backup_path := lift_outcome (PyPath.with_suffix exe BACKUP_SUFFIX) in
  let* patched := is_already_patched (Some exe) in
  if patched then
    log self ("  [OK] Already patched: " ++ exe) false ;; ret false
  else
  let* stale :=
    (let* there := FS.exists_ backup_path in
     if there then
       let* again := is_already_patched (Some exe) in ret (negb again)
     else ret false) in
  when stale
    (log self
       "  [WARN] Backup exists but executable isn't patched. Restoring first..."
       false ;;
     when (negb (dry_run self)) (FS.copy2 backup_path exe)) ;;
  let* running := is_app_running config in
  if running then
    log self ("  [ERROR] " ++ name config ++ " is running. Please quit it first.")
        true ;;
    ret false
  else
  log self ("  [PATCH] " ++ exe) false ;;
  if dry_run self then
    log self ("  [DRY-RUN] Would backup to: " ++ backup_path) false ;;
    log self "  [DRY-RUN] Would create wrapper script" false ;;
    ret true
  else
    try_except
      (let* there := FS.exists_ backup_path in
       when (negb there)
         (FS.copy2 exe backup_path ;;
          log self ("  [BACKUP] Created: " ++ backup_path) false) ;;
       let wrapper_script := create_wrapper_script exe backup_path in
       FS.write_text exe wrapper_script ;;
       FS.chmod_or exe exec_bits ;;
       resign_after_patch app ;;
       log self ("  [SUCCESS] Patched " ++ name config) false ;;
       ret true)
      (fun e =>
         match e with
         | PermissionError =>
             log self ("  [ERROR] Permission denied. Try: sudo python3 " ++
                       argv0 ++ " ...") true ;;
             ret false
         | _ =>
             log self ("  [ERROR] Failed to patch: " ++ show_exn e) true ;;
             ret false
         end)
  end
  end.

Definition restore_executable (config : AppConfig) : M bool :=
  let* app_path := find_app_path config in
  match app_path with
  | None =>
      log self ("  [SKIP] App not found: " ++ name config) false ;; ret false
  | Some app =>
  let* executable_path := get_executable_from_app (Some app) in
  match executable_path with
  | None =>
      log self ("  [ERROR] Could not find executable in " ++ app) false ;;
      ret false
  | Some exe =>
  let* backup_path := lift_outcome (PyPath.with_suffix exe BACKUP_SUFFIX) in
  let* there := FS.exists_ backup_path in
  if negb there then
    log self ("  [SKIP] No backup found for " ++ name config) false ;;
    ret false
  else
  let* running := is_app_running config in
  if running then
    log self ("  [ERROR] " ++ name config ++ " is running. Please quit it first.")
        true ;;
    ret false
  else
  log self ("  [RESTORE] " ++ exe) false ;;
  if dry_run self then
    log self ("  [DRY-RUN] Would restore from: " ++ backup_path) false ;;
    ret true
  else
    try_except
      (FS.copy2 backup_path exe ;;
       FS.unlink backup_path ;;
       xattr_cr app ;;
       codesign_adhoc app ;;
       log self ("  [SUCCESS] Restored " ++ name config) false ;;
       ret true)
      (fun e =>
         log self ("  [ERROR] Failed to restore: " ++ show_exn e) true ;;
         ret false)
  end
  end.

(** *** The preference-flag patch *)

Definition replacement : string := DESIRED_KEY ++ "@" ++ DESIRED_VALUE.

(** What the loop of [patch_local_state] decides for one entry. *)
Inductive verdict : Type :=
| Skipped
| Correct
| Rewritten (current_value : string).

Definition judge (entry : json) : verdict :=
  match entry with
  | JStr text =>
      if negb (PyStr.contains "@" text) then Skipped
      else
        let parts := PyStr.split "@" text in
        let key := hd EmptyString parts in
        let rest := tl parts in
        if negb (String.eqb key DESIRED_KEY) then Skipped
        else
          let current_value := hd EmptyString rest in
          if String.eqb current_value DESIRED_VALUE then Correct
          else Rewritten current_value
  | _ => Skipped
  end.

(** The [for i, entry in enumerate(experiments)] loop: the list after
    the in-place assignments, [changed] and [found_correct]. *)
Fixpoint scan_experiments (experiments : list json)
  : M (list json * bool * bool) :=
  match experiments with
  | [] => ret ([], false, false)
  | entry :: rest =>
      let* (entry', changed, found_correct) :=
        match judge entry with
        | Skipped => ret (entry, false, false)
        | Correct =>
            log self ("  [OK] " ++ replacement ++ " already set") false ;;
            ret (entry, false, true)
        | Rewritten current_value =>
            log self ("  [UPDATE] " ++ DESIRED_KEY ++ "@" ++ current_value ++
                      " -> " ++ replacement) false ;;
            ret (JStr replacement, true, false)
        end in
      let* (rest', changed', found_correct') := scan_experiments rest in
      ret (entry' :: rest', changed || changed', found_correct || found_correct')
  end.

(** [replacement in experiments]. *)
Definition has_replacement (experiments : list json) : bool :=
  existsb (fun e => match e with
                    | JStr text => String.eqb text replacement
                    | _ => false
                    end) experiments.

(** The flag list of the document, obtained or created: the two
    [setdefault] calls and the reset of a value that is not a list.  The
    result is the list and the document in which it sits; the list is
    shared with the document, which [with_experiments] follows. *)
Definition open_experiments (state_data : json)
  : outcome (list json * list (string * json) * list (string * json)) :=
  match state_data with
  | JObj top =>
      let (browser, top') := Dict.setdefault "browser" (JObj []) top in
      match browser with
      | JObj members =>
          let (experiments, members') :=
            Dict.setdefault "enabled_labs_experiments" (JArr []) members in
          match experiments with
          | JArr items => Ret (items, members', top')
          | _ =>
              Ret ([], Dict.set "enabled_labs_experiments" (JArr []) members',
                   top')
          end
      | _ => Raise AttributeError
      end
  | _ => Raise AttributeError
  end.

(** The document once the shared list holds [items]. *)
Definition with_experiments (items : list json)
           (members top : list (string * json)) : json :=
  JObj (Dict.set "browser"
          (JObj (Dict.set "enabled_labs_experiments" (JArr items) members))
          top).

Definition patch_local_state (state_file : string) (app_name : string)
  : M bool :=
  let* there := FS.exists_ state_file in
  if negb there then
    log self ("  [SKIP] Local State not found: " ++ state_file) false ;;
    ret false
  else
  let* parsed :=
    try_except
      (let* text := FS.read_text state_file in
       match json_loads text with
       | Some v => ret (Some v)
       | None => raise JSONDecodeError
       end)
      (fun e =>
         log self ("  [ERROR] Failed to parse " ++ state_file ++ ": " ++
                   show_exn e) false ;;
         ret None) in
  match parsed with
  | None => ret false
  | Some state_data =>
  let* (experiments, members, top) :=
    lift_outcome (open_experiments state_data) in
  let* (experiments, changed, found_correct) :=
    scan_experiments experiments in
  let* (experiments, changed) :=
    (if negb found_correct && negb (has_replacement experiments) then
       log self ("  [ADD] " ++ replacement) false ;;
       ret (experiments ++ [JStr replacement], true)
     else ret (experiments, changed)) in
  if negb changed then ret false
  else if dry_run self then
    log self ("  [DRY-RUN] Would write to " ++ state_file) false ;;
    ret true
  else
    try_except
      (FS.write_text state_file
         (json_dumps 4 (with_experiments experiments members top)) ;;
       log self ("  [WRITE] Updated " ++ state_file) false ;;
       ret true)
      (fun e =>
         log self ("  [ERROR] Failed to write " ++ state_file ++ ": " ++
                   show_exn e) false ;;
         ret false)
  end.

(** *** The settings-key patch *)

(** The walk along [keys[:-1]] and the assignment at [final_key], on the
    object [target] points into: a missing segment is created, a segment
    that is no object raises where Python does.  The result tells whether
    the value at the final key had to change, and gives the document with
    the segments created and the final key set. *)
Fixpoint set_path (keys : list string) (final_key : string)
         (desired_value : bool) (target : json) : outcome (bool * json) :=
  match keys with
  | [] =>
      match target with
      | JObj d =>
          if py_eq_bool (Dict.get final_key d) desired_value
          then Ret (false, target)
          else Ret (true, JObj (Dict.set final_key (JBool desired_value) d))
      | _ => Raise AttributeError
      end
  | key :: keys' =>
      match target with
      | JObj d =>
          let (child, d1) := Dict.setdefault key (JObj []) d in
          match set_path keys' final_key desired_value child with
          | Ret (changed, child') =>
              Ret (changed, JObj (Dict.set key child' d1))
          | Raise e => Raise e
          end
      | _ => Raise TypeError
      end
  end.

Definition show_bool (b : bool) : string := if b then "True" else "False".

Definition patch_settings_file (config : AppConfig) : M bool :=
  match settings_file config, settings_key config with
  | Some (String _ _ as file), Some (String _ _ as dotted) =>
  let* home_dir := gets home in
  let settings_path := PyPath.expanduser home_dir file in
  let* there := FS.exists_ settings_path in
  let* usable :=
    (if there then ret true
     else
       log self ("  [SKIP] Settings file not found: " ++ settings_path) false ;;
       if PyStr.contains "docker" (PyStr.lower (name config)) then
         try_except
           (FS.mkdir_parents (String.length settings_path)
                             (PyPath.parent settings_path) ;;
            FS.write_text settings_path "{}" ;;
            log self "  [CREATE] Created empty settings file" false ;;
            ret true)
           (fun _ => ret false)
       else ret false) in
  if negb usable then ret false
  else
  let* parsed :=
    try_except
      (let* text := FS.read_text settings_path in
       let content := PyStr.strip text in
       let content := match content with EmptyString => "{}" | _ => content end in
       match json_loads content with
       | Some v => ret (Some v)
       | None => raise JSONDecodeError
       end)
      (fun e =>
         log self ("  [ERROR] Failed to parse " ++ settings_path ++ ": " ++
                   show_exn e) false ;;
         ret None) in
  match parsed with
  | None => ret false
  | Some settings_data =>
  let keys := PyStr.split "." dotted in
  let final_key := List.last keys EmptyString in
  let desired_value := PyStr.contains "disable" (PyStr.lower final_key) in
  let* (changed, settings_data') :=
    lift_outcome
      (set_path (List.removelast keys) final_key desired_value settings_data) in
  if negb changed then
    log self ("  [OK] " ++ dotted ++ " already set to " ++
              show_bool desired_value) false ;;
    ret false
  else if dry_run self then
    log self ("  [DRY-RUN] Would set " ++ dotted ++ "=" ++
              show_bool desired_value) false ;;
    ret true
  else
    try_except
      (FS.write_text settings_path (json_dumps 2 settings_data') ;;
       log self ("  [WRITE] Set " ++ dotted ++ "=" ++ show_bool desired_value)
           false ;;
       ret true)
      (fun e =>
         log self ("  [ERROR] Failed to write " ++ settings_path ++ ": " ++
                   show_exn e) false ;;
         ret false)
  end
  | _, _ => ret false
  end.

(** *** The orchestrator *)

Definition banner : string :=
  "============================================================".

Fixpoint patch_local_states (library : string) (rel_paths : list string)
         (app_name : string) : M (list string) :=
  match rel_paths with
  | [] => ret []
  | rel_path :: rest =>
      let state_file := PyPath.join library rel_path in
      let* done := patch_local_state state_file app_name in
      let* more := patch_local_states library rest app_name in
      ret ((if done then ["Local State patched"] else []) ++ more)
  end.

Definition patch_known_app (app_name : string) (config : AppConfig)
           (patch_executables : bool) : M string :=
  let* app_path := find_app_path config in
  match app_path with
  | None => ret "Not installed"
  | Some app =>
      print_line EmptyString ;; print_line banner ;;
      print_line ("Patching: " ++ app_name) ;;
      print_line banner ;;
      when (match notes config with EmptyString => false | _ => true end)
        (print_line ("  Note: " ++ notes config)) ;;
      let* home_dir := gets home in
      let library := PyPath.join home_dir "Library" in
      let* r1 := patch_local_states library (local_state_paths config) app_name in
      let* r2 :=
        (if PyStr.truthy (settings_file config) then
           let* done := patch_settings_file config in
           ret (if done then ["Settings patched"] else [])
         else ret []) in
      let* r3 :=
        (if patch_executables && needs_executable_patch config then
           let* exec_path := get_executable_from_app (Some app) in
           let* already :=
             match exec_path with
             | Some exe => is_already_patched (Some exe)
             | None => ret false
             end in
           if already then ret ["Executable already patched"]
           else
             let* done := patch_executable config in
             ret (if done then ["Executable patched"] else [])
         else ret []) in
      let results := r1 ++ r2 ++ r3 in
      match results with
      | [] =>
          if needs_executable_patch config && negb patch_executables
          then ret "⚠️  Needs --patch-executables flag"
          else ret "No changes needed"
      | _ => ret (PyStr.join ", " results)
      end
  end.

(** [self.results[app_name] = result]. *)
Fixpoint results_set (k v : string) (d : list (string * string))
  : list (string * string) :=
  match d with
  | [] => [(k, v)]
  | (k', v') :: rest =>
      if String.eqb k k' then (k', v) :: rest else (k', v') :: results_set k v rest
  end.

Definition record_result (app_name result : string) : M unit :=
  modify (fun s => with_results (results_set app_name result (results s)) s).

(** The loop over [KNOWN_APPS.items()], the registry being given in its
    order. *)
Fixpoint patch_all_known_apps (known_apps : list (string * AppConfig))
         (patch_executables : bool) : M unit :=
  match known_apps with
  | [] => ret tt
  | (app_name, config) :: rest =>
      let* result := patch_known_app app_name config patch_executables in
      when (negb (String.eqb result "Not installed"))
        (record_result app_name result) ;;
      patch_all_known_apps rest patch_executables
  end.

Fixpoint restore_all_apps (known_apps : list (string * AppConfig)) : M unit :=
  match known_apps with
  | [] => ret tt
  | (app_name, config) :: rest =>
      (if needs_executable_patch config then
         let* app_path := find_app_path config in
         match app_path with
         | None => ret tt
         | Some app =>
             let* exec_path := get_executable_from_app (Some app) in
             let* backed_up :=
               match exec_path with
               | Some exe =>
                   let* backup_path :=
                     lift_outcome (PyPath.with_suffix exe BACKUP_SUFFIX) in
                   FS.exists_ backup_path
               | None => ret false
               end in
             if negb backed_up then ret tt
             else
               print_line EmptyString ;; print_line banner ;;
               print_line ("Restoring: " ++ app_name) ;;
               print_line banner ;;
               let* done := restore_executable config in
               record_result app_name
                 (if done then "Restored" else "Failed to restore")
         end
       else ret tt) ;;
      restore_all_apps rest
  end.

(** The status [list_detected_apps] prints after the name of an
    installed app. *)
Definition patch_status (config : AppConfig) (app : string) : M string :=
  if needs_executable_patch config then
    let* exec_path := get_executable_from_app (Some app) in
    let* already :=
      match exec_path with
      | Some exe => is_already_patched (Some exe)
      | None => ret false
      end in
    if already then ret " ✅ [PATCHED]" else ret " ❌ [NOT PATCHED]"
  else ret " ⚪ [Native app - no patch needed]".

End Methods.

(** ** A reference environment for running the methods

    A printer and a reader for the JSON documents without fractional
    numbers (layout of [json.dumps(..., indent=n)]), a reader for the one
    manifest key the patcher asks for, and tools that succeed and leave
    the disk alone.  The theorems below hold for every [Externals]; this
    one serves to run the methods on concrete files. *)

Module Ref.

Definition show_Z (z : Z) : string :=
  NilZero.string_of_int (Z.to_int z).

Fixpoint spaces (n : nat) : string :=
  match n with
  | O => EmptyString
  | S m => String " " (spaces m)
  end.

Fixpoint escape (s : string) : string :=
  match s with
  | EmptyString => EmptyString
  | String c rest =>
      let n := nat_of_ascii c in
      if (n =? 34)%nat then String "\" (String c (escape rest))
      else if (n =? 92)%nat then String "\" (String "\" (escape rest))
      else if (n =? 10)%nat then String "\" (String "n" (escape rest))
      else if (n =? 9)%nat then String "\" (String "t" (escape rest))
      else String c (escape rest)
  end.

Definition quoted (s : string) : string :=
  PyStr.dquote ++ escape s ++ PyStr.dquote.

Definition break (indent level : nat) : string :=
  PyStr.newline ++ spaces (indent * level).

Fixpoint dumps_at (indent level : nat) (v : json) : string :=
  match v with
  | JNull => "null"
  | JBool true => "true"
  | JBool false => "false"
  | JInt z => show_Z z
  | JFloat _ => "NaN"
  | JStr s => quoted s
  | JArr [] => "[]"
  | JArr (x :: xs) =>
      "[" ++ break indent (S level) ++ dumps_at indent (S level) x ++
      (fix rest (l : list json) : string :=
         match l with
         | [] => EmptyString
         | y :: ys =>
             ("," ++ break indent (S level) ++ dumps_at indent (S level) y ++
              rest ys)%string
         end) xs ++
      break indent level ++ "]"
  | JObj [] => "{}"
  | JObj ((k, x) :: xs) =>
      "{" ++ break indent (S level) ++ quoted k ++ ": " ++
      dumps_at indent (S level) x ++
      (fix rest (l : list (string * json)) : string :=
         match l with
         | [] => EmptyString
         | (k', y) :: ys =>
             ("," ++ break indent (S level) ++ quoted k' ++ ": " ++
              dumps_at indent (S level) y ++ rest ys)%string
         end) xs ++
      break indent level ++ "}"
  end.

Definition dumps (indent : nat) (v : json) : string := dumps_at indent 0 v.

Definition is_ws (c : ascii) : bool :=
  let n := nat_of_ascii c in
  (n =? 32)%nat || (n =? 9)%nat || (n =? 10)%nat || (n =? 13)%nat.

Fixpoint skip_ws (s : string) : string :=
  match s with
  | String c rest => if is_ws c then skip_ws rest else s
  | EmptyString => EmptyString
  end.

(** The text after the opening quote, up to the closing one. *)
Fixpoint read_string (acc : string) (s : string) : option (string * string) :=
  match s with
  | EmptyString => None
  | String c rest =>
      let n := nat_of_ascii c in
      if (n =? 34)%nat then Some (acc, rest)
      else if (n =? 92)%nat then
        match rest with
        | String e rest' =>
            let m := nat_of_ascii e in
            if (m =? 34)%nat || (m =? 92)%nat || (m =? 47)%nat
            then read_string (acc ++ String e EmptyString) rest'
            else if (m =? 110)%nat
            then read_string (acc ++ PyStr.newline) rest'
            else if (m =? 116)%nat
            then read_string (acc ++ String (ascii_of_nat 9) EmptyString) rest'
            else None
        | EmptyString => None
        end
      else if (n <? 32)%nat then None
      else read_string (acc ++ String c EmptyString) rest
  end.

Definition is_digit (c : ascii) : bool :=
  let n := nat_of_ascii c in (48 <=? n)%nat && (n <=? 57)%nat.

Fixpoint take_digits (s : string) : string * string :=
  match s with
  | String c rest =>
      if is_digit c then
        let (d, r) := take_digits rest in (String c d, r)
      else (EmptyString, s)
  | EmptyString => (EmptyString, EmptyString)
  end.

Definition read_int (s : string) : option (json * string) :=
  let (neg, body) :=
    match s with
    | String "-" rest => (true, rest)
    | _ => (false, s)
    end in
  let (digits, rest) := take_digits body in
  match digits, rest with
  | EmptyString, _ => None
  | _, String "." _ => None
  | _, String "e" _ => None
  | _, String "E" _ => None
  | _, _ =>
      match NilZero.uint_of_string digits with
      | Some u =>
          let z := Z.of_uint u in
          Some (JInt (if neg then (- z)%Z else z), rest)
      | None => None
      end
  end.

Definition expect (word : string) (v : json) (s : string)
  : option (json * string) :=
  if String.prefix word s
  then Some (v, String.substring (String.length word)
                    (String.length s - String.length word) s)
  else None.

Fixpoint read_value (fuel : nat) (s : string) : option (json * string) :=
  match fuel with
  | O => None
  | S n =>
      match skip_ws s with
      | String "n" _ as t => expect "null" JNull t
      | String "t" _ as t => expect "true" (JBool true) t
      | String "f" _ as t => expect "false" (JBool false) t
      | String "[" rest =>
          match skip_ws rest with
          | String "]" rest' => Some (JArr [], rest')
          | t => read_items n [] t
          end
      | String "{" rest =>
          match skip_ws rest with
          | String "}" rest' => Some (JObj [], rest')
          | t => read_members n [] t
          end
      | String c rest as t =>
          if (nat_of_ascii c =? 34)%nat then
            match read_string EmptyString rest with
            | Some (text, rest') => Some (JStr text, rest')
            | None => None
            end
          else read_int t
      | EmptyString => None
      end
  end
with read_items (fuel : nat) (acc : list json) (s : string)
  : option (json * string) :=
  match fuel with
  | O => None
  | S n =>
      match read_value n s with
      | Some (v, rest) =>
          match skip_ws rest with
          | String "," rest' => read_items n (acc ++ [v]) rest'
          | String "]" rest' => Some (JArr (acc ++ [v]), rest')
          | _ => None
          end
      | None => None
      end
  end
with read_members (fuel : nat) (acc : list (string * json)) (s : string)
  : option (json * string) :=
  match fuel with
  | O => None
  | S n =>
      match skip_ws s with
      | String c rest =>
          if negb (nat_of_ascii c =? 34)%nat then None else
          match read_string EmptyString rest with
          | Some (key, rest') =>
              match skip_ws rest' with
              | String ":" rest'' =>
                  match read_value n rest'' with
                  | Some (v, rest3) =>
                      match skip_ws rest3 with
                      | String "," rest4 =>
                          read_members n (Dict.set key v acc) rest4
                      | String "}" rest4 =>
                          Some (JObj (Dict.set key v acc), rest4)
                      | _ => None
                      end
                  | None => None
                  end
              | _ => None
              end
          | None => None
          end
      | _ => None
      end
  end.

Definition loads (s : string) : option json :=
  match read_value (2 * String.length s + 4) s with
  | Some (v, rest) =>
      match skip_ws rest with
      | EmptyString => Some v
      | _ => None
      end
  | None => None
  end.

(** The text between [opening] and the next [closing], at the first
    place [opening] occurs. *)
Fixpoint after (opening : string) (s : string) : option string :=
  if String.prefix opening s
  then Some (String.substring (String.length opening)
               (String.length s - String.length opening) s)
  else match s with
       | EmptyString => None
       | String _ rest => after opening rest
       end.

Fixpoint before (closing : string) (s : string) : option string :=
  if String.prefix closing s then Some EmptyString
  else match s with
       | EmptyString => None
       | String c rest =>
           match before closing rest with
           | Some t => Some (String c t)
           | None => None
           end
       end.

(** An XML manifest: the dict with its [CFBundleExecutable] string, when
    it has one. *)
Definition plist_load (raw : string) : option json :=
  if negb (PyStr.contains "<plist" raw) then None
  else
    match after "<key>CFBundleExecutable</key><string>" raw with
    | Some t =>
        match before "</string>" t with
        | Some nm => Some (JObj [("CFBundleExecutable", JStr nm)])
        | None => None
        end
    | None => Some (JObj [])
    end.

#[export] Instance externals : Externals := {
  json_loads := loads;
  json_dumps := dumps;
  plistlib_load := plist_load;
  xattr_cr := fun _ => ret 0%Z;
  codesign_adhoc := fun _ => ret (0%Z, EmptyString)
}.

(** The first bytes of a 64-bit Mach-O binary: not UTF-8. *)
Definition macho_magic : string :=
  String (ascii_of_nat 207)
    (String (ascii_of_nat 250)
       (String (ascii_of_nat 237) (String (ascii_of_nat 254) EmptyString))).

(** An ad-hoc signature as [codesign] writes it for Mach-O code: into
    the file, in place of the signature the file had. *)
Definition adhoc_signed (c : string) : string :=
  if PyStr.endswith c "[adhoc]" then c else c ++ "[adhoc]".

(** The environment with a signer that works, for a bundle whose main
    executable is [main]: [codesign --force --sign -] writes the ad-hoc
    signature into the main executable when that is Mach-O code; the
    signature of a script is kept beside the script, whose text stays. *)
Definition signing (main : string) : Externals := {|
  json_loads := loads;
  json_dumps := dumps;
  plistlib_load := plist_load;
  xattr_cr := fun _ => ret 0%Z;
  codesign_adhoc := fun _ =>
    modify (fun s =>
              match files s !! main with
              | Some (File c m) =>
                  if String.prefix macho_magic c
                  then with_files (<[main := File (adhoc_signed c) m]> (files s)) s
                  else s
              | _ => s
              end) ;;
    ret (0%Z, EmptyString)
|}.

(** A manifest naming [exe] as the bundle's executable. *)
Definition manifest (exe : string) : string :=
  "<plist><dict><key>CFBundleExecutable</key><string>" ++ exe ++
  "</string></dict></plist>".

(** No process matches any pattern. *)
Definition nothing_runs : string -> option Z := fun _ => Some 1%Z.

Definition no_index : string -> option string := fun _ => Some EmptyString.

(** A state with the given files and directories, every file being
    readable and writable, for the user whose home is [/Users/u]. *)
Definition state (nodes : list (string * node))
           (procs : string -> option Z) : St :=
  mkSt (list_to_map nodes) ∅ ∅ "/Users/u" procs no_index [] [].

End Ref.

(** ** Some entries of [KNOWN_APPS] *)

Definition slack : AppConfig :=
  mkAppConfig "Slack"
    ["Application Support/Slack/Local State"]
    (Some "~/Library/Application Support/Slack/local-settings.json")
    (Some "useHwAcceleration")
    true
    (Some "com.tinyspeck.slackmacgap")
    ["/Applications/Slack.app"]
    EmptyString.

Definition docker_desktop : AppConfig :=
  mkAppConfig "Docker Desktop"
    ["Application Support/Docker Desktop/Local State"]
    (Some "~/Library/Group Containers/group.com.docker/settings-store.json")
    (Some "disableHardwareAcceleration")
    true
    (Some "com.docker.docker")
    ["/Applications/Docker.app"]
    "Also patches settings to disable HW acceleration".

Definition one_password : AppConfig :=
  mkAppConfig "1Password"
    []
    (Some "~/Library/Group Containers/2BUA8C4S2C.com.1password/Library/Application Support/1Password/Data/settings/settings.json")
    (Some "app.useHardwareAcceleration")
    false
    (Some "com.1password.1password")
    ["/Applications/1Password.app"]
    "Disable 'Use Hardware Acceleration' in Settings > Advanced".

Definition bitwarden : AppConfig :=
  mkAppConfig "Bitwarden"
    ["Application Support/Bitwarden/Local State"]
    None None true
    (Some "com.bitwarden.desktop")
    ["/Applications/Bitwarden.app"]
    EmptyString.

(** Two neighbours of the registry, in its order. *)
Definition password_managers : list (string * AppConfig) :=
  [("1Password", one_password); ("Bitwarden", bitwarden)].

Definition vesktop : AppConfig :=
  mkAppConfig "Vesktop" [] None None true
    (Some "dev.vencord.vesktop")
    ["/Applications/Vesktop.app"]
    EmptyString.

(** ** The specification's words, for comparison with the code *)

(** The running check as the specification words it: match the bundle
    identifier; with no identifier or no match, match the display name;
    a query that fails counts as no match. *)
Definition is_app_running_as_specified (config : AppConfig) : M bool :=
  fun s =>
    let matches pattern :=
      match pgrep s pattern with
      | Some rc => (rc =? 0)%Z
      | None => false
      end in
    let by_identifier :=
      match bundle_id config with
      | Some (String _ _ as bid) => matches bid
      | _ => false
      end in
    (Ret (by_identifier || matches (name config)), s).

(** The three states of the specification and its detection rule:
    backup and marker disagreeing is Inconsistent, otherwise the marker
    decides. *)
Inductive exec_state : Type :=
| Unpatched
| Patched
| Inconsistent.

Definition state_as_specified (marker backup : bool) : exec_state :=
  if xorb marker backup then Inconsistent
  else if marker then Patched else Unpatched.

(** The state [list_detected_apps] reports with a status. *)
Definition state_of_status (status : string) : option exec_state :=
  if String.eqb status " ✅ [PATCHED]" then Some Patched
  else if String.eqb status " ❌ [NOT PATCHED]" then Some Unpatched
  else None.

(** ** Vocabulary of the statements *)

(** The entry is installed at [app] and its manifest names the
    executable [exe], a path with a name, so that the backup path
    beside it can be formed. *)
Definition resolves `{Ext : Externals} (self : Patcher) (config : AppConfig)
           (s : St) (app exe : string) : Prop :=
  fst (find_app_path config s) = Ret (Some app) /\
  fst (get_executable_from_app self (Some app) s) = Ret (Some exe) /\
  PyPath.name exe <> EmptyString.

(** Every path can be examined: [stat] fails only where nothing is. *)
Definition reachable (s : St) : Prop :=
  forall p e, files s !! p <> Some (NoStat e).

(** The same, as a test over the entries of the disk. *)
Definition no_access_free (s : St) : bool :=
  forallb (fun entry => match snd entry with NoStat _ => false | _ => true end)
          (map_to_list (files s)).

(** What the tests that stand before the [try] of the two executable
    methods raise in state [s] for the entry [config]: the error of a
    path that cannot be examined, and the [ValueError] of an executable
    without a name. *)
Definition raised_before_try `{Ext : Externals} (self : Patcher)
           (config : AppConfig) (s : St) (e : exn) : Prop :=
  (exists p, files s !! p = Some (NoStat e)) \/
  (e = ValueError /\
   exists app exe,
     fst (find_app_path config s) = Ret (Some app) /\
     fst (get_executable_from_app self (Some app) s) = Ret (Some exe) /\
     PyPath.name exe = EmptyString).

(** Two states with the same files and the same permissions. *)
Definition same_disk (s s' : St) : Prop :=
  files s' = files s /\ denied s' = denied s /\ unreadable s' = unreadable s.

(** A computation that leaves the disk as it finds it. *)
Definition keeps_disk {A} (m : M A) : Prop :=
  forall s, same_disk s (snd (m s)).

(** The two tools change nothing the model keeps on disk: extended
    attributes and signatures are outside of it. *)
Definition tools_keep_disk `{Ext : Externals} : Prop :=
  forall app, keeps_disk (xattr_cr app) /\ keeps_disk (codesign_adhoc app).

(** Two states with the same thing at [p]: its bytes, its permission
    bits and what the user may do with it. *)
Definition same_file (p : string) (s s' : St) : Prop :=
  files s' !! p = files s !! p /\
  (p ∈ denied s' <-> p ∈ denied s) /\
  (p ∈ unreadable s' <-> p ∈ unreadable s).

(** A computation that leaves alone what is at [p]. *)
Definition keeps_file {A} (p : string) (m : M A) : Prop :=
  forall s, same_file p s (snd (m s)).

(** The two tools leave alone what is at [p], whatever else they sign
    or clear. *)
Definition tools_keep_file `{Ext : Externals} (p : string) : Prop :=
  forall app, keeps_file p (xattr_cr app) /\ keeps_file p (codesign_adhoc app).

(** ** States used in the examples *)

Module Fixtures.

Definition slack_exe : string := "/Applications/Slack.app/Contents/MacOS/Slack".

Definition slack_bundle (exe_content : string) : list (string * node) :=
  [("/", Dir); ("/Applications", Dir); ("/Applications/Slack.app", Dir);
   ("/Applications/Slack.app/Contents", Dir);
   ("/Applications/Slack.app/Contents/MacOS", Dir);
   ("/Applications/Slack.app/Contents/Info.plist",
    File (Ref.manifest "Slack") 420);
   (slack_exe, File exe_content 493)].

(** A 64-bit Mach-O binary: not UTF-8. *)
Definition macho : string := Ref.macho_magic ++ "BINARY".

(** Slack installed and not patched, nothing running. *)
Definition slack_fresh : St := Ref.state (slack_bundle macho) Ref.nothing_runs.

(** An entry without bundle identifier, which [AppConfig] allows. *)
Definition unidentified : AppConfig :=
  mkAppConfig "Slack" [] None None true None ["/Applications/Slack.app"]
    EmptyString.

(** A process table in which only the display name matches. *)
Definition name_matches : string -> option Z :=
  fun pattern => if String.eqb pattern "Slack" then Some 0%Z else Some 1%Z.

(** A process table whose query by identifier cannot be run, the one by
    name finding a process. *)
Definition id_query_fails : string -> option Z :=
  fun pattern => if String.eqb pattern "Slack" then Some 0%Z else None.

Definition quiet : Patcher := mkPatcher false false.

Definition slack_local_state : string :=
  "/Users/u/Library/Application Support/Slack/Local State".

(** Slack installed, its preference file holding [doc]. *)
Definition with_local_state (doc : json) : St :=
  Ref.state
    (slack_bundle macho ++
     [("/Users", Dir); ("/Users/u", Dir); ("/Users/u/Library", Dir);
      ("/Users/u/Library/Application Support", Dir);
      ("/Users/u/Library/Application Support/Slack", Dir);
      (slack_local_state, File (Ref.dumps 4 doc) 420)])
    Ref.nothing_runs.

Definition flags (items : list json) : json :=
  JObj [("browser", JObj [("enabled_labs_experiments", JArr items)])].

Definition doc_with_extra : json :=
  flags [JStr "x@1"; JStr "use-angle@1@beta"; JInt 7; JStr "plain"].

(** The sample document of the specification. *)
Definition doc_with_other_key : json :=
  JObj [("a", JInt 1);
        ("browser", JObj [("enabled_labs_experiments", JArr [JStr "x@1"])])].

(** Two entries for the target key, both with another value. *)
Definition doc_with_two_entries : json :=
  flags [JStr "use-angle@2"; JStr "use-angle@3"].

(** Slack with a wrapper in place of its executable and no backup
    beside it. *)
Definition slack_marker_only : St :=
  Ref.state
    (slack_bundle
       (create_wrapper_script slack_exe
          (PyPath.add_suffix slack_exe BACKUP_SUFFIX)))
    Ref.nothing_runs.

(** A process table in which Slack's identifier matches. *)
Definition slack_runs : string -> option Z :=
  fun pattern =>
    if String.eqb pattern "com.tinyspeck.slackmacgap" then Some 0%Z
    else Some 1%Z.

(** Slack running, its executable replaced by an update after an
    earlier patch: no marker in it, the old backup still beside it. *)
Definition slack_updated_while_patched : St :=
  Ref.state
    (slack_bundle "NEW-RELEASE" ++
     [(PyPath.add_suffix slack_exe BACKUP_SUFFIX, File "OLD-RELEASE" 493)])
    slack_runs.

Definition dry : Patcher := mkPatcher true true.

Definition docker_settings : string :=
  "/Users/u/Library/Group Containers/group.com.docker/settings-store.json".

(** Docker Desktop installed, never started: no settings file yet. *)
Definition docker_fresh : St :=
  Ref.state
    [("/", Dir); ("/Applications", Dir); ("/Applications/Docker.app", Dir);
     ("/Users", Dir); ("/Users/u", Dir); ("/Users/u/Library", Dir);
     ("/Users/u/Library/Group Containers", Dir)]
    Ref.nothing_runs.

Definition one_password_settings : string :=
  "/Users/u/Library/Group Containers/2BUA8C4S2C.com.1password/Library/Application Support/1Password/Data/settings/settings.json".

Definition bitwarden_local_state : string :=
  "/Users/u/Library/Application Support/Bitwarden/Local State".

(** 1Password and Bitwarden installed; the settings of 1Password hold a
    number where the dotted key expects an object; Bitwarden's
    preference file lacks the flag. *)
Definition one_password_odd_settings : St :=
  Ref.state
    [("/", Dir); ("/Applications", Dir);
     ("/Applications/1Password.app", Dir);
     ("/Applications/Bitwarden.app", Dir);
     (one_password_settings, File (Ref.dumps 2 (JObj [("app", JInt 5)])) 420);
     ("/Users/u/Library/Application Support/Bitwarden", Dir);
     (bitwarden_local_state, File (Ref.dumps 4 (flags [])) 420)]
    Ref.nothing_runs.

(** Slack installed, its executable write-protected. *)
Definition slack_write_protected : St :=
  mkSt (list_to_map (slack_bundle macho)) {[slack_exe]} ∅ "/Users/u"
       Ref.nothing_runs Ref.no_index [] [].

(** As [slack_updated_while_patched], Slack not running. *)
Definition slack_updated_idle : St :=
  Ref.state
    (slack_bundle "NEW-RELEASE" ++
     [(PyPath.add_suffix slack_exe BACKUP_SUFFIX, File "OLD-RELEASE" 493)])
    Ref.nothing_runs.

(** Slack installed, its preference file cut short. *)
Definition slack_corrupt_state : St :=
  Ref.state
    (slack_bundle macho ++
     [("/Users/u/Library/Application Support/Slack", Dir);
      (slack_local_state, File "{not json" 420)])
    Ref.nothing_runs.

(** The settings of 1Password with hardware acceleration on. *)
Definition accelerated : json :=
  JObj [("app", JObj [("useHardwareAcceleration", JBool true);
                      ("theme", JStr "dark")]);
        ("x", JInt 1)].

Definition not_accelerated : json :=
  JObj [("app", JObj [("useHardwareAcceleration", JBool false);
                      ("theme", JStr "dark")]);
        ("x", JInt 1)].

Definition one_password_accelerated : St :=
  Ref.state
    [("/", Dir); ("/Applications", Dir);
     ("/Applications/1Password.app", Dir);
     (one_password_settings, File (Ref.dumps 2 accelerated) 420)]
    Ref.nothing_runs.

Definition one_password_path : string :=
  "~/Library/Group Containers/2BUA8C4S2C.com.1password/Library/Application Support/1Password/Data/settings/settings.json".

(** A settings text cut short, between white space that [strip]
    removes: a file separator and a no-break space before it, a line
    separator after it. *)
Definition cut_short : string :=
  String (ascii_of_nat 28)
    (String (ascii_of_nat 194) (String (ascii_of_nat 160) "{not json")) ++
  String (ascii_of_nat 226)
    (String (ascii_of_nat 128) (String (ascii_of_nat 168) EmptyString)).

(** 1Password installed, its settings file cut short. *)
Definition one_password_corrupt : St :=
  Ref.state
    [("/", Dir); ("/Applications", Dir);
     ("/Applications/1Password.app", Dir);
     (one_password_settings, File cut_short 420)]
    Ref.nothing_runs.

(** Slack installed, unpatched and running. *)
Definition slack_running : St := Ref.state (slack_bundle macho) slack_runs.

(** What the metadata index prints for a bundle on another volume. *)
Definition index_output : string :=
  "/Volumes/Apps/Slack.app" ++ PyStr.newline ++
  "/Volumes/Apps/Slack.app/Contents/Info.plist" ++ PyStr.newline.

(** Slack installed in a bundle whose [Contents] the user may not
    search. *)
Definition slack_locked_bundle : St :=
  Ref.state
    [("/", Dir); ("/Applications", Dir); ("/Applications/Slack.app", Dir);
     ("/Applications/Slack.app/Contents", Dir);
     ("/Applications/Slack.app/Contents/Info.plist", NoStat PermissionError)]
    Ref.nothing_runs.

(** Slack with a manifest that names the root as its executable. *)
Definition slack_without_name : St :=
  Ref.state
    [("/", Dir); ("/Applications", Dir); ("/Applications/Slack.app", Dir);
     ("/Applications/Slack.app/Contents", Dir);
     ("/Applications/Slack.app/Contents/MacOS", Dir);
     ("/Applications/Slack.app/Contents/Info.plist",
      File (Ref.manifest "/") 420)]
    Ref.nothing_runs.

(** Slack installed, the directory of its executable closed to the
    user: the manifest can be read, the executable cannot be examined. *)
Definition slack_locked : St :=
  Ref.state
    [("/", Dir); ("/Applications", Dir); ("/Applications/Slack.app", Dir);
     ("/Applications/Slack.app/Contents", Dir);
     ("/Applications/Slack.app/Contents/MacOS", Dir);
     ("/Applications/Slack.app/Contents/Info.plist",
      File (Ref.manifest "Slack") 420);
     (slack_exe, NoStat PermissionError)]
    Ref.nothing_runs.

End Fixtures.

(** ** The loop of the preference-flag patch, in closed form *)

Definition is_correct (entry : json) : bool :=
  match judge entry with Correct => true | _ => false end.

Definition is_rewritten (entry : json) : bool :=
  match judge entry with Rewritten _ => true | _ => false end.

(** An entry for the target key: a string with an [@] whose text before
    the first [@] is the key. *)
Definition is_target (entry : json) : bool :=
  match judge entry with Skipped => false | _ => true end.

Definition rewrite_entry (entry : json) : json :=
  match judge entry with
  | Rewritten _ => JStr replacement
  | _ => entry
  end.

(** The flag list after the loop and the append, and [changed]. *)
Definition updated_experiments (items : list json) : list json * bool :=
  let items' := map rewrite_entry items in
  if negb (existsb is_correct items) && negb (has_replacement items')
  then (items' ++ [JStr replacement], true)
  else (items', existsb is_rewritten items).

(** How many entries the list has for the target key. *)
Definition count_target (items : list json) : nat :=
  length (List.filter is_target items).

(** ** Listing, summary and entry point *)

(** [sorted(d.items())] for a dict with string keys: the keys are
    distinct, so the order is the order of the keys, code point by code
    point. *)
Fixpoint insert_item {A} (item : string * A) (sorted : list (string * A))
  : list (string * A) :=
  match sorted with
  | [] => [item]
  | other :: rest =>
      if String.leb (fst item) (fst other) then item :: other :: rest
      else other :: insert_item item rest
  end.

Fixpoint sorted_items {A} (items : list (string * A)) : list (string * A) :=
  match items with
  | [] => []
  | item :: rest => insert_item item (sorted_items rest)
  end.

(** [str(n)] for a count. *)
Definition show_nat (n : nat) : string :=
  NilZero.string_of_uint (Nat.to_uint n).

(** The notes [print_summary] ends with. *)
Definition important_notes : string :=
  let nl := PyStr.newline in
  let q := PyStr.dquote in
  nl ++
  "1. If apps crash after patching, the code signing may have failed." ++ nl ++
  "   Run manually for each app:" ++ nl ++
  "   sudo codesign --force --deep --sign - " ++ q ++
  "/Applications/AppName.app" ++ q ++ nl ++
  nl ++
  "2. To restore all apps to original state:" ++ nl ++
  "   python3 electron_patcher_oclp_full.py --restore" ++ nl ++
  nl ++
  "3. After app updates, you'll need to re-run this script." ++ nl ++
  nl ++
  "4. For 1Password: Use the settings patch (no executable patch needed)" ++ nl ++
  "   Disable 'Hardware Acceleration' in 1Password Settings > Advanced" ++ nl ++
  nl ++
  "5. For Docker Desktop: The script patches settings-store.json" ++ nl ++
  "   to set disableHardwareAcceleration: true" ++ nl.

(** The parsed command line. *)
Record Args : Type := mkArgs {
  arg_dry_run : bool;
  arg_verbose : bool;
  arg_patch_executables : bool;
  arg_restore : bool;
  arg_list_apps : bool
}.

Section Reports.

Context `{Ext : Externals}.
Variable self : Patcher.

(** The loop of [list_detected_apps] over the sorted registry, with the
    two counters. *)
Fixpoint list_apps_loop (items : list (string * AppConfig))
         (installed_count patched_count : nat) : M (nat * nat) :=
  match items with
  | [] => ret (installed_count, patched_count)
  | (app_name, config) :: rest =>
      let* app_path := find_app_path config in
      match app_path with
      | None => list_apps_loop rest installed_count patched_count
      | Some app =>
          let installed_count := S installed_count in
          let* (patch_status, patched_count) :=
            (if needs_executable_patch config then
               let* exec_path := get_executable_from_app self (Some app) in
               let* already :=
                 match exec_path with
                 | Some exe => is_already_patched (Some exe)
                 | None => ret false
                 end in
               if already then ret (" ✅ [PATCHED]", S patched_count)
               else ret (" ❌ [NOT PATCHED]", patched_count)
             else ret (" ⚪ [Native app - no patch needed]", patched_count)) in
          print_line ("  " ++ app_name ++ patch_status) ;;
          when (verbose self)
            (print_line ("    Path: " ++ app) ;;
             when (match notes config with EmptyString => false | _ => true end)
               (print_line ("    Note: " ++ notes config))) ;;
          list_apps_loop rest installed_count patched_count
      end
  end.

Definition list_detected_apps (known_apps : list (string * AppConfig))
  : M unit :=
  print_line (PyStr.newline ++ banner) ;;
  print_line "Detected Chromium/Electron Apps" ;;
  print_line (banner ++ PyStr.newline) ;;
  let* (installed_count, patched_count) :=
    list_apps_loop (sorted_items known_apps) 0 0 in
  print_line (PyStr.newline ++ banner) ;;
  print_line ("Total installed: " ++ show_nat installed_count) ;;
  print_line ("Patched: " ++ show_nat patched_count) ;;
  print_line banner.

Fixpoint print_results (items : list (string * string)) : M unit :=
  match items with
  | [] => ret tt
  | (app_name, result) :: rest =>
      print_line ("  " ++ app_name ++ ": " ++ result) ;;
      print_results rest
  end.

Definition print_summary : M unit :=
  print_line (PyStr.newline ++ banner) ;;
  print_line "Summary" ;;
  print_line banner ;;
  when (dry_run self)
    (print_line ("(DRY RUN - no changes were made)" ++ PyStr.newline)) ;;
  let* recorded := gets results in
  match recorded with
  | [] => print_line "  No apps were modified."
  | _ => print_results (sorted_items recorded)
  end ;;
  print_line (PyStr.newline ++ banner) ;;
  print_line "Important Notes:" ;;
  print_line banner ;;
  print_line important_notes.

End Reports.

(** [main], after [argparse] has read the command line: [platform] is
    [sys.platform], the patcher is made from the arguments with an empty
    [results], and the value is the exit code. *)
Definition main `{Ext : Externals} (known_apps : list (string * AppConfig))
           (platform : string) (args : Args) : M Z :=
  if negb (String.eqb platform "darwin") then
    print_line "Error: This script is designed for macOS only." ;;
    ret 1%Z
  else
    let patcher := mkPatcher (arg_dry_run args) (arg_verbose args) in
    modify (with_results []) ;;
    if arg_list_apps args then
      list_detected_apps patcher known_apps ;;
      ret 0%Z
    else if arg_restore args then
      restore_all_apps patcher known_apps ;;
      print_summary patcher ;;
      ret 0%Z
    else
      patch_all_known_apps patcher known_apps (arg_patch_executables args) ;;
      print_summary patcher ;;
      ret 0%Z.

(** A computation that returns, whatever the state. *)
Definition never_raises {A} (m : M A) : Prop :=
  forall s, exists a, fst (m s) = Ret a.

(** A computation that changes no file and no directory outside [P]. *)
Definition touches_only {A} (P : string -> Prop) (m : M A) : Prop :=
  forall s p, ~ P p -> files (snd (m s)) !! p = files s !! p.

(** The directories above [p], [p] included, as far as [fuel] goes. *)
Fixpoint ancestors (fuel : nat) (p : string) : list string :=
  match fuel with
  | O => [p]
  | S n => p :: ancestors n (PyPath.parent p)
  end.

(** The value a settings document holds at a dotted key, [None] when a
    segment is missing or is no object. *)
Fixpoint get_path (keys : list string) (final_key : string) (doc : json)
  : option json :=
  match doc with
  | JObj d =>
      match keys with
      | [] => Dict.get final_key d
      | key :: keys' =>
          match Dict.get key d with
          | Some child => get_path keys' final_key child
          | None => None
          end
      end
  | _ => None
  end.

(** ** The pieces of the settings-key patch, by name *)

(** The text [patch_settings_file] parses: the file's, stripped, and
    [{}] for an empty one. *)
Definition settings_text (content : string) : string :=
  match PyStr.strip content with
  | EmptyString => "{}"
  | _ => PyStr.strip content
  end.

(** [keys[:-1]], [keys[-1]] and the desired value for a dotted key. *)
Definition walk_keys (dotted : string) : list string :=
  List.removelast (PyStr.split "." dotted).

Definition final_key_of (dotted : string) : string :=
  List.last (PyStr.split "." dotted) EmptyString.

Definition desired_value_of (dotted : string) : bool :=
  PyStr.contains "disable" (PyStr.lower (final_key_of dotted)).

(** * Properties *)

(** ** Observations that leave the state alone *)

(** Unfold the plumbing of the monad, and nothing of the data. *)
Ltac mred :=
  cbv beta iota zeta
      delta [bind ret raise try_except gets modify when lift_outcome
             print_line FS.exists_ FS.read_text FS.read_bytes run_pgrep
             run_mdfind negb andb orb fst snd] in *;
  cbn [files denied unreadable home pgrep mdfind out results
       with_out with_files with_results] in *.

(** Case analysis on [t], its value being put back wherever reduction
    brings [t] up again. *)
Ltac mcase t :=
  let E := fresh "E" in
  destruct t eqn:E; mred; rewrite ?E; mred.

Lemma with_out_same (s : St) : with_out (out s) s = s.
Proof. by destruct s. Qed.

Lemma log_spec (self : Patcher) (msg : string) (force : bool) (s : St) :
  exists o, log self msg force s = (Ret tt, with_out o s).
Proof.
  unfold log, when, print_line, modify.
  destruct (verbose self || force); eauto.
  exists (out s). by rewrite with_out_same.
Qed.

(** The look-ups change nothing, also when they raise; in a state in
    which every path can be examined they return. *)
Lemma reachable_check (s : St) : no_access_free s = true -> reachable s.
Proof.
  unfold no_access_free. rewrite forallb_forall. intros H p e Hp.
  apply elem_of_map_to_list, list_elem_of_In in Hp.
  by specialize (H _ Hp).
Qed.

Lemma exists_spec (p : string) (s : St) :
  exists o, FS.exists_ p s = (o, s).
Proof. unfold FS.exists_. destruct (files s !! p) as [[| |]|]; by eexists. Qed.

Lemma exists_reachable (p : string) (s : St) :
  reachable s -> exists b, FS.exists_ p s = (Ret b, s).
Proof.
  intros Hs. unfold FS.exists_. specialize (Hs p).
  destruct (files s !! p) as [[| |e]|];
    [by exists true | by exists true | by destruct (Hs e)
    | by exists false].
Qed.

Lemma first_existing_spec (paths : list string) (s : St) :
  exists o, first_existing paths s = (o, s).
Proof.
  induction paths as [|p rest IH]; cbn; [by eexists|].
  unfold bind, FS.exists_.
  destruct (files s !! PyPath.path p) as [[| |]|]; try by eexists. exact IH.
Qed.

Lemma first_existing_reachable (paths : list string) (s : St) :
  reachable s -> exists r, first_existing paths s = (Ret r, s).
Proof.
  intros Hs. induction paths as [|p rest IH]; cbn; [by eexists|].
  unfold bind. destruct (exists_reachable (PyPath.path p) s Hs) as [[|] ->];
    [by eexists | exact IH].
Qed.

Lemma find_app_path_spec (config : AppConfig) (s : St) :
  exists o, find_app_path config s = (o, s).
Proof.
  unfold find_app_path, bind.
  destruct (first_existing_spec (app_paths config) s) as [[[p|]|e] ->];
    try by eexists.
  destruct (bundle_id config) as [[|c bid]|]; try by eexists.
  unfold try_except, bind, run_mdfind.
  destruct (mdfind s _); [|by eexists].
  destruct (List.filter _ _); by eexists.
Qed.

Lemma find_app_path_reachable (config : AppConfig) (s : St) :
  reachable s -> exists r, find_app_path config s = (Ret r, s).
Proof.
  intros Hs. unfold find_app_path, bind.
  destruct (first_existing_reachable (app_paths config) s Hs) as [[p|] ->];
    [by eexists|].
  destruct (bundle_id config) as [[|c bid]|]; try by eexists.
  unfold try_except, bind, run_mdfind.
  destruct (mdfind s _); [|by eexists].
  destruct (List.filter _ _); by eexists.
Qed.

Lemma is_app_running_spec (config : AppConfig) (s : St) :
  exists b, is_app_running config s = (Ret b, s).
Proof.
  unfold is_app_running.
  destruct (bundle_id config) as [[|c bid]|]; try by eexists.
  unfold try_except, bind, run_pgrep.
  destruct (pgrep s (String c bid)); [by eexists|].
  destruct (pgrep s (name config)); by eexists.
Qed.

Lemma is_already_patched_spec (p : option string) (s : St) :
  exists o, is_already_patched p s = (o, s).
Proof.
  destruct p as [p|]; [|by eexists].
  unfold is_already_patched. mred.
  mcase (files s !! p); eauto.
  destruct n as [c m| |]; mred; rewrite ?E; eauto.
  mcase (bool_decide (p ∈ unreadable s)); eauto.
  mcase (FS.utf8_valid c); eauto.
Qed.

Lemma is_already_patched_reachable (p : option string) (s : St) :
  reachable s -> exists b, is_already_patched p s = (Ret b, s).
Proof.
  intros Hs. destruct p as [p|]; [|by eexists].
  unfold is_already_patched. mred. specialize (Hs p).
  mcase (files s !! p); eauto.
  destruct n as [c m| |e]; mred; rewrite ?E; eauto; [|by destruct (Hs e)].
  mcase (bool_decide (p ∈ unreadable s)); eauto.
  mcase (FS.utf8_valid c); eauto.
Qed.

(** ** The patched-state detector *)

(** Where the path can be examined, the detector answers [False] for a
    path that is not there and for one whose content cannot be read and
    decoded as text, and leaves the state as it was. *)
Lemma is_already_patched_unreadable_is_unpatched (p : string) (s : St) :
  (files s !! p = None \/
   (fst (FS.exists_ p s) = Ret true /\
    exists e, fst (FS.read_text p s) = Raise e)) ->
  is_already_patched (Some p) s = (Ret false, s).
Proof.
  intros [Hnone | [Hex [e He]]]; unfold is_already_patched; mred.
  - by rewrite Hnone.
  - mcase (files s !! p); [|done].
    destruct n as [c m| |]; mred; rewrite ?E in *; mred; [|done..].
    mcase (bool_decide (p ∈ unreadable s)); [done|].
    mcase (FS.utf8_valid c); done.
Qed.

(** C9: the test [executable_path.exists()] stands before the [try], and
    [Path.exists] lets a [stat] that fails for want of access pass as
    [PermissionError].  For Slack with the directory of its executable
    closed to the user, the manifest names the executable, its content
    cannot be read, and [is_already_patched] does not answer [False]:
    it raises. *)
Theorem is_already_patched_raises_without_access :
  fst (get_executable_from_app (Ext := Ref.externals) Fixtures.quiet
         (Some "/Applications/Slack.app") Fixtures.slack_locked)
  = Ret (Some Fixtures.slack_exe) /\
  fst (FS.read_text Fixtures.slack_exe Fixtures.slack_locked)
  = Raise PermissionError /\
  is_already_patched (Some Fixtures.slack_exe) Fixtures.slack_locked
  = (Raise PermissionError, Fixtures.slack_locked).
Proof. split; [|split]; vm_compute; reflexivity. Qed.

(** ** The running check *)

(** Slack's entry of the registry, with a process table in which the
    identifier matches nothing and the display name matches a process:
    the code answers [False] without asking for the name, the
    specification's words answer [True].  The same for an entry without
    identifier. *)
Lemma is_app_running_as_specified_differs :
  (is_app_running slack
     (Ref.state (Fixtures.slack_bundle Fixtures.macho) Fixtures.name_matches)
   = (Ret false,
      Ref.state (Fixtures.slack_bundle Fixtures.macho) Fixtures.name_matches) /\
   fst (is_app_running_as_specified slack
          (Ref.state (Fixtures.slack_bundle Fixtures.macho)
                     Fixtures.name_matches))
   = Ret true) /\
  (is_app_running Fixtures.unidentified
     (Ref.state (Fixtures.slack_bundle Fixtures.macho) Fixtures.name_matches)
   = (Ret false,
      Ref.state (Fixtures.slack_bundle Fixtures.macho) Fixtures.name_matches) /\
   fst (is_app_running_as_specified Fixtures.unidentified
          (Ref.state (Fixtures.slack_bundle Fixtures.macho)
                     Fixtures.name_matches))
   = Ret true).
Proof. split; split; reflexivity. Qed.

(** C7, as the code has it: an entry without bundle identifier is
    reported as not running and no query is made; with an identifier,
    the query by identifier decides whenever it can be run: a match
    reports running, no match reports not running, and the display name
    is not asked for; only when the query by identifier cannot be run
    is the display name matched instead, and a query by name that cannot
    be run either counts as not running. *)
Theorem is_app_running_by_identifier_then_name (config : AppConfig) (s : St) :
  (PyStr.truthy (bundle_id config) = false ->
   is_app_running config s = (Ret false, s)) /\
  (forall bid, bundle_id config = Some bid -> bid <> EmptyString ->
     (forall rc, pgrep s bid = Some rc ->
        is_app_running config s = (Ret (rc =? 0)%Z, s)) /\
     (pgrep s bid = None ->
      forall rc, pgrep s (name config) = Some rc ->
        is_app_running config s = (Ret (rc =? 0)%Z, s)) /\
     (pgrep s bid = None -> pgrep s (name config) = None ->
      is_app_running config s = (Ret false, s))).
Proof.
  unfold is_app_running. split.
  - destruct (bundle_id config) as [[|c bid]|]; done.
  - intros bid -> Hne. destruct bid as [|c bid]; [done|].
    mred. repeat split.
    + by intros rc ->.
    + by intros -> rc ->.
    + by intros -> ->.
Qed.

Lemma is_app_running_by_identifier_then_name_witness :
  is_app_running slack
    (Ref.state (Fixtures.slack_bundle Fixtures.macho) Fixtures.name_matches)
  = (Ret false,
     Ref.state (Fixtures.slack_bundle Fixtures.macho) Fixtures.name_matches) /\
  is_app_running slack
    (Ref.state (Fixtures.slack_bundle Fixtures.macho) Fixtures.id_query_fails)
  = (Ret true,
     Ref.state (Fixtures.slack_bundle Fixtures.macho) Fixtures.id_query_fails).
Proof.
  split.
  - pose proof (is_app_running_by_identifier_then_name slack
      (Ref.state (Fixtures.slack_bundle Fixtures.macho) Fixtures.name_matches))
      as [_ H].
    destruct (H "com.tinyspeck.slackmacgap" eq_refl ltac:(discriminate))
      as (Hid & _ & _).
    exact (Hid 1%Z eq_refl).
  - pose proof (is_app_running_by_identifier_then_name slack
      (Ref.state (Fixtures.slack_bundle Fixtures.macho) Fixtures.id_query_fails))
      as [_ H].
    destruct (H "com.tinyspeck.slackmacgap" eq_refl ltac:(discriminate))
      as (_ & Hname & _).
    exact (Hname eq_refl 0%Z eq_refl).
Defined.

(** ** The preference-flag patch *)

Lemma with_out_with_out (o o' : list string) (s : St) :
  with_out o' (with_out o s) = with_out o' s.
Proof. reflexivity. Qed.

Lemma scan_experiments_spec (self : Patcher) (items : list json) (s : St) :
  exists o,
    scan_experiments self items s
    = (Ret (map rewrite_entry items, existsb is_rewritten items,
            existsb is_correct items),
       with_out o s).
Proof.
  revert s. induction items as [|entry rest IH]; intros s.
  - exists (out s). cbn. by rewrite with_out_same.
  - cbn [scan_experiments map existsb].
    unfold rewrite_entry at 1, is_rewritten at 1, is_correct at 1.
    unfold log. mred.
    destruct (judge entry) eqn:J; destruct (verbose self); mred;
      match goal with
      | |- context [scan_experiments self rest ?s'] =>
          destruct (IH s') as [o ->]
      end; mred; eexists; reflexivity.
Qed.

(** What one application does to a file that holds a document with an
    accessible flag list. *)
Lemma patch_local_state_run `{Ext : Externals} (self : Patcher)
      (f app : string) (s : St) (c : string) (m : Z) (doc : json)
      (items : list json) (members top : list (string * json)) :
  files s !! f = Some (File c m) ->
  f ∉ unreadable s ->
  FS.utf8_valid c = true ->
  json_loads c = Some doc ->
  open_experiments doc = Ret (items, members, top) ->
  exists o,
    patch_local_state self f app s =
      let (items', changed) := updated_experiments items in
      if negb changed then (Ret false, with_out o s)
      else if dry_run self then (Ret true, with_out o s)
      else if bool_decide (f ∈ denied s) then (Ret false, with_out o s)
      else (Ret true,
            with_out o
              (with_files
                 (<[f := File (json_dumps 4 (with_experiments items' members top)) m]>
                    (files s)) s)).
Proof.
  intros Hf Hr Hu Hj Ho.
  unfold patch_local_state. mred. rewrite Hf. mred. rewrite Hf.
  rewrite (bool_decide_eq_false_2 _ Hr). mred. rewrite Hu. mred.
  rewrite Hj. mred. rewrite Ho. mred.
  destruct (scan_experiments_spec self items s) as [o1 ->]. mred.
  unfold updated_experiments, log, FS.write_text, FS.write_bytes.
  destruct (verbose self), (existsb is_correct items),
    (has_replacement (map rewrite_entry items)),
    (existsb is_rewritten items), (dry_run self); mred;
    rewrite ?Hf; mred;
    try (destruct (bool_decide (f ∈ denied s)); mred);
    eexists; reflexivity.
Qed.

(** *** Facts on dicts *)

Lemma dict_get_set_eq (k : string) (v : json) (d : list (string * json)) :
  Dict.get k (Dict.set k v d) = Some v.
Proof.
  induction d as [|[k' v'] d IH]; cbn.
  - by rewrite String.eqb_refl.
  - destruct (String.eqb k k') eqn:E; cbn; rewrite E; [done | exact IH].
Qed.

Lemma dict_get_set_ne (k k' : string) (v : json) (d : list (string * json)) :
  k <> k' -> Dict.get k' (Dict.set k v d) = Dict.get k' d.
Proof.
  intros Hne. induction d as [|[k0 v0] d IH]; cbn.
  - destruct (String.eqb k' k) eqn:E; [|done].
    apply String.eqb_eq in E. congruence.
  - destruct (String.eqb k k0) eqn:E; cbn; [|by rewrite IH].
    apply String.eqb_eq in E. subst k0.
    destruct (String.eqb k' k) eqn:E'; [|done].
    apply String.eqb_eq in E'. congruence.
Qed.

Lemma dict_setdefault_get (k : string) (dflt v : json)
      (d d' : list (string * json)) :
  Dict.setdefault k dflt d = (v, d') ->
  Dict.get k d' = Some v /\
  (forall k', k <> k' -> Dict.get k' d' = Dict.get k' d) /\
  (Dict.get k d = Some v \/ (Dict.get k d = None /\ v = dflt)).
Proof.
  unfold Dict.setdefault. destruct (Dict.get k d) as [v0|] eqn:G;
    intros [= <- <-].
  - repeat split; auto.
  - repeat split; auto using dict_get_set_eq, dict_get_set_ne.
Qed.

(** *** Facts on the loop *)

Lemma judge_replacement : judge (JStr replacement) = Correct.
Proof. reflexivity. Qed.

Lemma judge_rewrite_entry (entry : json) :
  judge (rewrite_entry entry)
  = match judge entry with Rewritten _ => Correct | v => v end.
Proof.
  unfold rewrite_entry. destruct (judge entry) eqn:J; auto.
Qed.

Lemma is_target_rewrite_entry (entry : json) :
  is_target (rewrite_entry entry) = is_target entry.
Proof.
  unfold is_target. rewrite judge_rewrite_entry. by destruct (judge entry).
Qed.

Lemma is_rewritten_rewrite_entry (entry : json) :
  is_rewritten (rewrite_entry entry) = false.
Proof.
  unfold is_rewritten. rewrite judge_rewrite_entry. by destruct (judge entry).
Qed.

Lemma has_replacement_is_correct (items : list json) :
  has_replacement items = true -> existsb is_correct items = true.
Proof.
  unfold has_replacement. rewrite !existsb_exists.
  intros (e & Hin & He). exists e. split; [done|].
  destruct e; try done. apply String.eqb_eq in He. by subst.
Qed.


Lemma existsb_rewritten_map (items : list json) :
  existsb is_rewritten (map rewrite_entry items) = false.
Proof.
  induction items as [|e l IH]; cbn; [done|].
  by rewrite is_rewritten_rewrite_entry, IH.
Qed.

Lemma is_correct_rewrite_entry (entry : json) :
  is_correct (rewrite_entry entry) = is_correct entry || is_rewritten entry.
Proof.
  unfold is_correct, is_rewritten. rewrite judge_rewrite_entry.
  by destruct (judge entry).
Qed.

Lemma existsb_correct_map (items : list json) :
  existsb is_correct (map rewrite_entry items)
  = existsb is_correct items || existsb is_rewritten items.
Proof.
  induction items as [|e l IH]; cbn; [done|].
  rewrite is_correct_rewrite_entry, IH.
  destruct (is_correct e), (is_rewritten e), (existsb is_correct l),
    (existsb is_rewritten l); reflexivity.
Qed.

Lemma has_replacement_app (l1 l2 : list json) :
  has_replacement (l1 ++ l2) = has_replacement l1 || has_replacement l2.
Proof. unfold has_replacement. apply existsb_app. Qed.

Lemma rewrite_entry_fixed (entry : json) :
  is_rewritten entry = false -> rewrite_entry entry = entry.
Proof.
  unfold is_rewritten, rewrite_entry. by destruct (judge entry).
Qed.

Lemma map_rewrite_entry_idem (items : list json) :
  map rewrite_entry (map rewrite_entry items) = map rewrite_entry items.
Proof.
  induction items as [|e l IH]; cbn; [done|].
  rewrite IH. f_equal. apply rewrite_entry_fixed, is_rewritten_rewrite_entry.
Qed.

(** A second pass over the updated list changes nothing. *)
Lemma updated_experiments_idem (items : list json) :
  updated_experiments (fst (updated_experiments items))
  = (fst (updated_experiments items), false).
Proof.
  unfold updated_experiments.
  destruct (existsb is_correct items) eqn:C; cbn [negb andb fst].
  - rewrite existsb_correct_map, C. cbn [orb negb andb].
    by rewrite map_rewrite_entry_idem, existsb_rewritten_map.
  - destruct (has_replacement (map rewrite_entry items)) eqn:R;
      cbn [negb andb fst].
    + rewrite (has_replacement_is_correct _ R). cbn [negb andb].
      by rewrite map_rewrite_entry_idem, existsb_rewritten_map.
    + rewrite map_app, existsb_app. cbn [map existsb].
      rewrite (rewrite_entry_fixed (JStr replacement)) by reflexivity.
      replace (is_correct (JStr replacement)) with true by reflexivity.
      rewrite !orb_true_r. cbn [negb andb].
      rewrite existsb_app, map_rewrite_entry_idem, existsb_rewritten_map.
      reflexivity.
Qed.

Lemma count_target_map (items : list json) :
  count_target (map rewrite_entry items) = count_target items.
Proof.
  unfold count_target. induction items as [|e l IH]; cbn; [done|].
  rewrite is_target_rewrite_entry. destruct (is_target e); cbn; by rewrite IH.
Qed.

Lemma count_target_app (l1 l2 : list json) :
  count_target (l1 ++ l2) = count_target l1 + count_target l2.
Proof. unfold count_target. by rewrite List.filter_app, length_app. Qed.

Lemma count_target_zero (items : list json) :
  existsb is_correct items = false -> existsb is_rewritten items = false ->
  count_target items = 0.
Proof.
  unfold count_target, is_correct, is_rewritten, is_target.
  induction items as [|e l IH]; cbn; [done|].
  destruct (judge e); cbn; done.
Qed.

Lemma count_target_pos (items : list json) :
  existsb is_correct items || existsb is_rewritten items = true ->
  1 <= count_target items.
Proof.
  unfold count_target, is_correct, is_rewritten, is_target.
  induction items as [|e l IH]; cbn; [done|].
  destruct (judge e); cbn; first [exact IH | lia].
Qed.

(** The entries for the target key after the update: as many as before,
    or one when there was none. *)
Lemma count_target_updated (items : list json) :
  count_target (fst (updated_experiments items))
  = Nat.max 1 (count_target items).
Proof.
  unfold updated_experiments.
  destruct (existsb is_correct items) eqn:C; cbn [negb andb fst].
  - rewrite count_target_map.
    pose proof (count_target_pos items) as H. rewrite C in H.
    specialize (H eq_refl). lia.
  - destruct (has_replacement (map rewrite_entry items)) eqn:R;
      cbn [negb andb fst].
    + rewrite count_target_map.
      apply has_replacement_is_correct in R.
      rewrite existsb_correct_map in R.
      pose proof (count_target_pos items R). lia.
    + destruct (existsb is_rewritten items) eqn:W.
      * exfalso. clear C.
        induction items as [|e l IH]; cbn in *; [done|].
        unfold has_replacement in R. cbn in R.
        unfold is_rewritten, rewrite_entry in *.
        destruct (judge e); cbn in *;
          rewrite ?String.eqb_refl in R; try done;
          apply orb_false_elim in R as [_ R]; auto.
      * rewrite count_target_app, count_target_map,
          (count_target_zero items C W).
        reflexivity.
Qed.

Lemma updated_all_correct (items : list json) :
  Forall (fun e => is_target e = true -> is_correct e = true)
         (fst (updated_experiments items)).
Proof.
  assert (H : Forall (fun e => is_target e = true -> is_correct e = true)
                     (map rewrite_entry items)).
  { apply Forall_forall. intros e He. apply list_elem_of_In, in_map_iff in He.
    destruct He as (e0 & <- & _).
    unfold is_target, is_correct. rewrite judge_rewrite_entry.
    by destruct (judge e0). }
  unfold updated_experiments.
  destruct (negb _ && negb _); cbn [fst]; [|exact H].
  apply Forall_app. split; [exact H|]. by constructor.
Qed.

Lemma judge_key_value_extra (extra : string) :
  judge (JStr (DESIRED_KEY ++ "@" ++ DESIRED_VALUE ++ "@" ++ extra)%string)
  = Correct.
Proof. reflexivity. Qed.

Lemma judge_skips (entry : json) :
  match entry with
  | JStr text => PyStr.contains "@" text = false
  | _ => True
  end ->
  judge entry = Skipped.
Proof. destruct entry; try done. cbn. by intros ->. Qed.

(** C10: an entry [key@value@extra] whose key and first value segment
    are the target key and the desired value is judged correct; the list
    the patch ends with has it at its place, unchanged, and is no longer
    than the list it started from (nothing is appended); entries that are
    no strings or contain no [@] stay as they are at their places; and
    the file, if it is written at all, is written with that list.  When
    no other entry is for the target key, nothing is written. *)
Theorem key_value_extra_is_left_alone `{Ext : Externals} (self : Patcher)
        (f app : string) (s : St) (c : string) (m : Z) (doc : json)
        (items : list json) (members top : list (string * json))
        (i : nat) (extra : string) :
  files s !! f = Some (File c m) ->
  f ∉ unreadable s ->
  FS.utf8_valid c = true ->
  json_loads c = Some doc ->
  open_experiments doc = Ret (items, members, top) ->
  items !! i
  = Some (JStr (DESIRED_KEY ++ "@" ++ DESIRED_VALUE ++ "@" ++ extra)%string) ->
  judge (JStr (DESIRED_KEY ++ "@" ++ DESIRED_VALUE ++ "@" ++ extra)%string)
  = Correct /\
  exists items',
    length items' = length items /\
    items' !! i = items !! i /\
    (forall j entry,
        items !! j = Some entry ->
        match entry with
        | JStr text => PyStr.contains "@" text = false
        | _ => True
        end ->
        items' !! j = Some entry) /\
    (files (snd (patch_local_state self f app s)) = files s \/
     files (snd (patch_local_state self f app s))
     = <[f := File (json_dumps 4 (with_experiments items' members top)) m]>
         (files s)) /\
    ((forall j entry, j <> i -> items !! j = Some entry ->
                      is_target entry = false) ->
     fst (patch_local_state self f app s) = Ret false /\
     files (snd (patch_local_state self f app s)) = files s).
Proof.
  intros Hf Hr Hu Hj Ho Hi.
  split; [apply judge_key_value_extra|].
  destruct (patch_local_state_run self f app s c m doc items members top
              Hf Hr Hu Hj Ho) as [o Hrun].
  assert (Hc : existsb is_correct items = true).
  { apply existsb_exists. eexists. split.
    - eapply list_elem_of_In, list_elem_of_lookup_2, Hi.
    - reflexivity. }
  unfold updated_experiments in Hrun. rewrite Hc in Hrun.
  cbn [negb andb] in Hrun.
  exists (map rewrite_entry items). split; [apply length_map|].
  split; [by rewrite list_lookup_fmap, Hi|].
  split.
  { intros j entry Hj' Hskip. rewrite list_lookup_fmap, Hj'. cbn.
    unfold rewrite_entry. by rewrite (judge_skips _ Hskip). }
  split.
  { rewrite Hrun.
    destruct (existsb is_rewritten items), (dry_run self),
      (bool_decide (f ∈ denied s)); cbn; auto. }
  intros Hothers.
  assert (Hw : existsb is_rewritten items = false).
  { apply not_true_is_false. intros Hw.
    apply existsb_exists in Hw as (e & Hin & He).
    apply list_elem_of_In, list_elem_of_lookup_1 in Hin as [j Hj'].
    destruct (decide (j = i)) as [->|Hne].
    - rewrite Hi in Hj'. by injection Hj' as <-.
    - specialize (Hothers j e Hne Hj'). unfold is_target, is_rewritten in *.
      by destruct (judge e). }
  by rewrite Hrun, Hw.
Qed.

Lemma key_value_extra_is_left_alone_witness :
  fst (patch_local_state (Ext := Ref.externals) Fixtures.quiet
         Fixtures.slack_local_state "Slack"
         (Fixtures.with_local_state Fixtures.doc_with_extra))
  = Ret false.
Proof.
  destruct (key_value_extra_is_left_alone (Ext := Ref.externals)
              Fixtures.quiet Fixtures.slack_local_state "Slack"
              (Fixtures.with_local_state Fixtures.doc_with_extra)
              (Ref.dumps 4 Fixtures.doc_with_extra) 420
              Fixtures.doc_with_extra
              [JStr "x@1"; JStr "use-angle@1@beta"; JInt 7; JStr "plain"]
              [("enabled_labs_experiments",
                JArr [JStr "x@1"; JStr "use-angle@1@beta"; JInt 7;
                      JStr "plain"])]
              [("browser",
                JObj [("enabled_labs_experiments",
                       JArr [JStr "x@1"; JStr "use-angle@1@beta"; JInt 7;
                             JStr "plain"])])]
              1 "beta")
    as (_ & items' & _ & _ & _ & _ & H).
  - vm_compute; reflexivity.
  - set_solver.
  - vm_compute; reflexivity.
  - vm_compute; reflexivity.
  - vm_compute; reflexivity.
  - vm_compute; reflexivity.
  - apply H. intros [|[|[|[|j]]]] entry Hne; cbn; intros [= <-]; done.
Defined.

(** A document without accessible flag list: the attribute error leaves
    [patch_local_state] uncaught, and nothing is written. *)
Lemma patch_local_state_raises `{Ext : Externals} (self : Patcher)
      (f app : string) (s : St) (c : string) (m : Z) (doc : json) (e : exn) :
  files s !! f = Some (File c m) ->
  f ∉ unreadable s ->
  FS.utf8_valid c = true ->
  json_loads c = Some doc ->
  open_experiments doc = Raise e ->
  patch_local_state self f app s = (Raise e, s).
Proof.
  intros Hf Hr Hu Hj Ho.
  unfold patch_local_state. mred. rewrite Hf. mred. rewrite Hf.
  rewrite (bool_decide_eq_false_2 _ Hr). mred. rewrite Hu. mred.
  rewrite Hj. mred. rewrite Ho. reflexivity.
Qed.

Lemma updated_experiments_lookup (items : list json) (j : nat) (entry : json) :
  items !! j = Some entry ->
  is_rewritten entry = false ->
  fst (updated_experiments items) !! j = Some entry.
Proof.
  intros Hj Hw.
  assert (H : map rewrite_entry items !! j = Some entry).
  { rewrite list_lookup_fmap, Hj. cbn. by rewrite rewrite_entry_fixed. }
  unfold updated_experiments.
  destruct (negb _ && negb _); cbn [fst]; [|exact H].
  by apply lookup_app_l_Some.
Qed.

(** The flag list a document holds: the entries of the list at
    [browser.enabled_labs_experiments], none when the value there is no
    list or is missing. *)
Lemma open_experiments_shape (doc : json) (items : list json)
      (members' top' : list (string * json)) :
  open_experiments doc = Ret (items, members', top') ->
  exists top members,
    doc = JObj top /\
    (Dict.get "browser" top = Some (JObj members) \/
     (Dict.get "browser" top = None /\ members = [])) /\
    (forall k, k <> "browser" -> Dict.get k top' = Dict.get k top) /\
    (forall k, k <> "enabled_labs_experiments" ->
               Dict.get k members' = Dict.get k members) /\
    items = match Dict.get "enabled_labs_experiments" members with
            | Some (JArr l) => l
            | _ => []
            end.
Proof.
  destruct doc as [| | | | | |top]; try done. cbn.
  destruct (Dict.setdefault "browser" (JObj []) top) as [browser top1] eqn:S1.
  apply dict_setdefault_get in S1 as (_ & Htop & Hb).
  destruct browser as [| | | | | |members]; try done.
  destruct (Dict.setdefault "enabled_labs_experiments" (JArr []) members)
    as [ex members1] eqn:S2.
  apply dict_setdefault_get in S2 as (_ & Hmem & He).
  intros Hret. exists top, members. split; [done|]. split.
  { destruct Hb as [Hb | [Hb [= ->]]]; auto. }
  assert (Hitems : items = match ex with JArr l => l | _ => [] end /\
                   top' = top1 /\
                   forall k, k <> "enabled_labs_experiments" ->
                             Dict.get k members' = Dict.get k members).
  { destruct ex; injection Hret as <- <- <-; repeat split; auto;
      intros k Hk; rewrite dict_get_set_ne by done; auto. }
  destruct Hitems as (-> & -> & Hm). repeat split; auto.
  destruct He as [-> | [-> ->]]; reflexivity.
Qed.

(** C6: a write of the preference-flag patch keeps what it is not about.
    In the document written, every top-level key other than [browser]
    has the value it had, every key of [browser] other than the flag list
    has the value it had, and every entry of the flag list that is not an
    entry for the target key with another value (so every entry not for
    the target key) is at the index it was at, unchanged; the flag list
    counts as empty when the value at its key is no list. *)
Theorem patch_local_state_write_keeps_unrelated `{Ext : Externals}
        (self : Patcher) (f app : string) (s : St) (c : string) (m : Z)
        (doc : json) :
  files s !! f = Some (File c m) ->
  f ∉ unreadable s ->
  FS.utf8_valid c = true ->
  json_loads c = Some doc ->
  dry_run self = false ->
  fst (patch_local_state self f app s) = Ret true ->
  exists top top' members members' items items',
    doc = JObj top /\
    files (snd (patch_local_state self f app s))
    = <[f := File (json_dumps 4 (JObj top')) m]> (files s) /\
    (forall k, k <> "browser" -> Dict.get k top' = Dict.get k top) /\
    (Dict.get "browser" top = Some (JObj members) \/
     (Dict.get "browser" top = None /\ members = [])) /\
    Dict.get "browser" top' = Some (JObj members') /\
    (forall k, k <> "enabled_labs_experiments" ->
               Dict.get k members' = Dict.get k members) /\
    items = match Dict.get "enabled_labs_experiments" members with
            | Some (JArr l) => l
            | _ => []
            end /\
    Dict.get "enabled_labs_experiments" members' = Some (JArr items') /\
    (forall j entry,
        items !! j = Some entry -> is_rewritten entry = false ->
        items' !! j = Some entry) /\
    (forall j entry,
        items !! j = Some entry -> is_target entry = false ->
        items' !! j = Some entry).
Proof.
  intros Hf Hr Hu Hj Hdry Hret.
  destruct (open_experiments doc) as [[[items members1] top1]|e] eqn:Ho.
  2: { rewrite (patch_local_state_raises self f app s c m doc e) in Hret;
         done. }
  destruct (patch_local_state_run self f app s c m doc items members1 top1
              Hf Hr Hu Hj Ho) as [o Hrun].
  destruct (open_experiments_shape _ _ _ _ Ho)
    as (top & members & -> & Hb & Htop & Hmem & Hitems).
  rewrite Hrun in Hret |- *. rewrite Hdry in *.
  destruct (updated_experiments items) as [items' changed] eqn:Hup.
  destruct changed; [|done]. cbn [negb] in *.
  destruct (bool_decide (f ∈ denied s)); [done|]. cbn [snd files with_out with_files].
  exists top,
    (Dict.set "browser"
       (JObj (Dict.set "enabled_labs_experiments" (JArr items') members1))
       top1),
    members,
    (Dict.set "enabled_labs_experiments" (JArr items') members1),
    items, items'.
  assert (Hkeep : forall j entry,
             items !! j = Some entry -> is_rewritten entry = false ->
             items' !! j = Some entry).
  { intros j entry Hj' Hw.
    pose proof (updated_experiments_lookup items j entry Hj' Hw) as H.
    by rewrite Hup in H. }
  repeat split; auto.
  - intros k Hk. rewrite dict_get_set_ne by done. auto.
  - apply dict_get_set_eq.
  - intros k Hk. rewrite dict_get_set_ne by done. auto.
  - apply dict_get_set_eq.
  - intros j entry Hj' Ht. apply Hkeep; [done|].
    unfold is_target, is_rewritten in *. by destruct (judge entry).
Qed.

Lemma patch_local_state_write_keeps_unrelated_witness :
  exists top',
    files (snd (patch_local_state (Ext := Ref.externals) Fixtures.quiet
                  Fixtures.slack_local_state "Slack"
                  (Fixtures.with_local_state Fixtures.doc_with_other_key)))
    = <[Fixtures.slack_local_state := File (Ref.dumps 4 (JObj top')) 420]>
        (files (Fixtures.with_local_state Fixtures.doc_with_other_key)) /\
    Dict.get "a" top' = Some (JInt 1).
Proof.
  destruct (patch_local_state_write_keeps_unrelated (Ext := Ref.externals)
              Fixtures.quiet Fixtures.slack_local_state "Slack"
              (Fixtures.with_local_state Fixtures.doc_with_other_key)
              (Ref.dumps 4 Fixtures.doc_with_other_key) 420
              Fixtures.doc_with_other_key)
    as (top & top' & members & members' & items & items' &
        Hdoc & Hfiles & Htop & _).
  - vm_compute; reflexivity.
  - set_solver.
  - vm_compute; reflexivity.
  - vm_compute; reflexivity.
  - reflexivity.
  - vm_compute; reflexivity.
  - exists top'. split; [exact Hfiles|].
    rewrite Htop by done. injection Hdoc as <-. reflexivity.
Defined.

(** The sample of the specification, with the patcher's own key and
    value: the other top-level key and the other flag stay, the flag is
    appended. *)
Example patch_local_state_sample :
  files (snd (patch_local_state (Ext := Ref.externals) Fixtures.quiet
                Fixtures.slack_local_state "Slack"
                (Fixtures.with_local_state Fixtures.doc_with_other_key)))
  !! Fixtures.slack_local_state
  = Some (File (Ref.dumps 4
                  (JObj [("a", JInt 1);
                         ("browser",
                          JObj [("enabled_labs_experiments",
                                 JArr [JStr "x@1"; JStr "use-angle@1"])])]))
               420).
Proof. vm_compute. reflexivity. Qed.

Lemma dict_setdefault_set (k : string) (dflt v : json)
      (d : list (string * json)) :
  Dict.setdefault k dflt (Dict.set k v d) = (v, Dict.set k v d).
Proof. unfold Dict.setdefault. by rewrite dict_get_set_eq. Qed.

Lemma open_experiments_with_experiments (items : list json)
      (members top : list (string * json)) :
  open_experiments (with_experiments items members top)
  = Ret (items,
         Dict.set "enabled_labs_experiments" (JArr items) members,
         Dict.set "browser"
           (JObj (Dict.set "enabled_labs_experiments" (JArr items) members))
           top).
Proof.
  unfold open_experiments, with_experiments.
  by rewrite !dict_setdefault_set.
Qed.

Lemma map_rewrite_entry_fixed (items : list json) :
  existsb is_rewritten items = false -> map rewrite_entry items = items.
Proof.
  induction items as [|e l IH]; cbn; [done|].
  intros [He Hl]%orb_false_elim. by rewrite rewrite_entry_fixed, IH.
Qed.

Lemma updated_experiments_unchanged (items : list json) :
  snd (updated_experiments items) = false ->
  fst (updated_experiments items) = items.
Proof.
  unfold updated_experiments.
  destruct (negb _ && negb _); cbn [fst snd]; [done|].
  apply map_rewrite_entry_fixed.
Qed.

(** C5, as the code has it.  For a preference file that holds a JSON
    object whose [browser] member, when there is one, is an object, in a
    run that is no dry run, on a file the user may write, with a JSON
    printer whose output for the updated document reads back as that
    document: a second application in succession returns [False] and
    writes nothing; and after the first application the flag list of the
    file has as many entries for the target key as it had before, or one
    when it had none, each of them with the desired value. *)
Theorem patch_local_state_twice `{Ext : Externals} (self : Patcher)
        (f app : string) (s : St) (c : string) (m : Z) (doc : json)
        (items : list json) (members top : list (string * json)) :
  dry_run self = false ->
  files s !! f = Some (File c m) ->
  f ∉ unreadable s ->
  f ∉ denied s ->
  FS.utf8_valid c = true ->
  json_loads c = Some doc ->
  open_experiments doc = Ret (items, members, top) ->
  FS.utf8_valid
    (json_dumps 4 (with_experiments (fst (updated_experiments items))
                                    members top)) = true ->
  json_loads
    (json_dumps 4 (with_experiments (fst (updated_experiments items))
                                    members top))
  = Some (with_experiments (fst (updated_experiments items)) members top) ->
  (fst (patch_local_state self f app
          (snd (patch_local_state self f app s))) = Ret false /\
   files (snd (patch_local_state self f app
                 (snd (patch_local_state self f app s))))
   = files (snd (patch_local_state self f app s))) /\
  exists c1 doc1 items1 members1 top1,
    files (snd (patch_local_state self f app s)) !! f = Some (File c1 m) /\
    json_loads c1 = Some doc1 /\
    open_experiments doc1 = Ret (items1, members1, top1) /\
    count_target items1 = Nat.max 1 (count_target items) /\
    Forall (fun e => is_target e = true -> is_correct e = true) items1.
Proof.
  intros Hdry Hf Hr Hd Hu Hj Ho Hu1 Hj1.
  destruct (patch_local_state_run self f app s c m doc items members top
              Hf Hr Hu Hj Ho) as [o Hrun].
  rewrite Hdry, (bool_decide_eq_false_2 _ Hd) in Hrun.
  pose proof (count_target_updated items) as Hcount.
  pose proof (updated_all_correct items) as Hall.
  pose proof (updated_experiments_idem items) as Hidem.
  pose proof (updated_experiments_unchanged items) as Hsame.
  destruct (updated_experiments items) as [items' changed] eqn:Hup.
  cbn [fst snd] in *.
  destruct changed; cbn [negb] in Hrun; rewrite Hrun; cbn [snd].
  - (* the first application wrote the updated document *)
    set (s1 := with_out o (with_files _ s)).
    assert (Hf1 : files s1 !! f
                  = Some (File (json_dumps 4
                                  (with_experiments items' members top)) m))
      by apply lookup_insert_eq.
    destruct (patch_local_state_run self f app s1 _ m _ _ _ _
                Hf1 Hr Hu1 Hj1
                (open_experiments_with_experiments items' members top))
      as [o' Hrun'].
    rewrite Hidem in Hrun'. cbn [negb] in Hrun'. rewrite Hrun'.
    split; [done|].
    eexists _, _, _, _, _. split; [exact Hf1|]. split; [exact Hj1|].
    split; [apply open_experiments_with_experiments|]. done.
  - (* nothing had to change *)
    specialize (Hsame eq_refl). subst items'.
    destruct (patch_local_state_run self f app (with_out o s) c m doc
                items members top Hf Hr Hu Hj Ho) as [o' Hrun'].
    rewrite Hup in Hrun'. cbn [negb] in Hrun'. rewrite Hrun'.
    split; [done|].
    by exists c, doc, items, members, top.
Qed.

Lemma patch_local_state_twice_witness :
  fst (patch_local_state (Ext := Ref.externals) Fixtures.quiet
         Fixtures.slack_local_state "Slack"
         (snd (patch_local_state (Ext := Ref.externals) Fixtures.quiet
                 Fixtures.slack_local_state "Slack"
                 (Fixtures.with_local_state Fixtures.doc_with_other_key))))
  = Ret false.
Proof.
  destruct (patch_local_state_twice (Ext := Ref.externals)
              Fixtures.quiet Fixtures.slack_local_state "Slack"
              (Fixtures.with_local_state Fixtures.doc_with_other_key)
              (Ref.dumps 4 Fixtures.doc_with_other_key) 420
              Fixtures.doc_with_other_key
              [JStr "x@1"]
              [("enabled_labs_experiments", JArr [JStr "x@1"])]
              [("a", JInt 1);
               ("browser",
                JObj [("enabled_labs_experiments", JArr [JStr "x@1"])])])
    as [[H _] _].
  - reflexivity.
  - vm_compute; reflexivity.
  - set_solver.
  - set_solver.
  - vm_compute; reflexivity.
  - vm_compute; reflexivity.
  - vm_compute; reflexivity.
  - vm_compute; reflexivity.
  - vm_compute; reflexivity.
  - exact H.
Defined.

(** Two entries for the target key with other values are both rewritten
    in place: the document after the first application has two entries
    for the target key, not one. *)
Lemma patch_local_state_keeps_duplicates :
  exists c1 items1 members1 top1,
    files (snd (patch_local_state (Ext := Ref.externals) Fixtures.quiet
                  Fixtures.slack_local_state "Slack"
                  (Fixtures.with_local_state Fixtures.doc_with_two_entries)))
    !! Fixtures.slack_local_state = Some (File c1 420) /\
    Ref.loads c1 = Some (Fixtures.flags [JStr "use-angle@1"; JStr "use-angle@1"]) /\
    open_experiments (Fixtures.flags [JStr "use-angle@1"; JStr "use-angle@1"])
    = Ret (items1, members1, top1) /\
    count_target items1 = 2 /\
    count_target items1 <> 1.
Proof.
  eexists _, _, _, _.
  split; [vm_compute; reflexivity|].
  split; [vm_compute; reflexivity|].
  split; [vm_compute; reflexivity|].
  split; [reflexivity | discriminate].
Qed.

(** ** The executable patcher *)

Lemma with_suffix_named (p extra : string) :
  PyPath.name p <> EmptyString ->
  PyPath.with_suffix p extra = Ret (PyPath.add_suffix p extra).
Proof. unfold PyPath.with_suffix. by destruct (PyPath.name p). Qed.

Lemma find_app_path_resolved (config : AppConfig) (s : St) (r : option string) :
  fst (find_app_path config s) = Ret r ->
  find_app_path config s = (Ret r, s).
Proof.
  destruct (find_app_path_spec config s) as [r' H]. rewrite H.
  by intros [= ->].
Qed.

(** The manifest is only reported on when it cannot be used. *)
Lemma get_executable_resolved `{Ext : Externals} (self : Patcher)
      (app exe : string) (s : St) :
  fst (get_executable_from_app self (Some app) s) = Ret (Some exe) ->
  get_executable_from_app self (Some app) s = (Ret (Some exe), s).
Proof.
  unfold get_executable_from_app, log. mred.
  set (info := PyPath.join (PyPath.join app "Contents") "Info.plist").
  mcase (files s !! info); [|done].
  destruct n as [c m| |]; mred; rewrite ?E; mred;
    [|by destruct (verbose self)|done].
  mcase (bool_decide (info ∈ unreadable s)); [by destruct (verbose self)|].
  destruct (plistlib_load c) as [[| | | | | |plist]|];
    try by destruct (verbose self).
  destruct (Dict.get "CFBundleExecutable" plist) as [v|]; [|done].
  destruct (py_truthy v); [|done].
  destruct v; try by destruct (verbose self).
  by intros [= ->].
Qed.

Lemma is_already_patched_resolved (p : option string) (s : St) (b : bool) :
  fst (is_already_patched p s) = Ret b ->
  is_already_patched p s = (Ret b, s).
Proof.
  destruct (is_already_patched_spec p s) as [b' H]. rewrite H.
  by intros [= ->].
Qed.

Lemma is_app_running_resolved (config : AppConfig) (s : St) (b : bool) :
  fst (is_app_running config s) = Ret b ->
  is_app_running config s = (Ret b, s).
Proof.
  destruct (is_app_running_spec config s) as [b' H]. rewrite H.
  by intros [= ->].
Qed.

Lemma is_already_patched_marker (p content : string) (s : St) :
  fst (FS.read_text p s) = Ret content ->
  is_already_patched (Some p) s
  = (Ret (PyStr.contains WRAPPER_MARKER content), s).
Proof.
  unfold is_already_patched. mred.
  mcase (files s !! p); [|done].
  destruct n as [c m| |]; mred; rewrite ?E; mred; [|done..].
  mcase (bool_decide (p ∈ unreadable s)); [done|].
  mcase (FS.utf8_valid c); [|done].
  by intros [= ->].
Qed.

(** C4, as the code has it: an executable whose readable content holds
    the wrapper marker is classified as patched whether or not a backup
    lies beside it; the patch call reports it as already patched and
    changes nothing, and the listing gives it the status PATCHED. *)
Theorem marker_alone_means_patched `{Ext : Externals} (self : Patcher)
        (config : AppConfig) (s : St) (app exe content : string) :
  resolves self config s app exe ->
  fst (FS.read_text exe s) = Ret content ->
  PyStr.contains WRAPPER_MARKER content = true ->
  is_already_patched (Some exe) s = (Ret true, s) /\
  patch_executable self config s
  = (Ret false,
     with_out (if verbose self
               then out s ++ ["  [OK] Already patched: " ++ exe]%string
               else out s) s) /\
  (needs_executable_patch config = true ->
   patch_status self config app s = (Ret " ✅ [PATCHED]", s)).
Proof.
  intros (Happ & Hexe & Hname) Hread Hmark.
  pose proof (is_already_patched_marker exe content s Hread) as Hp.
  rewrite Hmark in Hp.
  apply find_app_path_resolved in Happ.
  apply get_executable_resolved in Hexe.
  split; [exact Hp|]. split.
  - unfold patch_executable. mred. rewrite Happ. mred. rewrite Hexe. mred.
  rewrite (with_suffix_named _ _ Hname). mred.
    rewrite Hp. mred. unfold log. mred.
    destruct (verbose self); mred; [done|]. by rewrite with_out_same.
  - intros Hneeds. unfold patch_status. rewrite Hneeds. mred.
    rewrite Hexe. mred. by rewrite Hp.
Qed.

Lemma marker_alone_means_patched_witness :
  patch_status (Ext := Ref.externals) Fixtures.quiet slack
    "/Applications/Slack.app" Fixtures.slack_marker_only
  = (Ret " ✅ [PATCHED]", Fixtures.slack_marker_only).
Proof.
  destruct (marker_alone_means_patched (Ext := Ref.externals)
              Fixtures.quiet slack Fixtures.slack_marker_only
              "/Applications/Slack.app" Fixtures.slack_exe
              (create_wrapper_script Fixtures.slack_exe
                 (PyPath.add_suffix Fixtures.slack_exe BACKUP_SUFFIX)))
    as (_ & _ & H).
  - split; [|split]; vm_compute; first [reflexivity | discriminate].
  - vm_compute; reflexivity.
  - vm_compute; reflexivity.
  - exact (H eq_refl).
Defined.

(** With the marker in the executable and no backup beside it, the
    specification's rule says Inconsistent; the code says patched, in the
    detector, in the listing and in the patch call. *)
Lemma marker_without_backup_is_reported_patched :
  files Fixtures.slack_marker_only
    !! PyPath.add_suffix Fixtures.slack_exe BACKUP_SUFFIX = None /\
  fst (is_already_patched (Some Fixtures.slack_exe) Fixtures.slack_marker_only)
  = Ret true /\
  state_as_specified true false = Inconsistent /\
  (exists status,
      fst (patch_status (Ext := Ref.externals) Fixtures.quiet slack
             "/Applications/Slack.app" Fixtures.slack_marker_only)
      = Ret status /\
      state_of_status status = Some Patched /\
      state_of_status status <> Some (state_as_specified true false)) /\
  out (snd (patch_executable (Ext := Ref.externals) (mkPatcher false true)
              slack Fixtures.slack_marker_only))
  = ["  [OK] Already patched: /Applications/Slack.app/Contents/MacOS/Slack"].
Proof.
  split; [vm_compute; reflexivity|].
  split; [vm_compute; reflexivity|].
  split; [reflexivity|].
  split; [|vm_compute; reflexivity].
  eexists. split; [vm_compute; reflexivity|].
  split; [vm_compute; reflexivity | vm_compute; discriminate].
Qed.

Lemma string_length_append (a b : string) :
  String.length (a ++ b)%string = String.length a + String.length b.
Proof. induction a as [|c a IH]; simpl; [done | by f_equal]. Qed.

(** The backup never is the executable itself. *)
Lemma backup_path_differs (exe : string) :
  PyPath.add_suffix exe BACKUP_SUFFIX <> exe.
Proof.
  unfold PyPath.add_suffix. intros H.
  apply (f_equal String.length) in H.
  rewrite string_length_append in H. cbn in H. lia.
Qed.

Lemma is_app_running_same_processes (config : AppConfig) (s s' : St) :
  pgrep s' = pgrep s ->
  fst (is_app_running config s') = fst (is_app_running config s).
Proof.
  intros H. unfold is_app_running.
  destruct (bundle_id config) as [[|c bid]|]; try done.
  mred. rewrite H.
  destruct (pgrep s (String c bid)); mred; rewrite ?H; [done|].
  by destruct (pgrep s (name config)).
Qed.

(** X22: the refusal leaves everything as it is when no backup lies
    beside an unpatched executable: with the app running,
    [patch_executable] answers [False], changes no file, and prints the
    error even when not verbose. *)
Lemma patch_executable_blocked `{Ext : Externals} (self : Patcher)
      (config : AppConfig) (s : St) (app exe : string) :
  resolves self config s app exe ->
  fst (is_already_patched (Some exe) s) = Ret false ->
  files s !! PyPath.add_suffix exe BACKUP_SUFFIX = None ->
  fst (is_app_running config s) = Ret true ->
  patch_executable self config s
  = (Ret false,
     with_out (out s ++ ["  [ERROR] " ++ name config ++
                         " is running. Please quit it first."]%string) s).
Proof.
  intros (Happ & Hexe & Hname) Hp Hb Hrun.
  apply find_app_path_resolved in Happ.
  apply get_executable_resolved in Hexe.
  apply is_already_patched_resolved in Hp.
  apply is_app_running_resolved in Hrun.
  unfold patch_executable. mred. rewrite Happ. mred. rewrite Hexe. mred.
  rewrite (with_suffix_named _ _ Hname). mred.
  rewrite Hp. mred. rewrite Hb. mred. rewrite Hrun. mred.
  unfold log. mred. by destruct (verbose self).
Qed.

(** With a backup beside an unpatched executable, the backup is copied
    over the executable before the running check is made. *)
Lemma patch_executable_restores_before_running_check `{Ext : Externals}
      (self : Patcher) (config : AppConfig) (s : St) (app exe : string)
      (c b : string) (m mb : Z) :
  dry_run self = false ->
  resolves self config s app exe ->
  files s !! exe = Some (File c m) ->
  fst (is_already_patched (Some exe) s) = Ret false ->
  files s !! PyPath.add_suffix exe BACKUP_SUFFIX = Some (File b mb) ->
  PyPath.add_suffix exe BACKUP_SUFFIX ∉ unreadable s ->
  exe ∉ denied s ->
  fst (is_app_running config s) = Ret true ->
  fst (patch_executable self config s) = Ret false /\
  files (snd (patch_executable self config s)) = <[exe := File b mb]> (files s).
Proof.
  intros Hdry (Happ & Hexe & Hname) Hf Hp Hb Hr Hd Hrun.
  apply find_app_path_resolved in Happ.
  apply get_executable_resolved in Hexe.
  apply is_already_patched_resolved in Hp.
  unfold patch_executable. mred. rewrite Happ. mred. rewrite Hexe. mred.
  rewrite (with_suffix_named _ _ Hname). mred.
  rewrite Hp. mred. rewrite Hb. mred. rewrite Hp. mred.
  rewrite Hdry. unfold log, FS.copy2, FS.is_dir, FS.write_bytes.
  assert (Hne : String.eqb (PyPath.add_suffix exe BACKUP_SUFFIX) exe = false)
    by apply String.eqb_neq, backup_path_differs.
  assert (Hrun' : forall s1, pgrep s1 = pgrep s ->
                             is_app_running config s1 = (Ret true, s1)).
  { intros s1 Hpg. apply is_app_running_resolved.
    by rewrite (is_app_running_same_processes config s s1 Hpg). }
  destruct (verbose self); mred; rewrite Hf, Hb;
    rewrite (bool_decide_eq_false_2 _ Hr), Hne; mred;
    rewrite Hf, (bool_decide_eq_false_2 _ Hd); mred;
    rewrite Hrun' by done; mred;
    (split; [done | by rewrite insert_insert_eq]).
Qed.

(** C2 does not hold of the code.  Slack is running; its executable
    carries no marker and a backup lies beside it.  The patch call
    returns [False], but by then it has copied the backup
    over the live executable. *)
Theorem patch_while_running_overwrites_executable :
  fst (is_app_running slack Fixtures.slack_updated_while_patched) = Ret true /\
  files Fixtures.slack_updated_while_patched !! Fixtures.slack_exe
  = Some (File "NEW-RELEASE" 493) /\
  fst (patch_executable (Ext := Ref.externals) Fixtures.quiet slack
         Fixtures.slack_updated_while_patched) = Ret false /\
  files (snd (patch_executable (Ext := Ref.externals) Fixtures.quiet slack
                Fixtures.slack_updated_while_patched))
    !! Fixtures.slack_exe
  = Some (File "OLD-RELEASE" 493).
Proof. repeat split; vm_compute; reflexivity. Qed.

(** ** Dry runs *)

(** C3 does not hold of the code.  In a dry run, the settings-key patch
    of Docker Desktop, whose settings file is absent, creates the
    directory of the file and the file itself, and then reports what it
    would set. *)
Theorem dry_run_creates_docker_settings :
  dry_run Fixtures.dry = true /\
  files Fixtures.docker_fresh !! Fixtures.docker_settings = None /\
  files Fixtures.docker_fresh !! PyPath.parent Fixtures.docker_settings = None /\
  fst (patch_settings_file (Ext := Ref.externals) Fixtures.dry docker_desktop
         Fixtures.docker_fresh) = Ret true /\
  files (snd (patch_settings_file (Ext := Ref.externals) Fixtures.dry
                docker_desktop Fixtures.docker_fresh))
    !! Fixtures.docker_settings
  = Some (File "{}" FS.default_mode) /\
  files (snd (patch_settings_file (Ext := Ref.externals) Fixtures.dry
                docker_desktop Fixtures.docker_fresh))
    !! PyPath.parent Fixtures.docker_settings
  = Some Dir /\
  out (snd (patch_settings_file (Ext := Ref.externals) Fixtures.dry
              docker_desktop Fixtures.docker_fresh))
  = [("  [SKIP] Settings file not found: " ++ Fixtures.docker_settings)%string;
     "  [CREATE] Created empty settings file";
     "  [DRY-RUN] Would set disableHardwareAcceleration=True"].
Proof. repeat split; vm_compute; reflexivity. Qed.

(** ** The orchestrator *)

(** C8 does not hold of the code.  The settings of 1Password map [app],
    an intermediate segment of the key [app.useHardwareAcceleration], to
    a number: reading the final key from it raises an [AttributeError]
    that no handler catches, the loop over the registry ends with it, no
    outcome is recorded, and Bitwarden, next in the registry, is not
    visited, although on its own it would have been patched. *)
Theorem patch_all_known_apps_aborts_on_odd_settings :
  fst (patch_settings_file (Ext := Ref.externals) Fixtures.quiet one_password
         Fixtures.one_password_odd_settings) = Raise AttributeError /\
  fst (patch_all_known_apps (Ext := Ref.externals) Fixtures.quiet
         password_managers false Fixtures.one_password_odd_settings)
  = Raise AttributeError /\
  results (snd (patch_all_known_apps (Ext := Ref.externals) Fixtures.quiet
                  password_managers false Fixtures.one_password_odd_settings))
  = [] /\
  files (snd (patch_all_known_apps (Ext := Ref.externals) Fixtures.quiet
                password_managers false Fixtures.one_password_odd_settings))
  = files Fixtures.one_password_odd_settings /\
  results (snd (patch_all_known_apps (Ext := Ref.externals) Fixtures.quiet
                  [("Bitwarden", bitwarden)] false
                  Fixtures.one_password_odd_settings))
  = [("Bitwarden", "Local State patched")].
Proof. repeat split; vm_compute; reflexivity. Qed.

(** ** Patch, then restore *)

Lemma same_disk_refl (s : St) : same_disk s s.
Proof. by repeat split. Qed.

Lemma same_disk_trans (s1 s2 s3 : St) :
  same_disk s1 s2 -> same_disk s2 s3 -> same_disk s1 s3.
Proof.
  intros (H1 & H2 & H3) (H4 & H5 & H6). repeat split; congruence.
Qed.

Lemma same_disk_with_out (o : list string) (s : St) :
  same_disk s (with_out o s).
Proof. by repeat split. Qed.

Lemma log_same_disk (self : Patcher) (msg : string) (force : bool) (s : St) :
  exists s', log self msg force s = (Ret tt, s') /\ same_disk s s'.
Proof.
  destruct (log_spec self msg force s) as [o ->].
  eexists. split; [done | apply same_disk_with_out].
Qed.

Lemma parent_error_dir (p : string) (s : St) :
  FS.is_dir (PyPath.parent p) s = true -> FS.parent_error p s = None.
Proof.
  unfold FS.is_dir, FS.parent_error.
  by destruct (files s !! PyPath.parent p) as [[| |]|].
Qed.

Lemma copy2_file (src dst : string) (s : St) (c : string) (m : Z) :
  files s !! src = Some (File c m) ->
  src ∉ unreadable s ->
  src <> dst ->
  dst ∉ denied s ->
  ((exists c' m', files s !! dst = Some (File c' m')) \/
   (files s !! dst = None /\ FS.is_dir (PyPath.parent dst) s = true)) ->
  FS.copy2 src dst s
  = (Ret tt, with_files (<[dst := File c m]> (files s)) s).
Proof.
  intros Hsrc Hr Hne Hd Hdst.
  unfold FS.copy2, FS.write_bytes.
  assert (Hnd : FS.is_dir dst s = false).
  { unfold FS.is_dir. by destruct Hdst as [(c' & m' & ->) | [-> _]]. }
  rewrite Hnd, Hsrc, (bool_decide_eq_false_2 _ Hr),
    (proj2 (String.eqb_neq _ _) Hne).
  destruct Hdst as [(c' & m' & ->) | [-> Hpar]];
    rewrite ?(parent_error_dir _ _ Hpar), (bool_decide_eq_false_2 _ Hd); cbn;
    by rewrite insert_insert_eq.
Qed.

Lemma write_text_file (p text : string) (s : St) (c : string) (m : Z) :
  files s !! p = Some (File c m) ->
  p ∉ denied s ->
  FS.write_text p text s
  = (Ret tt, with_files (<[p := File text m]> (files s)) s).
Proof.
  intros Hp Hd. unfold FS.write_text, FS.write_bytes.
  by rewrite Hp, (bool_decide_eq_false_2 _ Hd).
Qed.

Lemma chmod_or_file (p : string) (bits : Z) (s : St) (c : string) (m : Z) :
  files s !! p = Some (File c m) ->
  p ∉ denied s ->
  FS.chmod_or p bits s
  = (Ret tt, with_files (<[p := File c (Z.lor m bits)]> (files s)) s).
Proof.
  intros Hp Hd. unfold FS.chmod_or.
  by rewrite Hp, (bool_decide_eq_false_2 _ Hd).
Qed.

Lemma unlink_file (p : string) (s : St) (c : string) (m : Z) :
  files s !! p = Some (File c m) ->
  p ∉ denied s ->
  FS.unlink p s = (Ret tt, with_files (delete p (files s)) s).
Proof.
  intros Hp Hd. unfold FS.unlink.
  by rewrite Hp, (bool_decide_eq_false_2 _ Hd).
Qed.

(** *** What the tools leave alone *)

Lemma same_file_refl (p : string) (s : St) : same_file p s s.
Proof. by repeat split. Qed.

Lemma same_file_trans (p : string) (s1 s2 s3 : St) :
  same_file p s1 s2 -> same_file p s2 s3 -> same_file p s1 s3.
Proof.
  intros (H1 & H2 & H3) (H4 & H5 & H6).
  split; [congruence|]. split; [by rewrite H5 | by rewrite H6].
Qed.

Lemma same_file_with_out (p : string) (o : list string) (s s' : St) :
  same_file p s s' -> same_file p s (with_out o s').
Proof. done. Qed.

Lemma same_disk_same_file (p : string) (s s' : St) :
  same_disk s s' -> same_file p s s'.
Proof. intros (H1 & H2 & H3). unfold same_file. by rewrite H1, H2, H3. Qed.

Lemma tools_keep_disk_file `{Ext : Externals} (p : string) :
  tools_keep_disk -> tools_keep_file p.
Proof.
  intros H app. destruct (H app) as [Hx Hc].
  split; intros s; apply same_disk_same_file; [apply Hx | apply Hc].
Qed.

(** Re-signing never fails the patch, and it leaves alone what the
    tools leave alone. *)
Lemma resign_after_patch_spec `{Ext : Externals} (self : Patcher)
      (app : string) (s : St) :
  exists s',
    resign_after_patch self app s = (Ret tt, s') /\
    forall p, tools_keep_file p -> same_file p s s'.
Proof.
  unfold resign_after_patch. mred.
  destruct (log_spec self ("  [SIGN] Re-signing " ++ app ++ "...")%string
              false s) as [o0 ->].
  destruct (xattr_cr app (with_out o0 s)) as [[rc|e] s1] eqn:Ex.
  - destruct (codesign_adhoc app s1) as [[[rc' err]|e] s2] eqn:Ec.
    + assert (H2 : forall p, tools_keep_file p -> same_file p s s2).
      { intros p Hp. destruct (Hp app) as [Hx Hc].
        specialize (Hx (with_out o0 s)). specialize (Hc s1).
        rewrite Ex in Hx. rewrite Ec in Hc.
        exact (same_file_trans p _ _ _ Hx Hc). }
      destruct (rc' =? 0)%Z; mred.
      * destruct (log_spec self "  [SIGN] Successfully re-signed" false s2)
          as [o3 ->].
        eexists. split; [done|]. intros p Hp.
        do 2 (try apply same_file_with_out); auto.
      * destruct (log_spec self
                    ("  [WARN] Code signing failed: " ++ err)%string false s2)
          as [o3 ->].
        match goal with
        | |- context [log self ?msg true ?st] =>
            destruct (log_spec self msg true st) as [o4 ->]
        end.
        eexists. split; [done|]. intros p Hp.
        do 2 (try apply same_file_with_out); auto.
    + match goal with
      | |- context [log self ?msg false s2] =>
          destruct (log_spec self msg false s2) as [o3 ->]
      end.
      eexists. split; [done|]. intros p Hp.
      apply same_file_with_out.
      destruct (Hp app) as [Hx Hc].
      specialize (Hx (with_out o0 s)). specialize (Hc s1).
      rewrite Ex in Hx. rewrite Ec in Hc.
      exact (same_file_trans p _ _ _ Hx Hc).
  - match goal with
    | |- context [log self ?msg false s1] =>
        destruct (log_spec self msg false s1) as [o3 ->]
    end.
    eexists. split; [done|]. intros p Hp.
    apply same_file_with_out.
    destruct (Hp app) as [Hx _].
    specialize (Hx (with_out o0 s)). by rewrite Ex in Hx.
Qed.

(** The patch of an executable that carries no marker and has no backup
    beside it, the app not running: the original goes to the backup with
    its permission bits, the wrapper takes its place, and the bundle is
    handed to the tools; the call answers [True] whatever they do. *)
Lemma patch_executable_fresh `{Ext : Externals} (self : Patcher)
      (config : AppConfig) (s : St) (app exe orig : string) (mode : Z) :
  dry_run self = false ->
  resolves self config s app exe ->
  files s !! exe = Some (File orig mode) ->
  fst (is_already_patched (Some exe) s) = Ret false ->
  files s !! PyPath.add_suffix exe BACKUP_SUFFIX = None ->
  FS.is_dir (PyPath.parent (PyPath.add_suffix exe BACKUP_SUFFIX)) s = true ->
  exe ∉ unreadable s ->
  exe ∉ denied s ->
  PyPath.add_suffix exe BACKUP_SUFFIX ∉ denied s ->
  fst (is_app_running config s) = Ret false ->
  exists s1,
    patch_executable self config s = (Ret true, s1) /\
    forall p, tools_keep_file p ->
      files s1 !! p
      = <[exe := File (create_wrapper_script exe
                         (PyPath.add_suffix exe BACKUP_SUFFIX))
                      (Z.lor mode exec_bits)]>
          (<[PyPath.add_suffix exe BACKUP_SUFFIX := File orig mode]> (files s))
        !! p /\
      (p ∈ denied s1 <-> p ∈ denied s) /\
      (p ∈ unreadable s1 <-> p ∈ unreadable s).
Proof.
  intros Hdry (Happ & Hexe & Hname) Hf Hp Hb Hpar Hr Hd Hdb Hrun.
  apply find_app_path_resolved in Happ.
  apply get_executable_resolved in Hexe.
  apply is_already_patched_resolved in Hp.
  apply is_app_running_resolved in Hrun.
  assert (Hne : exe <> PyPath.add_suffix exe BACKUP_SUFFIX).
  { intros H. by apply (backup_path_differs exe). }
  unfold patch_executable.
  mred. rewrite Happ. mred. rewrite Hexe. mred.
  rewrite (with_suffix_named _ _ Hname). mred. rewrite Hp. mred.
  rewrite Hb. mred. rewrite Hrun. mred. rewrite Hdry.
  destruct (log_spec self ("  [PATCH] " ++ exe)%string false s) as [o0 ->].
  mred. rewrite Hb. mred.
  rewrite (copy2_file exe (PyPath.add_suffix exe BACKUP_SUFFIX)
             (with_out o0 s) orig mode); auto.
  mred.
  match goal with
  | |- context [log self ?msg false ?st] =>
      destruct (log_spec self msg false st) as [o1 ->]
  end.
  mred.
  erewrite (write_text_file exe _ _ orig mode);
    [| cbn; by rewrite lookup_insert_ne | done].
  mred.
  erewrite (chmod_or_file exe _ _ _ mode);
    [| cbn; by rewrite lookup_insert_eq | done].
  mred.
  match goal with
  | |- context [resign_after_patch self app ?st] =>
      destruct (resign_after_patch_spec self app st) as (s2 & -> & Hkeep)
  end.
  match goal with
  | |- context [log self ?msg false s2] =>
      destruct (log_spec self msg false s2) as [o2 ->]
  end.
  eexists. split; [reflexivity|]. intros p Hkp.
  destruct (Hkeep p Hkp) as (H1 & H2 & H3). cbn in *.
  rewrite H1, insert_insert_eq. done.
Qed.

(** The restore of an executable whose backup lies beside it, the app
    not running: the backup is copied over the executable and removed,
    and the bundle is handed to the tools.  The call itself answers
    [False] when a tool cannot be started, the files being restored all
    the same. *)
Lemma restore_executable_spec `{Ext : Externals} (self : Patcher)
      (config : AppConfig) (s : St) (app exe : string)
      (c b : string) (m mb : Z) :
  dry_run self = false ->
  resolves self config s app exe ->
  files s !! exe = Some (File c m) ->
  files s !! PyPath.add_suffix exe BACKUP_SUFFIX = Some (File b mb) ->
  PyPath.add_suffix exe BACKUP_SUFFIX ∉ unreadable s ->
  exe ∉ denied s ->
  PyPath.add_suffix exe BACKUP_SUFFIX ∉ denied s ->
  fst (is_app_running config s) = Ret false ->
  exists r s2,
    restore_executable self config s = (Ret r, s2) /\
    forall p, tools_keep_file p ->
      files s2 !! p
      = delete (PyPath.add_suffix exe BACKUP_SUFFIX)
          (<[exe := File b mb]> (files s)) !! p.
Proof.
  intros Hdry (Happ & Hexe & Hname) Hf Hb Hr Hd Hdb Hrun.
  apply find_app_path_resolved in Happ.
  apply get_executable_resolved in Hexe.
  apply is_app_running_resolved in Hrun.
  assert (Hne : PyPath.add_suffix exe BACKUP_SUFFIX <> exe)
    by apply backup_path_differs.
  unfold restore_executable.
  mred. rewrite Happ. mred. rewrite Hexe. mred.
  rewrite (with_suffix_named _ _ Hname). mred. rewrite Hb. mred.
  rewrite Hrun. mred. rewrite Hdry.
  destruct (log_spec self ("  [RESTORE] " ++ exe)%string false s) as [o0 ->].
  mred.
  rewrite (copy2_file (PyPath.add_suffix exe BACKUP_SUFFIX) exe
             (with_out o0 s) b mb); eauto.
  mred.
  erewrite (unlink_file _ _ b mb);
    [| cbn; by rewrite lookup_insert_ne | done].
  mred.
  match goal with
  | |- context [xattr_cr app ?st] =>
      set (s0 := st); destruct (xattr_cr app s0) as [[rc|e] s1] eqn:Ex
  end.
  - destruct (codesign_adhoc app s1) as [[rc'|e] s2] eqn:Ec.
    + match goal with
      | |- context [log self ?msg false s2] =>
          destruct (log_spec self msg false s2) as [o2 ->]
      end.
      eexists _, _. split; [reflexivity|]. intros p Hp.
      destruct (Hp app) as [Hx Hc].
      specialize (Hx s0) as [H1 _]. specialize (Hc s1) as [H2 _].
      rewrite Ex in H1. rewrite Ec in H2. cbn in *. by rewrite H2, H1.
    + match goal with
      | |- context [log self ?msg true s2] =>
          destruct (log_spec self msg true s2) as [o2 ->]
      end.
      eexists _, _. split; [reflexivity|]. intros p Hp.
      destruct (Hp app) as [Hx Hc].
      specialize (Hx s0) as [H1 _]. specialize (Hc s1) as [H2 _].
      rewrite Ex in H1. rewrite Ec in H2. cbn in *. by rewrite H2, H1.
  - match goal with
    | |- context [log self ?msg true s1] =>
        destruct (log_spec self msg true s1) as [o2 ->]
    end.
    eexists _, _. split; [reflexivity|]. intros p Hp.
    destruct (Hp app) as [Hx _].
    specialize (Hx s0) as [H1 _]. rewrite Ex in H1. cbn in *. by rewrite H1.
Qed.

(** A signer that works writes its signature into the Mach-O executable
    it finds after the restore: after patch and restore of Slack the
    backup is gone and the executable is there again, but its bytes are
    not the bytes it had before the patch. *)
Lemma restore_after_patch_changes_signed_bytes :
  files Fixtures.slack_fresh !! Fixtures.slack_exe
  = Some (File Fixtures.macho 493) /\
  fst (patch_executable (Ext := Ref.signing Fixtures.slack_exe)
         Fixtures.quiet slack Fixtures.slack_fresh) = Ret true /\
  fst (restore_executable (Ext := Ref.signing Fixtures.slack_exe)
         Fixtures.quiet slack
         (snd (patch_executable (Ext := Ref.signing Fixtures.slack_exe)
                 Fixtures.quiet slack Fixtures.slack_fresh))) = Ret true /\
  files (snd (restore_executable (Ext := Ref.signing Fixtures.slack_exe)
                Fixtures.quiet slack
                (snd (patch_executable (Ext := Ref.signing Fixtures.slack_exe)
                        Fixtures.quiet slack Fixtures.slack_fresh))))
    !! PyPath.add_suffix Fixtures.slack_exe BACKUP_SUFFIX = None /\
  files (snd (restore_executable (Ext := Ref.signing Fixtures.slack_exe)
                Fixtures.quiet slack
                (snd (patch_executable (Ext := Ref.signing Fixtures.slack_exe)
                        Fixtures.quiet slack Fixtures.slack_fresh))))
    !! Fixtures.slack_exe
  = Some (File (Fixtures.macho ++ "[adhoc]") 493) /\
  files (snd (restore_executable (Ext := Ref.signing Fixtures.slack_exe)
                Fixtures.quiet slack
                (snd (patch_executable (Ext := Ref.signing Fixtures.slack_exe)
                        Fixtures.quiet slack Fixtures.slack_fresh))))
    !! Fixtures.slack_exe
  <> files Fixtures.slack_fresh !! Fixtures.slack_exe.
Proof.
  split; [vm_compute; reflexivity|].
  split; [vm_compute; reflexivity|].
  split; [vm_compute; reflexivity|].
  split; [vm_compute; reflexivity|].
  split; [vm_compute; reflexivity|].
  vm_compute. discriminate.
Qed.

(** C1, as the code has it: an executable without marker and without
    backup is patched, which puts its bytes and permission bits into the
    backup and the wrapper in its place, and has the bundle signed; a
    restore that follows, for the same installation and with the app
    not running, copies the backup over the executable, removes the
    backup and has the bundle signed again.  When the two tools leave
    the executable and the backup alone, the executable again is the
    file it was before the patch, byte for byte, and so is every file
    the tools leave alone. *)
Theorem restore_after_patch_roundtrip `{Ext : Externals} (self : Patcher)
        (config : AppConfig) (s : St) (app exe orig : string) (mode : Z) :
  dry_run self = false ->
  tools_keep_file exe ->
  tools_keep_file (PyPath.add_suffix exe BACKUP_SUFFIX) ->
  resolves self config s app exe ->
  files s !! exe = Some (File orig mode) ->
  fst (is_already_patched (Some exe) s) = Ret false ->
  files s !! PyPath.add_suffix exe BACKUP_SUFFIX = None ->
  FS.is_dir (PyPath.parent (PyPath.add_suffix exe BACKUP_SUFFIX)) s = true ->
  exe ∉ unreadable s ->
  PyPath.add_suffix exe BACKUP_SUFFIX ∉ unreadable s ->
  exe ∉ denied s ->
  PyPath.add_suffix exe BACKUP_SUFFIX ∉ denied s ->
  fst (is_app_running config s) = Ret false ->
  resolves self config (snd (patch_executable self config s)) app exe ->
  fst (is_app_running config (snd (patch_executable self config s)))
  = Ret false ->
  fst (patch_executable self config s) = Ret true /\
  files (snd (patch_executable self config s))
    !! PyPath.add_suffix exe BACKUP_SUFFIX = Some (File orig mode) /\
  files (snd (patch_executable self config s)) !! exe
  = Some (File (create_wrapper_script exe
                  (PyPath.add_suffix exe BACKUP_SUFFIX))
               (Z.lor mode exec_bits)) /\
  (exists r,
      fst (restore_executable self config
             (snd (patch_executable self config s))) = Ret r) /\
  files (snd (restore_executable self config
                (snd (patch_executable self config s)))) !! exe
  = Some (File orig mode) /\
  files (snd (restore_executable self config
                (snd (patch_executable self config s))))
    !! PyPath.add_suffix exe BACKUP_SUFFIX = None /\
  (forall p, tools_keep_file p ->
     files (snd (restore_executable self config
                   (snd (patch_executable self config s)))) !! p
     = files s !! p).
Proof.
  intros Hdry Hke Hkb Hres Hf Hp Hb Hpar Hr Hrb Hd Hdb Hrun Hres1 Hrun1.
  destruct (patch_executable_fresh self config s app exe orig mode)
    as (s1 & Hpatch & Hkeep1); auto.
  rewrite Hpatch in *. cbn [fst snd] in *.
  set (backup := PyPath.add_suffix exe BACKUP_SUFFIX) in *.
  assert (Hne : backup <> exe) by apply backup_path_differs.
  destruct (Hkeep1 backup Hkb) as (Hb1 & Hdb1 & Hrb1).
  destruct (Hkeep1 exe Hke) as (He1 & Hd1 & Hr1).
  rewrite lookup_insert_ne, lookup_insert_eq in Hb1 by done.
  rewrite lookup_insert_eq in He1.
  destruct (restore_executable_spec self config s1 app exe _ orig _ mode
              Hdry Hres1 He1 Hb1) as (r & s2 & Hrest & Hkeep2);
    [ intros H; by apply Hrb, Hrb1 | intros H; by apply Hd, Hd1
    | intros H; by apply Hdb, Hdb1 | done |].
  rewrite Hrest. cbn [fst snd].
  assert (Hall : forall p, tools_keep_file p -> files s2 !! p = files s !! p).
  { intros p Hkp. rewrite (Hkeep2 p Hkp).
    destruct (decide (p = backup)) as [->|Hpb].
    - by rewrite lookup_delete_eq, Hb.
    - rewrite lookup_delete_ne by done.
      destruct (decide (p = exe)) as [->|Hpe].
      + by rewrite lookup_insert_eq, Hf.
      + rewrite lookup_insert_ne by done.
        destruct (Hkeep1 p Hkp) as (H1 & _ & _).
        by rewrite H1, !lookup_insert_ne by done. }
  split; [done|]. split; [done|]. split; [done|].
  split; [by exists r|].
  split; [by rewrite (Hall exe Hke)|].
  split; [by rewrite (Hall backup Hkb)|].
  exact Hall.
Qed.

Lemma reference_tools_keep_disk : tools_keep_disk (Ext := Ref.externals).
Proof. intros app. split; intros s; apply same_disk_refl. Qed.

Lemma reference_tools_keep_file (p : string) :
  tools_keep_file (Ext := Ref.externals) p.
Proof. apply tools_keep_disk_file, reference_tools_keep_disk. Qed.

Lemma restore_after_patch_roundtrip_witness :
  files (snd (restore_executable (Ext := Ref.externals) Fixtures.quiet slack
                (snd (patch_executable (Ext := Ref.externals) Fixtures.quiet
                        slack Fixtures.slack_fresh)))) !! Fixtures.slack_exe
  = Some (File Fixtures.macho 493).
Proof.
  destruct (restore_after_patch_roundtrip (Ext := Ref.externals)
              Fixtures.quiet slack Fixtures.slack_fresh
              "/Applications/Slack.app" Fixtures.slack_exe
              Fixtures.macho 493)
    as (_ & _ & _ & _ & H & _).
  - reflexivity.
  - apply reference_tools_keep_file.
  - apply reference_tools_keep_file.
  - split; [|split]; vm_compute; first [reflexivity | discriminate].
  - vm_compute; reflexivity.
  - vm_compute; reflexivity.
  - vm_compute; reflexivity.
  - vm_compute; reflexivity.
  - set_solver.
  - set_solver.
  - set_solver.
  - set_solver.
  - vm_compute; reflexivity.
  - split; [|split]; vm_compute; first [reflexivity | discriminate].
  - vm_compute; reflexivity.
  - exact H.
Defined.

(** ** Dry runs, in general *)

Lemma keeps_disk_ret {A} (a : A) : keeps_disk (ret a).
Proof. intros s. apply same_disk_refl. Qed.

Lemma keeps_disk_raise {A} (e : exn) : keeps_disk (raise (A := A) e).
Proof. intros s. apply same_disk_refl. Qed.

Lemma keeps_disk_gets {A} (f : St -> A) : keeps_disk (gets f).
Proof. intros s. apply same_disk_refl. Qed.

Lemma keeps_disk_lift {A} (o : outcome A) : keeps_disk (lift_outcome o).
Proof. intros s. apply same_disk_refl. Qed.

Lemma keeps_disk_bind {A B} (m : M A) (k : A -> M B) :
  keeps_disk m -> (forall a, keeps_disk (k a)) -> keeps_disk (bind m k).
Proof.
  intros Hm Hk s. unfold bind. specialize (Hm s).
  destruct (m s) as [[a|e] s1]; cbn [snd] in *; [|done].
  eapply same_disk_trans; [exact Hm | apply Hk].
Qed.

Lemma keeps_disk_try {A} (m : M A) (h : exn -> M A) :
  keeps_disk m -> (forall e, keeps_disk (h e)) -> keeps_disk (try_except m h).
Proof.
  intros Hm Hh s. unfold try_except. specialize (Hm s).
  destruct (m s) as [[a|e] s1]; cbn [snd] in *; [done|].
  eapply same_disk_trans; [exact Hm | apply Hh].
Qed.

Lemma keeps_disk_when (c : bool) (m : M unit) :
  keeps_disk m -> keeps_disk (when c m).
Proof. destruct c; [done | intros _; apply keeps_disk_ret]. Qed.

Lemma keeps_disk_print (msg : string) : keeps_disk (print_line msg).
Proof. intros s. apply same_disk_with_out. Qed.

Lemma keeps_disk_log (self : Patcher) (msg : string) (force : bool) :
  keeps_disk (log self msg force).
Proof. apply keeps_disk_when, keeps_disk_print. Qed.

Lemma keeps_disk_exists (p : string) : keeps_disk (FS.exists_ p).
Proof.
  intros s. destruct (exists_spec p s) as [o ->]. apply same_disk_refl.
Qed.

Lemma keeps_disk_read_bytes (p : string) : keeps_disk (FS.read_bytes p).
Proof.
  intros s. unfold FS.read_bytes.
  destruct (files s !! p) as [[c m| |]|]; try apply same_disk_refl.
  destruct (bool_decide (p ∈ unreadable s)); apply same_disk_refl.
Qed.

Lemma keeps_disk_read_text (p : string) : keeps_disk (FS.read_text p).
Proof.
  apply keeps_disk_bind; [apply keeps_disk_read_bytes|].
  intros c. destruct (FS.utf8_valid c);
    [apply keeps_disk_ret | apply keeps_disk_raise].
Qed.

Lemma keeps_disk_find_app_path (config : AppConfig) :
  keeps_disk (find_app_path config).
Proof.
  intros s. destruct (find_app_path_spec config s) as [r ->].
  apply same_disk_refl.
Qed.

Lemma keeps_disk_is_app_running (config : AppConfig) :
  keeps_disk (is_app_running config).
Proof.
  intros s. destruct (is_app_running_spec config s) as [r ->].
  apply same_disk_refl.
Qed.

Lemma keeps_disk_is_already_patched (p : option string) :
  keeps_disk (is_already_patched p).
Proof.
  intros s. destruct (is_already_patched_spec p s) as [r ->].
  apply same_disk_refl.
Qed.

Lemma keeps_disk_scan_experiments (self : Patcher) (items : list json) :
  keeps_disk (scan_experiments self items).
Proof.
  intros s. destruct (scan_experiments_spec self items s) as [o ->].
  apply same_disk_with_out.
Qed.

Create HintDb disk.
#[local] Hint Resolve keeps_disk_ret keeps_disk_raise keeps_disk_gets
  keeps_disk_lift keeps_disk_print keeps_disk_log keeps_disk_exists
  keeps_disk_read_bytes keeps_disk_read_text keeps_disk_find_app_path
  keeps_disk_is_app_running keeps_disk_is_already_patched
  keeps_disk_scan_experiments : disk.

(** Follow the shape of a method: sequencing, handlers and branches. *)
Ltac disk :=
  repeat first
    [ solve [auto with disk]
    | apply keeps_disk_bind; [|intros ?]
    | apply keeps_disk_try; [|intros ?]
    | apply keeps_disk_when
    | match goal with
      | |- keeps_disk (match ?x with _ => _ end) => destruct x
      end ].

Lemma keeps_disk_get_executable `{Ext : Externals} (self : Patcher)
      (app_path : option string) :
  keeps_disk (get_executable_from_app self app_path).
Proof. unfold get_executable_from_app. disk. Qed.

#[local] Hint Resolve keeps_disk_get_executable : disk.

(** X23: in a dry run the executable patch, the restore and the
    preference-flag patch write nothing, whatever they find; the
    settings-key patch writes nothing for an entry whose name does not
    contain [docker]. *)
Lemma dry_run_keeps_disk `{Ext : Externals} (self : Patcher)
      (config : AppConfig) :
  dry_run self = true ->
  keeps_disk (patch_executable self config) /\
  keeps_disk (restore_executable self config) /\
  (forall state_file app_name,
      keeps_disk (patch_local_state self state_file app_name)) /\
  (PyStr.contains "docker" (PyStr.lower (name config)) = false ->
   keeps_disk (patch_settings_file self config)).
Proof.
  intros Hdry. split; [|split; [|split]].
  - unfold patch_executable. rewrite Hdry. cbv beta iota delta [negb when].
    disk.
  - unfold restore_executable. rewrite Hdry. disk.
  - intros state_file app_name. unfold patch_local_state. rewrite Hdry. disk.
  - intros Hname. unfold patch_settings_file. rewrite Hdry, Hname. disk.
Qed.

(** * Further properties of the methods *)

(** ** Locating an app and its executable *)

Lemma join_relative (a b : string) :
  PyPath.root_of b = EmptyString ->
  PyPath.join a b
  = PyPath.format (PyPath.root_of a) (PyPath.names_of a ++ PyPath.names_of b).
Proof. unfold PyPath.join. by intros ->. Qed.

Lemma join_absolute (a b : string) :
  PyPath.root_of b <> EmptyString -> PyPath.join a b = PyPath.path b.
Proof.
  unfold PyPath.join, PyPath.path. by destruct (PyPath.root_of b).
Qed.

Lemma exists_present (p : string) (s : St) :
  fst (FS.exists_ p s) = Ret true -> FS.exists_ p s = (Ret true, s).
Proof. destruct (exists_spec p s) as [o ->]. by intros [= ->]. Qed.

Lemma exists_absent (p : string) (s : St) :
  files s !! p = None -> FS.exists_ p s = (Ret false, s).
Proof. unfold FS.exists_. by intros ->. Qed.

Lemma first_existing_skips (before : list string) (p : string)
      (after : list string) (s : St) :
  (forall q, q ∈ before -> files s !! PyPath.path q = None) ->
  fst (FS.exists_ (PyPath.path p) s) = Ret true ->
  first_existing (before ++ p :: after) s = (Ret (Some (PyPath.path p)), s).
Proof.
  intros Hbefore Hp. apply exists_present in Hp.
  induction before as [|q before IH]; cbn; unfold bind.
  - by rewrite Hp.
  - rewrite exists_absent by apply Hbefore, list_elem_of_here.
    apply IH. intros q' Hq'. apply Hbefore. by apply list_elem_of_further.
Qed.

Lemma first_existing_none (paths : list string) (s : St) :
  (forall q, q ∈ paths -> files s !! PyPath.path q = None) ->
  first_existing paths s = (Ret None, s).
Proof.
  intros Hnone. induction paths as [|q paths IH]; cbn; unfold bind; [done|].
  rewrite exists_absent by apply Hnone, list_elem_of_here.
  apply IH. intros q' Hq'. apply Hnone. by apply list_elem_of_further.
Qed.

(** X1: the candidate paths are tried in their order and the first one
    that exists is the answer, as the path [Path] makes of its text,
    whatever comes after it and whatever the metadata index would say;
    the state is left as it was. *)
Theorem find_app_path_first_existing (config : AppConfig) (s : St)
        (before : list string) (p : string) (after : list string) :
  app_paths config = before ++ p :: after ->
  (forall q, q ∈ before -> files s !! PyPath.path q = None) ->
  fst (FS.exists_ (PyPath.path p) s) = Ret true ->
  find_app_path config s = (Ret (Some (PyPath.path p)), s).
Proof.
  intros Hpaths Hbefore Hp. unfold find_app_path, bind.
  by rewrite Hpaths, (first_existing_skips before p after s Hbefore Hp).
Qed.

Lemma find_app_path_first_existing_witness :
  find_app_path
    (mkAppConfig "Google Chrome" [] None None true (Some "com.google.Chrome")
       ["/Applications/Google Chrome.app"; "/Applications/Slack.app/";
        "/Applications/Google Chrome Canary.app"] EmptyString)
    Fixtures.slack_fresh
  = (Ret (Some "/Applications/Slack.app"), Fixtures.slack_fresh).
Proof.
  apply (find_app_path_first_existing _ _ ["/Applications/Google Chrome.app"]
           "/Applications/Slack.app/"
           ["/Applications/Google Chrome Canary.app"]).
  - reflexivity.
  - intros q Hq. apply list_elem_of_singleton in Hq as ->.
    vm_compute; reflexivity.
  - vm_compute; reflexivity.
Defined.

(** X2: an app that is not there is no error.  When none of the
    candidate paths exists, the answer is [None], without an exception,
    for an entry without bundle identifier, when the metadata query
    cannot be run or times out, and when it prints no line that ends in
    [.app]; when it prints such lines, the first of them, as a path, is
    the answer. *)
Theorem find_app_path_falls_back_to_index (config : AppConfig) (s : St) :
  (forall q, q ∈ app_paths config -> files s !! PyPath.path q = None) ->
  (PyStr.truthy (bundle_id config) = false ->
   find_app_path config s = (Ret None, s)) /\
  (forall bid, bundle_id config = Some bid -> bid <> EmptyString ->
     let query := ("kMDItemCFBundleIdentifier == '" ++ bid ++ "'")%string in
     (mdfind s query = None -> find_app_path config s = (Ret None, s)) /\
     (forall stdout, mdfind s query = Some stdout ->
        find_app_path config s
        = (Ret (PyPath.path <$>
                head (List.filter (fun p => PyStr.endswith p ".app")
                        (PyStr.split (ascii_of_nat 10) (PyStr.strip stdout)))),
           s))).
Proof.
  intros Hnone. unfold find_app_path. mred.
  rewrite (first_existing_none _ s Hnone). split.
  - by destruct (bundle_id config) as [[|c bid]|].
  - intros bid -> Hbid. destruct bid as [|c bid]; [done|]. mred. split.
    + by intros ->.
    + intros stdout ->. by destruct (List.filter _ _).
Qed.

Lemma find_app_path_falls_back_to_index_witness :
  find_app_path slack
    (mkSt ∅ ∅ ∅ "/Users/u" Ref.nothing_runs
       (fun _ => Some (Fixtures.index_output)) [] [])
  = (Ret (Some "/Volumes/Apps/Slack.app"),
     mkSt ∅ ∅ ∅ "/Users/u" Ref.nothing_runs
       (fun _ => Some (Fixtures.index_output)) [] []).
Proof.
  pose proof (find_app_path_falls_back_to_index slack
    (mkSt ∅ ∅ ∅ "/Users/u" Ref.nothing_runs
       (fun _ => Some (Fixtures.index_output)) [] [])) as H.
  destruct H as [_ H]; [intros q _; apply lookup_empty|].
  destruct (H "com.tinyspeck.slackmacgap" eq_refl ltac:(discriminate))
    as [_ H'].
  exact (H' _ eq_refl).
Defined.

(** X3: the manifest reader fails softly once the manifest can be
    examined.  The test [info_plist.exists()] stands before the [try]:
    when it cannot examine the manifest, its [PermissionError] passes
    and nothing is printed.  Otherwise the reader raises nothing and
    prints at most; it answers with an executable only when the manifest
    is a readable file that parses to a dict whose [CFBundleExecutable]
    is a non-empty string, and then the answer is [Contents/MacOS] of
    the bundle joined with that name; a name without a leading slash is
    not looked up anywhere else, whereas an absolute name replaces the
    bundle's path, as [/] does on paths. *)
Theorem get_executable_from_app_soft `{Ext : Externals} (self : Patcher)
        (app : string) (s : St) :
  (forall e,
      files s !! PyPath.join (PyPath.join app "Contents") "Info.plist"
      = Some (NoStat e) ->
      get_executable_from_app self (Some app) s = (Raise e, s)) /\
  ((forall e,
       files s !! PyPath.join (PyPath.join app "Contents") "Info.plist"
       <> Some (NoStat e)) ->
   exists r o,
     get_executable_from_app self (Some app) s = (Ret r, with_out o s) /\
     forall exe, r = Some exe ->
       exists raw m plist nm,
         files s !! PyPath.join (PyPath.join app "Contents") "Info.plist"
         = Some (File raw m) /\
         plistlib_load raw = Some (JObj plist) /\
         Dict.get "CFBundleExecutable" plist = Some (JStr nm) /\
         nm <> EmptyString /\
         exe = PyPath.join (PyPath.join (PyPath.join app "Contents") "MacOS")
                           nm /\
         (PyPath.root_of nm = EmptyString ->
          exe = PyPath.format (PyPath.root_of
                                 (PyPath.join (PyPath.join app "Contents")
                                              "MacOS"))
                  (PyPath.names_of (PyPath.join (PyPath.join app "Contents")
                                                "MacOS")
                   ++ PyPath.names_of nm)) /\
         (PyPath.root_of nm <> EmptyString -> exe = PyPath.path nm)).
Proof.
  unfold get_executable_from_app, log. mred.
  set (info := PyPath.join (PyPath.join app "Contents") "Info.plist").
  assert (Hs : s = with_out (out s) s) by (by rewrite with_out_same).
  split; [by intros e ->|]. intros Hacc.
  mcase (files s !! info).
  2: { exists None, (out s). by rewrite <- Hs. }
  destruct n as [raw m| |e]; mred; rewrite ?E; mred;
    [| |by destruct (Hacc e)].
  2: { exists None. destruct (verbose self); mred;
         [eexists; split; [reflexivity | done]
         | exists (out s); by rewrite <- Hs]. }
  mcase (bool_decide (info ∈ unreadable s)).
  { exists None. destruct (verbose self); mred;
      [eexists; split; [reflexivity | done]
      | exists (out s); by rewrite <- Hs]. }
  destruct (plistlib_load raw) as [[| | | | | |plist]|] eqn:Hload;
    try (exists None; destruct (verbose self); mred;
         [eexists; split; [reflexivity | done]
         | exists (out s); by rewrite <- Hs]).
  destruct (Dict.get "CFBundleExecutable" plist) as [v|] eqn:Hget.
  2: { exists None, (out s). by rewrite <- Hs. }
  destruct (py_truthy v) eqn:Htruthy.
  2: { exists None, (out s). by rewrite <- Hs. }
  destruct v as [| | | |nm| |];
    try (exists None; destruct (verbose self); mred;
         [eexists; split; [reflexivity | done]
         | exists (out s); by rewrite <- Hs]).
  eexists _, (out s). rewrite <- Hs. split; [reflexivity|].
  intros exe [= <-]. exists raw, m, plist, nm.
  split; [done|]. split; [done|]. split; [done|].
  split; [intros ->; discriminate|]. split; [done|].
  split; [apply join_relative | apply join_absolute].
Qed.

Lemma get_executable_from_app_soft_witness :
  get_executable_from_app (Ext := Ref.externals) Fixtures.quiet
    (Some "/Applications/Slack.app") Fixtures.slack_locked_bundle
  = (Raise PermissionError, Fixtures.slack_locked_bundle) /\
  exists r o,
    get_executable_from_app (Ext := Ref.externals) Fixtures.quiet
      (Some "/Applications/Slack.app") Fixtures.slack_fresh
    = (Ret r, with_out o Fixtures.slack_fresh).
Proof.
  split.
  - apply (get_executable_from_app_soft (Ext := Ref.externals)).
    vm_compute; reflexivity.
  - destruct (get_executable_from_app_soft (Ext := Ref.externals)
                Fixtures.quiet "/Applications/Slack.app" Fixtures.slack_fresh)
      as (_ & H).
    destruct H as (r & o & H & _); [intros e; vm_compute; discriminate|].
    by exists r, o.
Defined.

(** ** What raises and what does not *)

Lemma never_raises_ret {A} (a : A) : never_raises (ret a).
Proof. intros s. by exists a. Qed.

Lemma never_raises_gets {A} (f : St -> A) : never_raises (gets f).
Proof. intros s. by eexists. Qed.

Lemma never_raises_bind {A B} (m : M A) (k : A -> M B) :
  never_raises m -> (forall a, never_raises (k a)) -> never_raises (bind m k).
Proof.
  intros Hm Hk s. unfold bind. destruct (Hm s) as [a Ha].
  destruct (m s) as [[a'|e] s1]; cbn in Ha; [|done].
  apply Hk.
Qed.

(** A handler that returns makes the whole [try] return. *)
Lemma never_raises_try {A} (m : M A) (h : exn -> M A) :
  (forall e, never_raises (h e)) -> never_raises (try_except m h).
Proof.
  intros Hh s. unfold try_except.
  destruct (m s) as [[a|e] s1]; [by exists a | apply Hh].
Qed.

Lemma never_raises_when (c : bool) (m : M unit) :
  never_raises m -> never_raises (when c m).
Proof. destruct c; [done | intros _; apply never_raises_ret]. Qed.

Lemma never_raises_print (msg : string) : never_raises (print_line msg).
Proof. intros s. by eexists. Qed.

Lemma never_raises_log (self : Patcher) (msg : string) (force : bool) :
  never_raises (log self msg force).
Proof. apply never_raises_when, never_raises_print. Qed.

Lemma never_raises_is_app_running (config : AppConfig) :
  never_raises (is_app_running config).
Proof.
  intros s. destruct (is_app_running_spec config s) as [r ->]. by exists r.
Qed.

Lemma never_raises_not {A} (m : M A) (s : St) (e : exn) :
  never_raises m -> fst (m s) <> Raise e.
Proof. intros H. destruct (H s) as [a ->]. done. Qed.

Create HintDb returns.
#[local] Hint Resolve never_raises_ret never_raises_gets never_raises_print
  never_raises_log never_raises_is_app_running : returns.

Ltac returns :=
  repeat first
    [ solve [auto with returns]
    | apply never_raises_try; intros ?
    | apply never_raises_bind; [|intros ?]
    | apply never_raises_when
    | match goal with
      | |- never_raises (match ?x with _ => _ end) => destruct x
      end ].

Lemma bind_ret_eq {A B} (m : M A) (k : A -> M B) (s s1 : St) (a : A) :
  m s = (Ret a, s1) -> bind m k s = k a s1.
Proof. unfold bind. by intros ->. Qed.

Lemma bind_raise_eq {A B} (m : M A) (k : A -> M B) (s s1 : St) (e : exn) :
  m s = (Raise e, s1) -> bind m k s = (Raise e, s1).
Proof. unfold bind. by intros ->. Qed.

(** One step of a method whose outcome is known. *)
Ltac step H :=
  first [ rewrite (bind_ret_eq _ _ _ _ _ H)
        | rewrite (bind_raise_eq _ _ _ _ _ H) ];
  cbv beta iota.

(** The look-ups raise for one reason: a path that cannot be
    examined. *)
Lemma exists_cases (p : string) (s : St) :
  (exists b, FS.exists_ p s = (Ret b, s)) \/
  (exists e, FS.exists_ p s = (Raise e, s) /\
             files s !! p = Some (NoStat e)).
Proof.
  unfold FS.exists_. destruct (files s !! p) as [[| |]|]; eauto.
Qed.

Lemma first_existing_cases (paths : list string) (s : St) :
  (exists r, first_existing paths s = (Ret r, s)) \/
  (exists e, first_existing paths s = (Raise e, s) /\
             exists p, files s !! p = Some (NoStat e)).
Proof.
  induction paths as [|p rest IH]; cbn; [left; by eexists|].
  destruct (exists_cases (PyPath.path p) s) as [[[|] H] | (e & H & Hp)];
    step H; eauto.
Qed.

Lemma find_app_path_cases (config : AppConfig) (s : St) :
  (exists r, find_app_path config s = (Ret r, s)) \/
  (exists e, find_app_path config s = (Raise e, s) /\
             exists p, files s !! p = Some (NoStat e)).
Proof.
  unfold find_app_path.
  destruct (first_existing_cases (app_paths config) s)
    as [[[p|] H] | (e & H & Hp)];
    step H; eauto.
  left. destruct (bundle_id config) as [[|c bid]|]; try by eexists.
  unfold try_except, bind, run_mdfind.
  destruct (mdfind s _); [|by eexists].
  destruct (List.filter _ _); by eexists.
Qed.

Lemma is_already_patched_cases (p : option string) (s : St) :
  (exists b, is_already_patched p s = (Ret b, s)) \/
  (exists e, is_already_patched p s = (Raise e, s) /\
             exists q, files s !! q = Some (NoStat e)).
Proof.
  destruct p as [p|]; [|left; by eexists].
  destruct (is_already_patched_spec (Some p) s) as [o Ho].
  unfold is_already_patched in *.
  destruct (exists_cases p s) as [[b H] | (e & H & Hp)]; step H.
  - left. rewrite (bind_ret_eq _ _ _ _ _ H) in Ho. cbv beta in Ho.
    destruct b; cbn [negb] in *; [|by eexists].
    unfold try_except, ret in *.
    match goal with
    | |- context [bind ?m ?k s] => destruct (bind m k s) as [[c|e] s1]
    end; injection Ho as _ ->; by eexists.
  - right. eauto.
Qed.

Lemma get_executable_cases `{Ext : Externals} (self : Patcher)
      (app : string) (s : St) :
  (exists r, fst (get_executable_from_app self (Some app) s) = Ret r) \/
  (exists e, get_executable_from_app self (Some app) s = (Raise e, s) /\
             exists p, files s !! p = Some (NoStat e)).
Proof.
  unfold get_executable_from_app.
  destruct (exists_cases (PyPath.join (PyPath.join app "Contents") "Info.plist")
              s) as [[b H] | (e & H & Hp)]; step H; [|eauto].
  left.
  match goal with
  | |- exists r, fst (?m s) = Ret r =>
      assert (Hn : never_raises m) by (destruct b; cbn [negb]; returns);
      apply Hn
  end.
Qed.

(** X4: the two executable methods let an exception pass only from the
    tests that stand before their [try]: the [PermissionError] of
    [Path.exists] on a path that cannot be examined, and the
    [ValueError] of [with_suffix] on an executable without a name; then
    nothing has been written or printed.  Every other failure of a
    restore is reported, not raised, whatever the tools do, and so for a
    patch in a dry run: in a state in which every path can be examined,
    for an executable with a name, they return a boolean. *)
Theorem restore_executable_raises_before_try `{Ext : Externals}
        (self : Patcher) (config : AppConfig) (s : St) :
  (forall e, fst (restore_executable self config s) = Raise e ->
     restore_executable self config s = (Raise e, s) /\
     raised_before_try self config s e) /\
  (dry_run self = true ->
   forall e, fst (patch_executable self config s) = Raise e ->
     patch_executable self config s = (Raise e, s) /\
     raised_before_try self config s e) /\
  (reachable s ->
   (forall app exe,
       fst (find_app_path config s) = Ret (Some app) ->
       fst (get_executable_from_app self (Some app) s) = Ret (Some exe) ->
       PyPath.name exe <> EmptyString) ->
   (exists b, fst (restore_executable self config s) = Ret b) /\
   (dry_run self = true ->
    exists b, fst (patch_executable self config s) = Ret b)).
Proof.
  assert (Hrestore : forall e,
             fst (restore_executable self config s) = Raise e ->
             restore_executable self config s = (Raise e, s) /\
             raised_before_try self config s e).
  { intros e. unfold restore_executable, raised_before_try.
    destruct (find_app_path_cases config s) as [[[app|] Hf] | (e0 & Hf & Hp)];
      step Hf; rewrite ?Hf; cbn [fst].
    2: { intros H. by apply never_raises_not in H; [|returns]. }
    2: { intros [= <-]. split; [done|]. by left. }
    destruct (get_executable_cases self app s)
      as [[[exe|] Hg] | (e0 & Hg & Hp)].
    3: { step Hg. intros [= <-]. split; [done|]. by left. }
    2: { destruct (get_executable_from_app self (Some app) s)
           as [o s1] eqn:Hg'. cbn in Hg. subst o. step Hg'.
         intros H. by apply never_raises_not in H; [|returns]. }
    pose proof (get_executable_resolved self app exe s Hg) as Hg'.
    step Hg'. unfold PyPath.with_suffix.
    destruct (PyPath.name exe) as [|c nm] eqn:Hname.
    { rewrite (bind_raise_eq (lift_outcome (Raise ValueError)) _ s s
                 ValueError eq_refl). cbn [fst].
      intros [= <-]. split; [done|]. right. split; [done|].
      by exists app, exe. }
    rewrite (bind_ret_eq
               (lift_outcome (Ret (PyPath.add_suffix exe BACKUP_SUFFIX)))
               _ s s _ eq_refl). cbv beta iota.
    destruct (exists_cases (PyPath.add_suffix exe BACKUP_SUFFIX) s)
      as [[b Hb] | (e0 & Hb & Hp)]; step Hb.
    2: { intros [= <-]. split; [done|]. left. eauto. }
    intros H. apply never_raises_not in H; [done|].
    destruct b; cbn [negb]; returns. }
  assert (Hpatch : dry_run self = true ->
             forall e, fst (patch_executable self config s) = Raise e ->
             patch_executable self config s = (Raise e, s) /\
             raised_before_try self config s e).
  { intros Hdry e. unfold patch_executable, raised_before_try.
    rewrite Hdry. cbv beta iota delta [negb when].
    destruct (find_app_path_cases config s) as [[[app|] Hf] | (e0 & Hf & Hp)];
      step Hf; rewrite ?Hf; cbn [fst].
    2: { intros H. by apply never_raises_not in H; [|returns]. }
    2: { intros [= <-]. split; [done|]. by left. }
    destruct (get_executable_cases self app s)
      as [[[exe|] Hg] | (e0 & Hg & Hp)].
    3: { step Hg. intros [= <-]. split; [done|]. by left. }
    2: { destruct (get_executable_from_app self (Some app) s)
           as [o s1] eqn:Hg'. cbn in Hg. subst o. step Hg'.
         intros H. by apply never_raises_not in H; [|returns]. }
    pose proof (get_executable_resolved self app exe s Hg) as Hg'.
    step Hg'. unfold PyPath.with_suffix.
    destruct (PyPath.name exe) as [|c nm] eqn:Hname.
    { rewrite (bind_raise_eq (lift_outcome (Raise ValueError)) _ s s
                 ValueError eq_refl). cbn [fst].
      intros [= <-]. split; [done|]. right. split; [done|].
      by exists app, exe. }
    rewrite (bind_ret_eq
               (lift_outcome (Ret (PyPath.add_suffix exe BACKUP_SUFFIX)))
               _ s s _ eq_refl). cbv beta iota.
    destruct (is_already_patched_cases (Some exe) s)
      as [[b Hb] | (e0 & Hb & Hp)];
      step Hb.
    2: { intros [= <-]. split; [done|]. by left. }
    destruct b.
    { intros H. by apply never_raises_not in H; [|returns]. }
    match goal with
    | |- context [bind (bind (FS.exists_ ?p) ?k) ?k'] =>
        destruct (exists_cases p s) as [[there Ht] | (e0 & Ht & Hp)];
        [ assert (Hstale : exists st, bind (FS.exists_ p) k s = (Ret st, s))
            by (step Ht; destruct there; [step Hb|]; by eexists)
        | assert (Hstale : bind (FS.exists_ p) k s = (Raise e0, s))
            by (by step Ht) ]
    end.
    - destruct Hstale as [st Hstale]. step Hstale.
      intros H. apply never_raises_not in H; [done|].
      destruct st; returns.
    - step Hstale. intros [= <-]. split; [done|]. left. eauto. }
  split; [exact Hrestore|]. split; [exact Hpatch|].
  intros Hs Hnamed.
  assert (Hnot : forall e, ~ raised_before_try self config s e).
  { intros e [[p Hp] | [_ (app & exe & Ha & He & Hn)]].
    - by apply (Hs p e).
    - by apply (Hnamed app exe). }
  split.
  - destruct (restore_executable self config s) as [[b|e] s1] eqn:Hr;
      [by exists b|].
    destruct (Hrestore e) as [_ H]; [done|]. by apply Hnot in H.
  - intros Hdry.
    destruct (patch_executable self config s) as [[b|e] s1] eqn:Hr;
      [by exists b|].
    destruct (Hpatch Hdry e) as [_ H]; [done|]. by apply Hnot in H.
Qed.

Lemma restore_executable_raises_before_try_witness :
  restore_executable (Ext := Ref.externals) Fixtures.quiet slack
    Fixtures.slack_without_name
  = (Raise ValueError, Fixtures.slack_without_name) /\
  patch_executable (Ext := Ref.externals) Fixtures.dry slack
    Fixtures.slack_locked
  = (Raise PermissionError, Fixtures.slack_locked) /\
  exists b,
    fst (restore_executable (Ext := Ref.externals) Fixtures.quiet slack
           Fixtures.slack_fresh) = Ret b.
Proof.
  split; [|split].
  - destruct (restore_executable_raises_before_try (Ext := Ref.externals)
                Fixtures.quiet slack Fixtures.slack_without_name)
      as (H & _ & _).
    apply (H ValueError). vm_compute; reflexivity.
  - destruct (restore_executable_raises_before_try (Ext := Ref.externals)
                Fixtures.dry slack Fixtures.slack_locked)
      as (_ & H & _).
    apply (H eq_refl PermissionError). vm_compute; reflexivity.
  - destruct (restore_executable_raises_before_try (Ext := Ref.externals)
                Fixtures.quiet slack Fixtures.slack_fresh)
      as (_ & _ & H).
    apply H.
    + apply reachable_check. vm_compute; reflexivity.
    + intros app exe Ha He. vm_compute in Ha. injection Ha as <-.
      vm_compute in He. injection He as <-. vm_compute; discriminate.
Defined.

(** ** Restoring *)

(** X5: nothing to restore is a skip.  For an installed app without
    backup beside its executable, [restore_executable] answers [False]
    and changes nothing, whether the app runs or not; only a verbose
    patcher prints the skip. *)
Theorem restore_executable_without_backup `{Ext : Externals} (self : Patcher)
        (config : AppConfig) (s : St) (app exe : string) :
  resolves self config s app exe ->
  files s !! PyPath.add_suffix exe BACKUP_SUFFIX = None ->
  restore_executable self config s
  = (Ret false,
     with_out (if verbose self
               then out s ++ ["  [SKIP] No backup found for " ++ name config]%string
               else out s) s).
Proof.
  intros (Happ & Hexe & Hname) Hb.
  apply find_app_path_resolved in Happ.
  apply get_executable_resolved in Hexe.
  unfold restore_executable. mred. rewrite Happ. mred. rewrite Hexe. mred.
  rewrite (with_suffix_named _ _ Hname). mred.
  rewrite Hb. mred. unfold log. mred.
  destruct (verbose self); mred; [done|]. by rewrite with_out_same.
Qed.

Lemma restore_executable_without_backup_witness :
  restore_executable (Ext := Ref.externals) Fixtures.quiet slack
    Fixtures.slack_fresh
  = (Ret false, with_out (out Fixtures.slack_fresh) Fixtures.slack_fresh).
Proof.
  apply (restore_executable_without_backup (Ext := Ref.externals)
           Fixtures.quiet slack Fixtures.slack_fresh
           "/Applications/Slack.app" Fixtures.slack_exe).
  - split; [|split]; vm_compute; first [reflexivity | discriminate].
  - vm_compute; reflexivity.
Defined.

(** X6: a restore is refused while the app runs.  With a backup beside
    the executable and the running check positive, [restore_executable]
    answers [False], prints the error even when not verbose, and leaves
    executable and backup as they are: the check comes before the
    copy. *)
Theorem restore_executable_refused_while_running `{Ext : Externals}
        (self : Patcher) (config : AppConfig) (s : St) (app exe : string) :
  resolves self config s app exe ->
  fst (FS.exists_ (PyPath.add_suffix exe BACKUP_SUFFIX) s) = Ret true ->
  fst (is_app_running config s) = Ret true ->
  restore_executable self config s
  = (Ret false,
     with_out (out s ++ ["  [ERROR] " ++ name config ++
                         " is running. Please quit it first."]%string) s).
Proof.
  intros (Happ & Hexe & Hname) Hb Hrun.
  apply exists_present in Hb.
  apply find_app_path_resolved in Happ.
  apply get_executable_resolved in Hexe.
  apply is_app_running_resolved in Hrun.
  unfold restore_executable. mred. rewrite Happ. mred. rewrite Hexe. mred.
  rewrite (with_suffix_named _ _ Hname). mred.
  rewrite Hb. mred. rewrite Hrun. mred. unfold log. mred.
  by destruct (verbose self).
Qed.

Lemma restore_executable_refused_while_running_witness :
  files (snd (restore_executable (Ext := Ref.externals) Fixtures.quiet slack
                Fixtures.slack_updated_while_patched))
  = files Fixtures.slack_updated_while_patched.
Proof.
  rewrite (restore_executable_refused_while_running (Ext := Ref.externals)
             Fixtures.quiet slack Fixtures.slack_updated_while_patched
             "/Applications/Slack.app" Fixtures.slack_exe).
  - reflexivity.
  - split; [|split]; vm_compute; first [reflexivity | discriminate].
  - vm_compute; reflexivity.
  - vm_compute; reflexivity.
Defined.

(** ** Patching twice, and patching that fails half way *)




(** X8: a patch that may not write the executable leaves the backup
    behind.  When the executable is write-protected and its directory is
    not, the patch creates the backup, fails on the wrapper, prints the
    permission error even when not verbose and answers [False]: the
    executable is as it was, and a backup now lies beside it. *)
Theorem patch_executable_denied_leaves_backup `{Ext : Externals}
        (self : Patcher) (config : AppConfig) (s : St)
        (app exe orig : string) (mode : Z) :
  dry_run self = false ->
  resolves self config s app exe ->
  files s !! exe = Some (File orig mode) ->
  fst (is_already_patched (Some exe) s) = Ret false ->
  files s !! PyPath.add_suffix exe BACKUP_SUFFIX = None ->
  FS.is_dir (PyPath.parent (PyPath.add_suffix exe BACKUP_SUFFIX)) s = true ->
  exe ∉ unreadable s ->
  exe ∈ denied s ->
  PyPath.add_suffix exe BACKUP_SUFFIX ∉ denied s ->
  fst (is_app_running config s) = Ret false ->
  fst (patch_executable self config s) = Ret false /\
  files (snd (patch_executable self config s))
  = <[PyPath.add_suffix exe BACKUP_SUFFIX := File orig mode]> (files s) /\
  last (out (snd (patch_executable self config s)))
  = Some ("  [ERROR] Permission denied. Try: sudo python3 " ++ argv0 ++
          " ...")%string.
Proof.
  intros Hdry (Happ & Hexe & Hname) Hf Hp Hb Hpar Hr Hd Hdb Hrun.
  apply find_app_path_resolved in Happ.
  apply get_executable_resolved in Hexe.
  apply is_already_patched_resolved in Hp.
  apply is_app_running_resolved in Hrun.
  assert (Hne : exe <> PyPath.add_suffix exe BACKUP_SUFFIX).
  { intros H. by apply (backup_path_differs exe). }
  unfold patch_executable.
  mred. rewrite Happ. mred. rewrite Hexe. mred.
  rewrite (with_suffix_named _ _ Hname). mred. rewrite Hp. mred.
  rewrite Hb. mred. rewrite Hrun. mred. rewrite Hdry.
  destruct (log_spec self ("  [PATCH] " ++ exe)%string false s) as [o0 ->].
  mred. rewrite Hb. mred.
  rewrite (copy2_file exe (PyPath.add_suffix exe BACKUP_SUFFIX)
             (with_out o0 s) orig mode); auto.
  mred.
  match goal with
  | |- context [log self ?msg false ?st] =>
      destruct (log_spec self msg false st) as [o1 ->]
  end.
  mred. unfold FS.write_text, FS.write_bytes. mred.
  rewrite lookup_insert_ne, Hf by done.
  rewrite (bool_decide_eq_true_2 _ Hd). mred.
  unfold log. mred. destruct (verbose self); mred;
    (split; [done|]); (split; [done|]); apply last_snoc.
Qed.

Lemma patch_executable_denied_leaves_backup_witness :
  files (snd (patch_executable (Ext := Ref.externals) Fixtures.quiet slack
                Fixtures.slack_write_protected))
    !! PyPath.add_suffix Fixtures.slack_exe BACKUP_SUFFIX
  = Some (File Fixtures.macho 493).
Proof.
  destruct (patch_executable_denied_leaves_backup (Ext := Ref.externals)
              Fixtures.quiet slack Fixtures.slack_write_protected
              "/Applications/Slack.app" Fixtures.slack_exe
              Fixtures.macho 493)
    as (_ & H & _).
  - reflexivity.
  - split; [|split]; vm_compute; first [reflexivity | discriminate].
  - vm_compute; reflexivity.
  - vm_compute; reflexivity.
  - vm_compute; reflexivity.
  - vm_compute; reflexivity.
  - set_solver.
  - set_solver.
  - set_solver.
  - vm_compute; reflexivity.
  - rewrite H. apply lookup_insert_eq.
Defined.

(** X9: an existing backup is kept and wins.  With a backup beside an
    executable that carries no marker, the app not running, the patch
    first copies the backup over the executable and then installs the
    wrapper without making a new backup, and answers [True] whatever
    the signing tools do.  The disk it hands to them differs from the
    one it found at the executable only, which is the wrapper with the
    backup's permission bits and the execute bits: so every file the
    tools leave alone is afterwards what it was, the backup included,
    the executable is that wrapper when they leave it alone, and the
    bytes it held before the call have been overwritten. *)
Theorem patch_executable_keeps_existing_backup `{Ext : Externals}
        (self : Patcher) (config : AppConfig) (s : St) (app exe : string)
        (c b : string) (m mb : Z) :
  dry_run self = false ->
  resolves self config s app exe ->
  files s !! exe = Some (File c m) ->
  fst (is_already_patched (Some exe) s) = Ret false ->
  files s !! PyPath.add_suffix exe BACKUP_SUFFIX = Some (File b mb) ->
  PyPath.add_suffix exe BACKUP_SUFFIX ∉ unreadable s ->
  exe ∉ denied s ->
  fst (is_app_running config s) = Ret false ->
  fst (patch_executable self config s) = Ret true /\
  forall p, tools_keep_file p ->
    files (snd (patch_executable self config s)) !! p
    = <[exe := File (create_wrapper_script exe
                       (PyPath.add_suffix exe BACKUP_SUFFIX))
                    (Z.lor mb exec_bits)]> (files s) !! p.
Proof.
  intros Hdry (Happ & Hexe & Hname) Hf Hp Hb Hr Hd Hrun.
  apply find_app_path_resolved in Happ.
  apply get_executable_resolved in Hexe.
  apply is_already_patched_resolved in Hp.
  assert (Hne : PyPath.add_suffix exe BACKUP_SUFFIX <> exe)
    by apply backup_path_differs.
  assert (Hrun' : forall s1, pgrep s1 = pgrep s ->
                             is_app_running config s1 = (Ret false, s1)).
  { intros s1 Hpg. apply is_app_running_resolved.
    by rewrite (is_app_running_same_processes config s s1 Hpg). }
  unfold patch_executable.
  mred. rewrite Happ. mred. rewrite Hexe. mred.
  rewrite (with_suffix_named _ _ Hname). mred. rewrite Hp. mred.
  rewrite Hb. mred. rewrite Hp. mred. rewrite Hdry. mred.
  match goal with
  | |- context [log self ?msg false s] =>
      destruct (log_spec self msg false s) as [o0 ->]
  end.
  mred.
  rewrite (copy2_file (PyPath.add_suffix exe BACKUP_SUFFIX) exe
             (with_out o0 s) b mb); eauto.
  mred. rewrite Hrun' by done. mred.
  match goal with
  | |- context [log self ?msg false ?st] =>
      destruct (log_spec self msg false st) as [o1 ->]
  end.
  mred. rewrite lookup_insert_ne, Hb by done. mred.
  erewrite (write_text_file exe _ _ b mb);
    [| cbn; by rewrite lookup_insert_eq | done].
  mred.
  erewrite (chmod_or_file exe _ _ _ mb);
    [| cbn; by rewrite lookup_insert_eq | done].
  mred.
  match goal with
  | |- context [resign_after_patch self app ?st] =>
      destruct (resign_after_patch_spec self app st) as (s2 & -> & Hkeep)
  end.
  match goal with
  | |- context [log self ?msg false s2] =>
      destruct (log_spec self msg false s2) as [o2 ->]
  end.
  split; [reflexivity|]. intros p Hkp.
  destruct (Hkeep p Hkp) as (Hf2 & _ & _). cbn in *.
  rewrite Hf2. by rewrite !insert_insert_eq.
Qed.

Lemma patch_executable_keeps_existing_backup_witness :
  files (snd (patch_executable (Ext := Ref.externals) Fixtures.quiet slack
                Fixtures.slack_updated_idle))
    !! PyPath.add_suffix Fixtures.slack_exe BACKUP_SUFFIX
  = Some (File "OLD-RELEASE" 493).
Proof.
  destruct (patch_executable_keeps_existing_backup (Ext := Ref.externals)
              Fixtures.quiet slack Fixtures.slack_updated_idle
              "/Applications/Slack.app" Fixtures.slack_exe
              "NEW-RELEASE" "OLD-RELEASE" 493 493)
    as (_ & H).
  - reflexivity.
  - split; [|split]; vm_compute; first [reflexivity | discriminate].
  - vm_compute; reflexivity.
  - vm_compute; reflexivity.
  - vm_compute; reflexivity.
  - set_solver.
  - set_solver.
  - vm_compute; reflexivity.
  - rewrite H by apply reference_tools_keep_file. vm_compute. reflexivity.
Defined.

(** ** The preference-flag patch: failures, footprint, dry run *)

(** X10: a preference file that is missing, cannot be read as text or
    is no JSON is not an error and is never overwritten:
    [patch_local_state] answers [False] and the disk stays as it is, in
    a dry run and outside of one.  The disk also stays as it is where
    the file cannot even be examined; the answer then is the error of
    [state_file.exists()], which stands before the [try]. *)
Theorem patch_local_state_leaves_unusable_file `{Ext : Externals}
        (self : Patcher) (f app : string) (s : St) :
  (files s !! f = None \/
   (exists e, fst (FS.read_text f s) = Raise e) \/
   (exists text, fst (FS.read_text f s) = Ret text /\ json_loads text = None)) ->
  ((forall e, files s !! f <> Some (NoStat e)) ->
   fst (patch_local_state self f app s) = Ret false) /\
  files (snd (patch_local_state self f app s)) = files s.
Proof.
  intros H. unfold patch_local_state, log. mred.
  destruct (files s !! f) as [[c m| |e0]|] eqn:Hf; mred; rewrite ?Hf; mred;
    try by destruct (verbose self).
  2: { split; [|done]. intros Hno. by destruct (Hno e0). }
  destruct (bool_decide (f ∈ unreadable s)) eqn:Hu; mred;
    [by destruct (verbose self)|].
  destruct (FS.utf8_valid c) eqn:Hv; mred; [|by destruct (verbose self)].
  destruct (json_loads c) eqn:Hj; mred; [|by destruct (verbose self)].
  exfalso. destruct H as [H | [[e H] | (text & H & Hj')]]; try done.
  injection H as <-. congruence.
Qed.

Lemma patch_local_state_leaves_unusable_file_witness :
  fst (patch_local_state (Ext := Ref.externals) Fixtures.quiet
         Fixtures.slack_local_state "Slack" Fixtures.slack_corrupt_state)
  = Ret false /\
  files (snd (patch_local_state (Ext := Ref.externals) Fixtures.quiet
                Fixtures.slack_local_state "Slack"
                Fixtures.slack_corrupt_state))
  = files Fixtures.slack_corrupt_state.
Proof.
  destruct (patch_local_state_leaves_unusable_file (Ext := Ref.externals)
              Fixtures.quiet Fixtures.slack_local_state "Slack"
              Fixtures.slack_corrupt_state) as [H1 H2].
  - right. right. exists "{not json". split; vm_compute; reflexivity.
  - split; [apply H1; vm_compute; discriminate | exact H2].
Defined.

Lemma touches_only_ret {A} (P : string -> Prop) (a : A) :
  touches_only P (ret a).
Proof. by intros s p _. Qed.

Lemma touches_only_raise {A} (P : string -> Prop) (e : exn) :
  touches_only P (raise (A := A) e).
Proof. by intros s p _. Qed.

Lemma touches_only_keeps_disk {A} (P : string -> Prop) (m : M A) :
  keeps_disk m -> touches_only P m.
Proof. intros H s p _. destruct (H s) as [-> _]. done. Qed.

Lemma touches_only_bind {A B} (P : string -> Prop) (m : M A) (k : A -> M B) :
  touches_only P m -> (forall a, touches_only P (k a)) ->
  touches_only P (bind m k).
Proof.
  intros Hm Hk s p Hp. unfold bind. specialize (Hm s p Hp).
  destruct (m s) as [[a|e] s1]; cbn [snd] in *; [|done].
  by rewrite (Hk a s1 p Hp).
Qed.

Lemma touches_only_try {A} (P : string -> Prop) (m : M A) (h : exn -> M A) :
  touches_only P m -> (forall e, touches_only P (h e)) ->
  touches_only P (try_except m h).
Proof.
  intros Hm Hh s p Hp. unfold try_except. specialize (Hm s p Hp).
  destruct (m s) as [[a|e] s1]; cbn [snd] in *; [done|].
  by rewrite (Hh e s1 p Hp).
Qed.

Lemma touches_only_write_text (P : string -> Prop) (f text : string) :
  P f -> touches_only P (FS.write_text f text).
Proof.
  intros Hf s p Hp. unfold FS.write_text, FS.write_bytes.
  assert (f <> p) by (intros ->; done).
  destruct (files s !! f) as [[c m| |]|]; try done.
  - destruct (bool_decide (f ∈ denied s)); [done|].
    cbn. by rewrite lookup_insert_ne.
  - destruct (FS.parent_error f s); [done|].
    destruct (bool_decide (f ∈ denied s)); [done|].
    cbn. by rewrite lookup_insert_ne.
Qed.

(** Follow the shape of a method, for its footprint. *)
Ltac footprint :=
  repeat first
    [ solve [apply touches_only_keeps_disk; auto with disk]
    | solve [apply touches_only_write_text; auto]
    | apply touches_only_ret
    | apply touches_only_raise
    | apply touches_only_bind; [|intros ?]
    | apply touches_only_try; [|intros ?]
    | match goal with
      | |- touches_only _ (match ?x with _ => _ end) => destruct x
      end ].

(** X11: the preference-flag patch has one file as its footprint.  In
    every state and whatever the file holds, a call of
    [patch_local_state] leaves every path other than its [state_file] as
    it was: it creates no directory, no temporary file and no backup. *)
Theorem patch_local_state_touches_its_file_only `{Ext : Externals}
        (self : Patcher) (state_file app_name : string) (s : St) (p : string) :
  p <> state_file ->
  files (snd (patch_local_state self state_file app_name s)) !! p
  = files s !! p.
Proof.
  intros Hp.
  assert (H : touches_only (fun q => q = state_file)
                (patch_local_state self state_file app_name)).
  { unfold patch_local_state. footprint. }
  by apply H.
Qed.

Lemma patch_local_state_touches_its_file_only_witness :
  files (snd (patch_local_state (Ext := Ref.externals) Fixtures.quiet
                Fixtures.slack_local_state "Slack"
                (Fixtures.with_local_state Fixtures.doc_with_other_key)))
    !! Fixtures.slack_exe
  = files (Fixtures.with_local_state Fixtures.doc_with_other_key)
      !! Fixtures.slack_exe.
Proof.
  apply (patch_local_state_touches_its_file_only (Ext := Ref.externals)).
  discriminate.
Defined.

(** X12: a dry run of the preference-flag patch predicts the real run.
    On a readable preference file with an accessible flag list, which
    the user may write, the dry run answers [True] exactly when the same
    call outside a dry run answers [True], that is when it writes; the
    dry run itself writes nothing. *)
Theorem patch_local_state_dry_run_predicts `{Ext : Externals}
        (dry wet : Patcher) (f app : string) (s : St) (c : string) (m : Z)
        (doc : json) (items : list json) (members top : list (string * json)) :
  dry_run dry = true ->
  dry_run wet = false ->
  files s !! f = Some (File c m) ->
  f ∉ unreadable s ->
  f ∉ denied s ->
  FS.utf8_valid c = true ->
  json_loads c = Some doc ->
  open_experiments doc = Ret (items, members, top) ->
  fst (patch_local_state dry f app s) = fst (patch_local_state wet f app s) /\
  files (snd (patch_local_state dry f app s)) = files s /\
  (fst (patch_local_state wet f app s) = Ret true <->
   files (snd (patch_local_state wet f app s)) !! f
   = Some (File (json_dumps 4
                   (with_experiments (fst (updated_experiments items))
                                     members top)) m) /\
   snd (updated_experiments items) = true).
Proof.
  intros Hdry Hwet Hf Hr Hd Hu Hj Ho.
  destruct (patch_local_state_run dry f app s c m doc items members top
              Hf Hr Hu Hj Ho) as [o1 H1].
  destruct (patch_local_state_run wet f app s c m doc items members top
              Hf Hr Hu Hj Ho) as [o2 H2].
  rewrite H1, H2, Hdry, Hwet, (bool_decide_eq_false_2 _ Hd).
  destruct (updated_experiments items) as [items' changed].
  destruct changed; cbn; (split; [done|]); (split; [done|]); split.
  - intros _. split; [apply lookup_insert_eq | done].
  - done.
  - intros [=].
  - intros [_ [=]].
Qed.

Lemma patch_local_state_dry_run_predicts_witness :
  fst (patch_local_state (Ext := Ref.externals) Fixtures.dry
         Fixtures.slack_local_state "Slack"
         (Fixtures.with_local_state Fixtures.doc_with_other_key))
  = fst (patch_local_state (Ext := Ref.externals) Fixtures.quiet
           Fixtures.slack_local_state "Slack"
           (Fixtures.with_local_state Fixtures.doc_with_other_key)).
Proof.
  destruct (patch_local_state_dry_run_predicts (Ext := Ref.externals)
              Fixtures.dry Fixtures.quiet Fixtures.slack_local_state "Slack"
              (Fixtures.with_local_state Fixtures.doc_with_other_key)
              (Ref.dumps 4 Fixtures.doc_with_other_key) 420
              Fixtures.doc_with_other_key
              [JStr "x@1"]
              [("enabled_labs_experiments", JArr [JStr "x@1"])]
              [("a", JInt 1);
               ("browser",
                JObj [("enabled_labs_experiments", JArr [JStr "x@1"])])])
    as (H & _).
  - reflexivity.
  - reflexivity.
  - vm_compute; reflexivity.
  - set_solver.
  - set_solver.
  - vm_compute; reflexivity.
  - vm_compute; reflexivity.
  - vm_compute; reflexivity.
  - exact H.
Defined.

(** ** The settings-key patch *)

(** What one application does to a settings file that is there and
    parses. *)
Lemma patch_settings_file_run `{Ext : Externals} (self : Patcher)
      (config : AppConfig) (s : St) (file dotted : string) (c : string)
      (m : Z) (doc : json) :
  settings_file config = Some file -> file <> EmptyString ->
  settings_key config = Some dotted -> dotted <> EmptyString ->
  files s !! PyPath.expanduser (home s) file = Some (File c m) ->
  PyPath.expanduser (home s) file ∉ unreadable s ->
  FS.utf8_valid c = true ->
  json_loads (settings_text c) = Some doc ->
  exists o,
    patch_settings_file self config s =
      match set_path (walk_keys dotted) (final_key_of dotted)
                     (desired_value_of dotted) doc with
      | Raise e => (Raise e, s)
      | Ret (changed, doc') =>
          if negb changed then (Ret false, with_out o s)
          else if dry_run self then (Ret true, with_out o s)
          else if bool_decide (PyPath.expanduser (home s) file ∈ denied s)
               then (Ret false, with_out o s)
          else (Ret true,
                with_out o
                  (with_files
                     (<[PyPath.expanduser (home s) file
                        := File (json_dumps 2 doc') m]> (files s)) s))
      end.
Proof.
  intros Hfile Hfne Hkey Hkne Hf Hr Hu Hj.
  unfold patch_settings_file. rewrite Hfile, Hkey.
  destruct file as [|fc file]; [done|]. destruct dotted as [|kc dotted]; [done|].
  set (sp := PyPath.expanduser (home s) (String fc file)) in *.
  mred. fold sp. rewrite Hf. mred. rewrite Hf.
  rewrite (bool_decide_eq_false_2 _ Hr). mred. rewrite Hu. mred.
  unfold settings_text in Hj. rewrite Hj. mred.
  unfold walk_keys, final_key_of, desired_value_of.
  destruct (set_path _ _ _ doc) as [[changed doc']|e]; [|by exists []].
  unfold log, FS.write_text, FS.write_bytes.
  destruct changed, (verbose self), (dry_run self); mred; rewrite ?Hf; mred;
    try (destruct (bool_decide (sp ∈ denied s)); mred);
    first [ eexists; reflexivity
          | exists (out s); by rewrite with_out_same ].
Qed.

Lemma dict_set_set (k : string) (v : json) (d : list (string * json)) :
  Dict.set k v (Dict.set k v d) = Dict.set k v d.
Proof.
  induction d as [|[k' v'] d IH]; cbn.
  - by rewrite String.eqb_refl.
  - destruct (String.eqb k k') eqn:E; cbn; rewrite E; [done | by rewrite IH].
Qed.

Lemma py_eq_bool_refl (b : bool) : py_eq_bool (Some (JBool b)) b = true.
Proof. by destruct b. Qed.

(** The walk is idempotent: on the document it has produced it finds
    nothing to change and produces the same document. *)
Lemma set_path_idem (keys : list string) (final_key : string) (v : bool)
      (doc doc' : json) (changed : bool) :
  set_path keys final_key v doc = Ret (changed, doc') ->
  set_path keys final_key v doc' = Ret (false, doc').
Proof.
  revert doc doc' changed.
  induction keys as [|key keys IH]; intros doc doc' changed; cbn.
  - destruct doc as [| | | | | |d]; try done.
    destruct (py_eq_bool (Dict.get final_key d) v) eqn:E.
    + intros [= <- <-]. cbn. by rewrite E.
    + intros [= <- <-]. cbn. by rewrite dict_get_set_eq, py_eq_bool_refl.
  - destruct doc as [| | | | | |d]; try done.
    destruct (Dict.setdefault key (JObj []) d) as [child d1].
    destruct (set_path keys final_key v child) as [[ch child']|e] eqn:Hc;
      [|done].
    intros [= <- <-]. cbn. rewrite dict_setdefault_set.
    rewrite (IH _ _ _ Hc). by rewrite dict_set_set.
Qed.

(** After the walk the document holds the desired boolean at the dotted
    key, and every other top-level key has the value it had. *)
Lemma set_path_effect (keys : list string) (final_key : string) (v : bool)
      (doc doc' : json) (changed : bool) :
  set_path keys final_key v doc = Ret (changed, doc') ->
  py_eq_bool (get_path keys final_key doc') v = true /\
  (changed = true -> get_path keys final_key doc' = Some (JBool v)) /\
  exists d d',
    doc = JObj d /\ doc' = JObj d' /\
    forall k, k <> hd final_key keys -> Dict.get k d' = Dict.get k d.
Proof.
  revert doc doc' changed.
  induction keys as [|key keys IH]; intros doc doc' changed; cbn.
  - destruct doc as [| | | | | |d]; try done.
    destruct (py_eq_bool (Dict.get final_key d) v) eqn:E;
      intros [= <- <-]; cbn.
    + split; [done|]. split; [done|]. by exists d, d.
    + rewrite dict_get_set_eq. split; [apply py_eq_bool_refl|].
      split; [done|].
      eexists d, _. split; [done|]. split; [done|].
      intros k Hk. by rewrite dict_get_set_ne.
  - destruct doc as [| | | | | |d]; try done.
    destruct (Dict.setdefault key (JObj []) d) as [child d1] eqn:Hsd.
    destruct (set_path keys final_key v child) as [[ch child']|e] eqn:Hc;
      [|done].
    intros [= <- <-]. cbn. rewrite dict_get_set_eq.
    destruct (IH _ _ _ Hc) as (H1 & H2 & d0 & d0' & -> & -> & _).
    split; [done|]. split; [done|].
    eexists d, _. split; [done|]. split; [done|].
    intros k Hk. rewrite dict_get_set_ne by done.
    apply dict_setdefault_get in Hsd as (_ & Hother & _). by apply Hother.
Qed.

(** X13: setting the same key twice writes once.  For a settings file
    that is there, readable and writable, outside a dry run, with a JSON
    printer whose output for the updated document reads back as that
    document: when the first call of [patch_settings_file] answers
    [True], a second call in succession answers [False] and leaves the
    disk as the first call left it. *)
Theorem patch_settings_file_twice `{Ext : Externals} (self : Patcher)
        (config : AppConfig) (s : St) (file dotted : string) (c : string)
        (m : Z) (doc doc' : json) :
  dry_run self = false ->
  settings_file config = Some file -> file <> EmptyString ->
  settings_key config = Some dotted -> dotted <> EmptyString ->
  files s !! PyPath.expanduser (home s) file = Some (File c m) ->
  PyPath.expanduser (home s) file ∉ unreadable s ->
  PyPath.expanduser (home s) file ∉ denied s ->
  FS.utf8_valid c = true ->
  json_loads (settings_text c) = Some doc ->
  set_path (walk_keys dotted) (final_key_of dotted) (desired_value_of dotted)
           doc = Ret (true, doc') ->
  FS.utf8_valid (json_dumps 2 doc') = true ->
  json_loads (settings_text (json_dumps 2 doc')) = Some doc' ->
  fst (patch_settings_file self config s) = Ret true /\
  files (snd (patch_settings_file self config s))
  = <[PyPath.expanduser (home s) file := File (json_dumps 2 doc') m]>
      (files s) /\
  fst (patch_settings_file self config
         (snd (patch_settings_file self config s))) = Ret false /\
  files (snd (patch_settings_file self config
                (snd (patch_settings_file self config s))))
  = files (snd (patch_settings_file self config s)).
Proof.
  intros Hdry Hfile Hfne Hkey Hkne Hf Hr Hd Hu Hj Hset Hu' Hj'.
  destruct (patch_settings_file_run self config s file dotted c m doc
              Hfile Hfne Hkey Hkne Hf Hr Hu Hj) as [o Hrun].
  rewrite Hset, Hdry, (bool_decide_eq_false_2 _ Hd) in Hrun.
  cbn [negb] in Hrun. rewrite Hrun. cbn [fst snd].
  split; [done|]. split; [done|].
  set (s1 := with_out o (with_files _ s)).
  assert (Hf1 : files s1 !! PyPath.expanduser (home s1) file
                = Some (File (json_dumps 2 doc') m))
    by apply lookup_insert_eq.
  destruct (patch_settings_file_run self config s1 file dotted _ m doc'
              Hfile Hfne Hkey Hkne Hf1 Hr Hu' Hj') as [o' Hrun'].
  rewrite (set_path_idem _ _ _ _ _ _ Hset) in Hrun'. cbn [negb] in Hrun'.
  by rewrite Hrun'.
Qed.

Lemma patch_settings_file_twice_witness :
  fst (patch_settings_file (Ext := Ref.externals) Fixtures.quiet one_password
         (snd (patch_settings_file (Ext := Ref.externals) Fixtures.quiet
                 one_password Fixtures.one_password_accelerated)))
  = Ret false.
Proof.
  destruct (patch_settings_file_twice (Ext := Ref.externals)
              Fixtures.quiet one_password Fixtures.one_password_accelerated
              "~/Library/Group Containers/2BUA8C4S2C.com.1password/Library/Application Support/1Password/Data/settings/settings.json"
              "app.useHardwareAcceleration"
              (Ref.dumps 2 Fixtures.accelerated) 420
              Fixtures.accelerated Fixtures.not_accelerated)
    as (_ & _ & H & _).
  - reflexivity.
  - reflexivity.
  - discriminate.
  - reflexivity.
  - discriminate.
  - vm_compute; reflexivity.
  - set_solver.
  - set_solver.
  - vm_compute; reflexivity.
  - vm_compute; reflexivity.
  - vm_compute; reflexivity.
  - vm_compute; reflexivity.
  - vm_compute; reflexivity.
  - exact H.
Defined.

(** X14: what a write of the settings-key patch writes.  When
    [patch_settings_file] answers [True] outside a dry run for a file
    that is there, the document it has written is the parsed one with
    the boolean for the key's last segment ([True] when the segment
    contains [disable], whatever the case of its letters, [False]
    otherwise) at the dotted key, and with every other top-level key at
    the value it had. *)
Theorem patch_settings_file_write `{Ext : Externals} (self : Patcher)
        (config : AppConfig) (s : St) (file dotted : string) (c : string)
        (m : Z) (doc : json) :
  dry_run self = false ->
  settings_file config = Some file -> file <> EmptyString ->
  settings_key config = Some dotted -> dotted <> EmptyString ->
  files s !! PyPath.expanduser (home s) file = Some (File c m) ->
  PyPath.expanduser (home s) file ∉ unreadable s ->
  FS.utf8_valid c = true ->
  json_loads (settings_text c) = Some doc ->
  fst (patch_settings_file self config s) = Ret true ->
  exists d d',
    doc = JObj d /\
    files (snd (patch_settings_file self config s))
    = <[PyPath.expanduser (home s) file := File (json_dumps 2 (JObj d')) m]>
        (files s) /\
    get_path (walk_keys dotted) (final_key_of dotted) (JObj d')
    = Some (JBool (desired_value_of dotted)) /\
    forall k, k <> hd (final_key_of dotted) (walk_keys dotted) ->
              Dict.get k d' = Dict.get k d.
Proof.
  intros Hdry Hfile Hfne Hkey Hkne Hf Hr Hu Hj Hret.
  destruct (patch_settings_file_run self config s file dotted c m doc
              Hfile Hfne Hkey Hkne Hf Hr Hu Hj) as [o Hrun].
  rewrite Hrun in Hret |- *. rewrite Hdry in *.
  destruct (set_path _ _ _ doc) as [[changed doc']|e] eqn:Hset; [|done].
  destruct changed; [|done]. cbn [negb] in *.
  destruct (bool_decide _); [done|].
  destruct (set_path_effect _ _ _ _ _ _ Hset)
    as (_ & Hval & d & d' & -> & -> & Hother).
  exists d, d'. split; [done|]. split; [done|]. split; auto.
Qed.

Lemma patch_settings_file_write_witness :
  exists d',
    files (snd (patch_settings_file (Ext := Ref.externals) Fixtures.quiet
                  one_password Fixtures.one_password_accelerated))
    = <[Fixtures.one_password_settings := File (Ref.dumps 2 (JObj d')) 420]>
        (files Fixtures.one_password_accelerated) /\
    Dict.get "x" d' = Some (JInt 1).
Proof.
  destruct (patch_settings_file_write (Ext := Ref.externals)
              Fixtures.quiet one_password Fixtures.one_password_accelerated
              "~/Library/Group Containers/2BUA8C4S2C.com.1password/Library/Application Support/1Password/Data/settings/settings.json"
              "app.useHardwareAcceleration"
              (Ref.dumps 2 Fixtures.accelerated) 420
              Fixtures.accelerated)
    as (d & d' & Hd & Hfiles & _ & Hother).
  - reflexivity.
  - reflexivity.
  - discriminate.
  - reflexivity.
  - discriminate.
  - vm_compute; reflexivity.
  - set_solver.
  - vm_compute; reflexivity.
  - vm_compute; reflexivity.
  - vm_compute; reflexivity.
  - exists d'. split; [exact Hfiles|].
    rewrite Hother by (vm_compute; discriminate).
    injection Hd as <-. reflexivity.
Defined.

(** X15: a settings file that cannot be used is left alone.  For an
    entry whose name does not contain [docker] a missing file is a skip;
    for every entry a file that is there but cannot be read as text, or
    whose text without the white space around it is no JSON, is an
    error that is reported; in both cases [patch_settings_file] answers
    [False] and writes nothing, so a corrupt file is never
    overwritten. *)
Theorem patch_settings_file_leaves_unusable_file `{Ext : Externals}
        (self : Patcher) (config : AppConfig) (s : St) (file : string) :
  settings_file config = Some file ->
  ((files s !! PyPath.expanduser (home s) file = None /\
    PyStr.contains "docker" (PyStr.lower (name config)) = false) \/
   (fst (FS.exists_ (PyPath.expanduser (home s) file) s) = Ret true /\
    ((exists e, fst (FS.read_text (PyPath.expanduser (home s) file) s)
                = Raise e) \/
     (exists text,
         fst (FS.read_text (PyPath.expanduser (home s) file) s) = Ret text /\
         json_loads (settings_text text) = None)))) ->
  fst (patch_settings_file self config s) = Ret false /\
  files (snd (patch_settings_file self config s)) = files s.
Proof.
  intros Hfile H. unfold patch_settings_file. rewrite Hfile.
  destruct file as [|fc file]; [done|].
  destruct (settings_key config) as [[|kc dotted]|]; try done.
  set (sp := PyPath.expanduser (home s) (String fc file)) in *.
  unfold log, settings_text in *. mred. fold sp.
  destruct (files s !! sp) as [[c m| |]|] eqn:Hf; mred; rewrite ?Hf in *; mred.
  - destruct (bool_decide (sp ∈ unreadable s)) eqn:Hu; mred;
      [by destruct (verbose self)|].
    destruct (FS.utf8_valid c) eqn:Hv; mred; [|by destruct (verbose self)].
    destruct (json_loads _) eqn:Hj; mred; [|by destruct (verbose self)].
    exfalso. destruct H as [[H _] | [_ [[e H] | (text & H & Hj')]]]; try done.
    injection H as <-. congruence.
  - by destruct (verbose self).
  - by destruct H as [[H _] | [H _]].
  - destruct H as [[_ ->] | [Hn _]]; [|done].
    by destruct (verbose self).
Qed.

Lemma patch_settings_file_leaves_unusable_file_witness :
  (fst (patch_settings_file (Ext := Ref.externals) Fixtures.quiet slack
          Fixtures.slack_fresh) = Ret false /\
   files (snd (patch_settings_file (Ext := Ref.externals) Fixtures.quiet slack
                 Fixtures.slack_fresh))
   = files Fixtures.slack_fresh) /\
  (fst (patch_settings_file (Ext := Ref.externals) Fixtures.quiet one_password
          Fixtures.one_password_corrupt) = Ret false /\
   files (snd (patch_settings_file (Ext := Ref.externals) Fixtures.quiet
                 one_password Fixtures.one_password_corrupt))
   = files Fixtures.one_password_corrupt).
Proof.
  split.
  - apply (patch_settings_file_leaves_unusable_file (Ext := Ref.externals)
             Fixtures.quiet slack Fixtures.slack_fresh
             "~/Library/Application Support/Slack/local-settings.json").
    + reflexivity.
    + left. split; vm_compute; reflexivity.
  - apply (patch_settings_file_leaves_unusable_file (Ext := Ref.externals)
             Fixtures.quiet one_password Fixtures.one_password_corrupt
             Fixtures.one_password_path).
    + reflexivity.
    + right. split; [vm_compute; reflexivity|]. right.
      exists Fixtures.cut_short. split; vm_compute; reflexivity.
Defined.

Lemma touches_only_make_dir (P : string -> Prop) (q : string) :
  P q -> touches_only P (FS.make_dir q).
Proof.
  intros Hq s p Hp. unfold FS.make_dir.
  destruct (bool_decide (q ∈ denied s)); [done|]. cbn.
  rewrite lookup_insert_ne; [done|]. by intros ->.
Qed.

Lemma ancestors_self (fuel : nat) (q : string) : q ∈ ancestors fuel q.
Proof. destruct fuel; cbn; apply list_elem_of_here. Qed.

Lemma touches_only_mkdir_parents (P : string -> Prop) (fuel : nat)
      (q : string) :
  (forall p, p ∈ ancestors fuel q -> P p) ->
  touches_only P (FS.mkdir_parents fuel q).
Proof.
  revert q. induction fuel as [|n IH]; intros q HP s p Hp; cbn.
  - destruct (files s !! q) as [[c m| |]|]; try done.
    destruct (FS.parent_error q s) as [[]|]; try done.
    exact (touches_only_make_dir P q (HP _ (ancestors_self _ _)) s p Hp).
  - destruct (files s !! q) as [[c m| |]|]; try done.
    destruct (FS.parent_error q s) as [[]|]; try done.
    2: { exact (touches_only_make_dir P q (HP _ (ancestors_self _ _)) s p Hp). }
    destruct (String.eqb (PyPath.parent q) q); [done|].
    assert (Hrec : touches_only P (FS.mkdir_parents n (PyPath.parent q))).
    { apply IH. intros p' Hp'. apply HP. cbn. by apply list_elem_of_further. }
    specialize (Hrec s p Hp).
    destruct (FS.mkdir_parents n (PyPath.parent q) s) as [[u|e] s1];
      cbn [snd] in *; [|done].
    rewrite <- Hrec.
    exact (touches_only_make_dir P q (HP _ (ancestors_self _ _)) s1 p Hp).
Qed.

(** X16: the footprint of the settings-key patch.  In every state, a
    call of [patch_settings_file] leaves every path as it was, except
    the settings file itself and, for the file creation of Docker
    Desktop, the directories above it. *)
Theorem patch_settings_file_footprint `{Ext : Externals} (self : Patcher)
        (config : AppConfig) (s : St) (file p : string) :
  settings_file config = Some file ->
  p ∉ ancestors (S (String.length (PyPath.expanduser (home s) file)))
        (PyPath.expanduser (home s) file) ->
  files (snd (patch_settings_file self config s)) !! p = files s !! p.
Proof.
  intros Hfile Hp. unfold patch_settings_file. rewrite Hfile.
  destruct file as [|fc file]; [done|].
  destruct (settings_key config) as [[|kc dotted]|]; try done.
  set (sp := PyPath.expanduser (home s) (String fc file)) in *.
  match goal with
  | |- context [bind (gets home) ?k] =>
      change (bind (gets home) k s) with (k (home s) s);
      assert (H : touches_only
                    (fun q => q ∈ ancestors (S (String.length sp)) sp)
                    (k (home s)))
  end.
  { cbv beta. fold sp. footprint.
    - apply touches_only_mkdir_parents. intros q Hq. cbn.
      by apply list_elem_of_further.
    - apply touches_only_write_text. cbn. apply list_elem_of_here.
    - apply touches_only_write_text. cbn. apply list_elem_of_here. }
  by apply H.
Qed.

Lemma patch_settings_file_footprint_witness :
  files (snd (patch_settings_file (Ext := Ref.externals) Fixtures.quiet
                docker_desktop Fixtures.docker_fresh))
    !! "/Applications/Docker.app"
  = files Fixtures.docker_fresh !! "/Applications/Docker.app".
Proof.
  apply (patch_settings_file_footprint (Ext := Ref.externals) Fixtures.quiet
           docker_desktop Fixtures.docker_fresh
           "~/Library/Group Containers/group.com.docker/settings-store.json").
  - reflexivity.
  - apply (bool_decide_unpack _). vm_compute. exact I.
Defined.

(** ** The orchestrator, the listing and the entry point *)

(** X17: an app that is not installed leaves no trace.  When no entry of
    the registry is found, the patch loop and the restore loop return
    with the state exactly as it was: nothing printed, nothing recorded,
    nothing written, with or without [--patch-executables]. *)
Theorem nothing_installed_nothing_done `{Ext : Externals} (self : Patcher)
        (known_apps : list (string * AppConfig)) (patch_executables : bool)
        (s : St) :
  (forall entry, entry ∈ known_apps ->
                 fst (find_app_path (snd entry) s) = Ret None) ->
  patch_all_known_apps self known_apps patch_executables s = (Ret tt, s) /\
  restore_all_apps self known_apps s = (Ret tt, s).
Proof.
  induction known_apps as [|[app_name config] rest IH]; intros Hnone;
    [done|].
  assert (Hc : find_app_path config s = (Ret None, s)).
  { apply find_app_path_resolved.
    apply (Hnone (app_name, config)), list_elem_of_here. }
  destruct IH as [IH1 IH2].
  { intros entry He. apply Hnone. by apply list_elem_of_further. }
  split.
  - cbn [patch_all_known_apps]. unfold patch_known_app. mred.
    rewrite Hc. mred. exact IH1.
  - cbn [restore_all_apps]. mred.
    destruct (needs_executable_patch config); mred; [rewrite Hc; mred|];
      exact IH2.
Qed.

Lemma nothing_installed_nothing_done_witness :
  patch_all_known_apps (Ext := Ref.externals) Fixtures.quiet
    password_managers true Fixtures.slack_fresh
  = (Ret tt, Fixtures.slack_fresh).
Proof.
  apply (nothing_installed_nothing_done (Ext := Ref.externals)).
  intros entry He. unfold password_managers in He.
  apply elem_of_cons in He as [-> | He];
    [vm_compute; reflexivity|].
  apply list_elem_of_singleton in He as ->. vm_compute; reflexivity.
Defined.

(** X18: the restore loop passes over the apps marked as needing no
    executable patch: for a registry of such entries it returns with the
    state exactly as it was, whatever lies beside their executables. *)
Theorem restore_all_apps_skips_native `{Ext : Externals} (self : Patcher)
        (known_apps : list (string * AppConfig)) (s : St) :
  (forall entry, entry ∈ known_apps ->
                 needs_executable_patch (snd entry) = false) ->
  restore_all_apps self known_apps s = (Ret tt, s).
Proof.
  induction known_apps as [|[app_name config] rest IH]; intros Hnative;
    [done|].
  cbn [restore_all_apps]. mred.
  rewrite (Hnative (app_name, config)) by apply list_elem_of_here. mred.
  apply IH. intros entry He. apply Hnative. by apply list_elem_of_further.
Qed.

Lemma restore_all_apps_skips_native_witness :
  restore_all_apps (Ext := Ref.externals) Fixtures.quiet
    [("1Password", one_password)] Fixtures.one_password_accelerated
  = (Ret tt, Fixtures.one_password_accelerated).
Proof.
  apply (restore_all_apps_skips_native (Ext := Ref.externals)).
  intros entry He. by apply list_elem_of_singleton in He as ->.
Defined.

Ltac disk_chain :=
  unfold same_disk in *;
  cbn [files denied unreadable with_out with_files] in *;
  intuition congruence.

Lemma reachable_same_disk (s s' : St) :
  same_disk s s' -> reachable s -> reachable s'.
Proof. intros (H & _) Hs p e. rewrite H. apply Hs. Qed.

Lemma get_executable_reachable `{Ext : Externals} (self : Patcher)
      (app : string) (s : St) :
  reachable s ->
  exists r s1, get_executable_from_app self (Some app) s = (Ret r, s1) /\
               same_disk s s1.
Proof.
  intros Hs. pose proof (keeps_disk_get_executable self (Some app) s) as Hd.
  destruct (get_executable_cases self app s)
    as [[r Hr] | (e0 & _ & p & Hp)];
    [|by destruct (Hs p e0)].
  destruct (get_executable_from_app self (Some app) s) as [[r'|e] s1];
    [|done].
  by exists r', s1.
Qed.

Lemma keeps_disk_list_apps_loop `{Ext : Externals} (self : Patcher)
      (items : list (string * AppConfig)) (installed patched : nat) :
  keeps_disk (list_apps_loop self items installed patched).
Proof.
  revert installed patched.
  induction items as [|[app_name config] rest IH]; intros installed patched;
    cbn [list_apps_loop]; disk.
Qed.

Lemma keeps_disk_list_detected_apps `{Ext : Externals} (self : Patcher)
      (known_apps : list (string * AppConfig)) :
  keeps_disk (list_detected_apps self known_apps).
Proof.
  unfold list_detected_apps.
  pose proof (keeps_disk_list_apps_loop self (sorted_items known_apps) 0 0).
  disk.
Qed.

Lemma list_apps_loop_spec `{Ext : Externals} (self : Patcher)
      (items : list (string * AppConfig)) (installed patched : nat) (s : St) :
  reachable s ->
  exists installed' patched' s',
    list_apps_loop self items installed patched s
    = (Ret (installed', patched'), s') /\
    installed <= installed' <= installed + length items /\
    patched <= patched' /\
    patched' - patched <= installed' - installed.
Proof.
  revert installed patched s.
  induction items as [|[app_name config] rest IH];
    intros installed patched s Hs.
  - exists installed, patched, s. cbn. split; [done | lia].
  - cbn [list_apps_loop]. mred.
    destruct (find_app_path_reachable config s Hs) as [[app|] ->]; mred.
    2: { destruct (IH installed patched s Hs)
           as (i & p & s' & -> & Hi & Hp & Hip).
         exists i, p, s'. cbn [length]. split; [done | lia]. }
    destruct (needs_executable_patch config); mred.
    + destruct (get_executable_reachable self app s Hs)
        as (r' & s1 & -> & Hd1).
      pose proof (reachable_same_disk s s1 Hd1 Hs) as Hs1.
      mred. destruct r' as [exe|]; mred.
      * destruct (is_already_patched_reachable (Some exe) s1 Hs1)
          as [[|] ->]; mred;
          destruct (verbose self), (notes config); mred;
          match goal with
          | |- context [list_apps_loop self rest ?i ?p ?st] =>
              destruct (IH i p st) as (i' & p' & s' & -> & Hi & Hp & Hip);
              [exact (reachable_same_disk s1 st (same_disk_refl s1) Hs1)|]
          end;
          exists i', p', s'; (split; [reflexivity|]); cbn [length]; lia.
      * destruct (verbose self), (notes config); mred;
          match goal with
          | |- context [list_apps_loop self rest ?i ?p ?st] =>
              destruct (IH i p st) as (i' & p' & s' & -> & Hi & Hp & Hip);
              [exact (reachable_same_disk s1 st (same_disk_refl s1) Hs1)|]
          end;
          exists i', p', s'; (split; [reflexivity|]); cbn [length]; lia.
    + destruct (verbose self), (notes config); mred;
        match goal with
        | |- context [list_apps_loop self rest ?i ?p ?st] =>
            destruct (IH i p st) as (i' & p' & s' & -> & Hi & Hp & Hip);
            [exact (reachable_same_disk s st (same_disk_refl s) Hs)|]
        end;
        exists i', p', s'; (split; [reflexivity|]); cbn [length]; lia.
Qed.

Lemma insert_item_length {A} (item : string * A) (l : list (string * A)) :
  length (insert_item item l) = S (length l).
Proof.
  induction l as [|other rest IH]; cbn; [done|].
  destruct (String.leb (fst item) (fst other)); cbn; [done | by rewrite IH].
Qed.

Lemma sorted_items_length {A} (l : list (string * A)) :
  length (sorted_items l) = length l.
Proof.
  induction l as [|item rest IH]; cbn; [done|].
  by rewrite insert_item_length, IH.
Qed.

Lemma list_detected_apps_returns `{Ext : Externals} (self : Patcher)
      (known_apps : list (string * AppConfig)) (s : St) :
  reachable s ->
  exists installed patched s' o,
    list_detected_apps self known_apps s = (Ret tt, s') /\
    patched <= installed <= length known_apps /\
    out s' = o ++ [(PyStr.newline ++ banner)%string;
                   ("Total installed: " ++ show_nat installed)%string;
                   ("Patched: " ++ show_nat patched)%string;
                   banner].
Proof.
  intros Hs. unfold list_detected_apps. mred.
  match goal with
  | |- context [list_apps_loop self _ 0 0 ?st] =>
      destruct (list_apps_loop_spec self (sorted_items known_apps) 0 0 st)
        as (i & p & s1 & -> & Hi & Hp & Hip);
      [exact (reachable_same_disk s st (same_disk_refl s) Hs)|]
  end.
  rewrite sorted_items_length in Hi.
  exists i, p. eexists _, (out s1). split; [reflexivity|].
  split; [lia|].
  cbn. by rewrite <- !app_assoc.
Qed.

(** X19: the listing is read-only and its counts are sound.  In every
    state [list_detected_apps] leaves the disk as it was, also when the
    [PermissionError] of a path that cannot be examined ends it; in a
    state in which every path can be examined it returns without an
    exception, and the two numbers it prints last satisfy
    patched <= installed <= number of registry entries. *)
Theorem list_detected_apps_read_only `{Ext : Externals} (self : Patcher)
        (known_apps : list (string * AppConfig)) (s : St) :
  same_disk s (snd (list_detected_apps self known_apps s)) /\
  (reachable s ->
   exists installed patched s' o,
     list_detected_apps self known_apps s = (Ret tt, s') /\
     patched <= installed <= length known_apps /\
     out s' = o ++ [(PyStr.newline ++ banner)%string;
                    ("Total installed: " ++ show_nat installed)%string;
                    ("Patched: " ++ show_nat patched)%string;
                    banner]).
Proof.
  split; [apply keeps_disk_list_detected_apps|].
  apply list_detected_apps_returns.
Qed.

Lemma list_detected_apps_read_only_witness :
  exists installed patched s' o,
    list_detected_apps (Ext := Ref.externals) Fixtures.quiet
      [("Slack", slack); ("Vesktop", vesktop)] Fixtures.slack_fresh
    = (Ret tt, s') /\
    patched <= installed <= 2 /\
    out s' = o ++ [(PyStr.newline ++ banner)%string;
                   ("Total installed: " ++ show_nat installed)%string;
                   ("Patched: " ++ show_nat patched)%string;
                   banner].
Proof.
  apply (list_detected_apps_read_only (Ext := Ref.externals) Fixtures.quiet
           [("Slack", slack); ("Vesktop", vesktop)] Fixtures.slack_fresh).
  apply reachable_check. vm_compute; reflexivity.
Defined.

(** X20: the entry point.  On a platform other than [darwin], [main]
    prints the error and gives exit code 1 without touching anything
    else; on [darwin] with [--list-apps] it leaves the disk as it was,
    whatever other flags are given with it (the listing wins over
    [--restore] and [--patch-executables]), and gives exit code 0 in a
    state in which every path can be examined; and whenever [main]
    returns on [darwin] its exit code is 0. *)
Theorem main_platform_and_listing `{Ext : Externals}
        (known_apps : list (string * AppConfig)) (platform : string)
        (args : Args) (s : St) :
  (platform <> "darwin" ->
   main known_apps platform args s
   = (Ret 1%Z,
      with_out (out s ++ ["Error: This script is designed for macOS only."])
               s)) /\
  (platform = "darwin" -> arg_list_apps args = true ->
   same_disk s (snd (main known_apps platform args s)) /\
   (reachable s -> fst (main known_apps platform args s) = Ret 0%Z)) /\
  (platform = "darwin" ->
   forall code, fst (main known_apps platform args s) = Ret code ->
                code = 0%Z).
Proof.
  unfold main. split; [|split].
  - intros Hne. apply String.eqb_neq in Hne. rewrite Hne. by mred.
  - intros -> Hlist. rewrite Hlist, String.eqb_refl. mred. split.
    + match goal with
      | |- context [list_detected_apps ?p known_apps ?st] =>
          pose proof (keeps_disk_list_detected_apps p known_apps st) as Hd;
          destruct (list_detected_apps p known_apps st) as [[[]|e] s1]
      end; cbn [snd] in *; disk_chain.
    + intros Hs.
      match goal with
      | |- context [list_detected_apps ?p known_apps ?st] =>
          destruct (list_detected_apps_returns p known_apps st)
            as (i & n & s' & o & -> & _);
          [exact (reachable_same_disk s st (same_disk_refl s) Hs) | done]
      end.
  - intros -> code. rewrite String.eqb_refl. mred.
    destruct (arg_list_apps args); mred.
    + destruct (list_detected_apps _ known_apps _) as [[[]|e] s1]; mred;
        [by intros [= <-] | done].
    + destruct (arg_restore args); mred.
      * destruct (restore_all_apps _ known_apps _) as [[[]|e] s1]; mred;
          [|done].
        destruct (print_summary _ s1) as [[[]|e] s2]; mred;
          [by intros [= <-] | done].
      * destruct (patch_all_known_apps _ known_apps _ _) as [[[]|e] s1]; mred;
          [|done].
        destruct (print_summary _ s1) as [[[]|e] s2]; mred;
          [by intros [= <-] | done].
Qed.

Lemma main_platform_and_listing_witness :
  main (Ext := Ref.externals) password_managers "linux"
    (mkArgs false false true false false) Fixtures.slack_fresh
  = (Ret 1%Z,
     with_out (out Fixtures.slack_fresh ++
               ["Error: This script is designed for macOS only."])
              Fixtures.slack_fresh) /\
  fst (main (Ext := Ref.externals) password_managers "darwin"
         (mkArgs false false true true true) Fixtures.slack_fresh)
  = Ret 0%Z.
Proof.
  split.
  - destruct (main_platform_and_listing (Ext := Ref.externals)
                password_managers "linux"
                (mkArgs false false true false false)
                Fixtures.slack_fresh) as [H _].
    apply H. discriminate.
  - destruct (main_platform_and_listing (Ext := Ref.externals)
                password_managers "darwin"
                (mkArgs false false true true true)
                Fixtures.slack_fresh) as (_ & H & _).
    destruct (H eq_refl eq_refl) as [_ H0]. apply H0.
    apply reachable_check. vm_compute; reflexivity.
Defined.

Lemma patch_local_states_results `{Ext : Externals} (self : Patcher)
      (library : string) (rel_paths : list string) (app_name : string)
      (s s' : St) (r : list string) :
  patch_local_states self library rel_paths app_name s = (Ret r, s') ->
  Forall (fun x => x = "Local State patched") r.
Proof.
  revert s s' r. induction rel_paths as [|rel rest IH]; intros s s' r; cbn.
  - by intros [= <- _].
  - mred.
    destruct (patch_local_state self _ app_name s) as [[ok|e] s1]; [|done].
    destruct (patch_local_states self library rest app_name s1)
      as [[more|e] s2] eqn:Hrest; [|done].
    intros [= <- _]. apply IH in Hrest.
    destruct ok; cbn; [by constructor | done].
Qed.

Lemma join_results_not_sentinel (results : list string) :
  results <> [] ->
  Forall (fun x => x = "Local State patched" \/ x = "Settings patched" \/
                   x = "Executable already patched" \/
                   x = "Executable patched") results ->
  PyStr.join ", " results <> "Not installed".
Proof.
  destruct results as [|h t]; [done|]. intros _ Hall.
  apply Forall_cons in Hall as [Hh _].
  destruct Hh as [-> | [-> | [-> | ->]]]; destruct t; cbn; discriminate.
Qed.

(** X21: the sentinel of the orchestrator is unambiguous.
    [patch_known_app] answers [Not installed] exactly when the app is
    not found; for an app that is found, every answer it returns is a
    different text, so the patch loop records every installed app it has
    processed. *)
Theorem patch_known_app_not_installed `{Ext : Externals} (self : Patcher)
        (app_name : string) (config : AppConfig) (patch_executables : bool)
        (s : St) :
  fst (patch_known_app self app_name config patch_executables s)
  = Ret "Not installed"
  <-> fst (find_app_path config s) = Ret None.
Proof.
  unfold patch_known_app. mred.
  destruct (find_app_path_spec config s) as [[[app|]|e] ->]; mred;
    [|done..].
  split; [|done]. intros H. exfalso. revert H.
  assert (Hfin : forall (r1 a1 a2 : list string) (st : St),
             Forall (fun x => x = "Local State patched") r1 ->
             Forall (fun x => x = "Settings patched") a1 ->
             Forall (fun x => x = "Executable already patched" \/
                              x = "Executable patched") a2 ->
             fst (match r1 ++ a1 ++ a2 with
                  | [] =>
                      if needs_executable_patch config && negb patch_executables
                      then ret "⚠️  Needs --patch-executables flag"
                      else ret "No changes needed"
                  | _ :: _ => ret (PyStr.join ", " (r1 ++ a1 ++ a2))
                  end st) = Ret "Not installed" -> False).
  { intros r1 a1 a2 st Hr1 Ha1 Ha2.
    destruct (r1 ++ a1 ++ a2) as [|h t] eqn:E.
    - by destruct (needs_executable_patch config && negb patch_executables).
    - rewrite <- E. cbn. intros [= Hj]. revert Hj.
      apply join_results_not_sentinel; [by rewrite E|].
      repeat (apply Forall_app; split);
        (eapply Forall_impl; [eassumption|]); cbn; intuition. }
  destruct (notes config); mred.
  all: destruct (patch_local_states self _ (local_state_paths config)
                   app_name _) as [[r1|e] s1] eqn:H1; mred; [|done].
  all: apply patch_local_states_results in H1.
  all: destruct (PyStr.truthy (settings_file config)); mred.
  all: try (destruct (patch_settings_file self config s1) as [[[|]|e] s2];
            mred; [| |done]).
  all: destruct patch_executables, (needs_executable_patch config) eqn:Hn;
    mred.
  all: try (destruct (get_executable_from_app self (Some app) _)
              as [[[exe|]|e] s3]; mred; [| |done]).
  all: try (destruct (is_already_patched_spec (Some exe) s3)
              as [[[|]|e'] ->]; mred; [| |done]).
  all: try (destruct (patch_executable self config s3) as [[[|]|e] s4]; mred;
            [| |done]).
  all: intros H;
    match goal with
    | H : context [PyStr.join ", " (?r ++ ?a1 ++ ?a2)] |- _ =>
        eapply (Hfin r a1 a2); [| | | exact H]
    end; auto; repeat constructor; auto.
Qed.

(** ** Witnesses for two facts stated earlier *)

Lemma patch_executable_blocked_witness :
  files (snd (patch_executable (Ext := Ref.externals) Fixtures.quiet slack
                Fixtures.slack_running))
  = files Fixtures.slack_running.
Proof.
  rewrite (patch_executable_blocked (Ext := Ref.externals) Fixtures.quiet
             slack Fixtures.slack_running "/Applications/Slack.app"
             Fixtures.slack_exe).
  - reflexivity.
  - split; [|split]; vm_compute; first [reflexivity | discriminate].
  - vm_compute; reflexivity.
  - vm_compute; reflexivity.
  - vm_compute; reflexivity.
Defined.

Lemma dry_run_keeps_disk_witness :
  keeps_disk (patch_executable (Ext := Ref.externals) Fixtures.dry slack).
Proof.
  apply (dry_run_keeps_disk (Ext := Ref.externals) Fixtures.dry slack).
  reflexivity.
Defined.
